(** * AI4Water: transformation search space and reversible multi-source
      transformations

    A shallow embedding of [ai4water/_optimize.py] (function [make_space]
    and method [OptimizeTransformations.update]) and of
    [ai4water/preprocessing/transformations/_transformation_wrapper.py]
    (class [Transformations] and function [conform_shape]), followed by the
    properties of these programs.

    Python exceptions are values of [exn]; a call that may raise returns
    [exn + A].  Python dictionaries keep insertion order, and the order is
    observable (the order of a search space, the list of available keys in an
    error message), so they are association lists with the update rule of
    Python: assigning to a present key keeps its position. *)

From Stdlib Require Import String Ascii List Bool Arith ZArith QArith Lia.
From Stdlib Require Decimal DecimalString DecimalNat.
Import ListNotations.
Close Scope Q_scope.
Open Scope string_scope.

Set Warnings "-register-all".

(** ** Exceptions *)

Inductive exn : Type :=
| AssertionError
| AttributeError
| IndexError
| TypeError
| KeyError (key : string)
| ValueError
  (** the [ValueError] of [_inverse_transform_2d], whose message names the
      key that was looked up and lists [list(self.scalers.keys())] *)
| ValueError_key_not_found (key : string) (available : list string).

Definition result (A : Type) : Type := (exn + A)%type.

Definition ok {A} (a : A) : result A := inr a.

Definition throw {A} (e : exn) : result A := inl e.

Definition rbind {A B} (r : result A) (f : A -> result B) : result B :=
  match r with
  | inl e => inl e
  | inr a => f a
  end.

Definition assert (b : bool) : result unit :=
  if b then ok tt else throw AssertionError.

Declare Scope res_scope.
Delimit Scope res_scope with res.
Notation "x <- r ;; k" := (rbind r (fun x => k))
  (at level 61, r at next level, right associativity) : res_scope.
Notation "r ;;; k" := (rbind r (fun _ => k))
  (at level 61, right associativity) : res_scope.

(** ** Insertion-ordered dictionaries with [str] keys *)

Definition dict (A : Type) : Type := list (string * A).

Fixpoint dict_get {A} (d : dict A) (k : string) : option A :=
  match d with
  | [] => None
  | (k', v) :: d' => if String.eqb k k' then Some v else dict_get d' k
  end.

(** [k in d] *)
Definition dict_mem {A} (d : dict A) (k : string) : bool :=
  match dict_get d k with Some _ => true | None => false end.

(** [d[k] = v] *)
Fixpoint dict_set {A} (d : dict A) (k : string) (v : A) : dict A :=
  match d with
  | [] => [(k, v)]
  | (k', v') :: d' =>
      if String.eqb k k' then (k', v) :: d' else (k', v') :: dict_set d' k v
  end.

Fixpoint dict_remove {A} (d : dict A) (k : string) : dict A :=
  match d with
  | [] => []
  | (k', v') :: d' =>
      if String.eqb k k' then d' else (k', v') :: dict_remove d' k
  end.

(** [d.pop(k)], the popped value dropped *)
Definition dict_pop {A} (d : dict A) (k : string) : result (dict A) :=
  if dict_mem d k then ok (dict_remove d k) else throw (KeyError k).

(** [d[k]] *)
Definition dict_item {A} (d : dict A) (k : string) : result A :=
  match dict_get d k with
  | Some v => ok v
  | None => throw (KeyError k)
  end.

(** [d.update(d')] *)
Definition dict_update {A} (d d' : dict A) : dict A :=
  fold_left (fun acc kv => dict_set acc (fst kv) (snd kv)) d' d.

Definition dict_keys {A} (d : dict A) : list string := map fst d.

Definition dict_values {A} (d : dict A) : list A := map snd d.

Definition str_in (s : string) (l : list string) : bool :=
  existsb (String.eqb s) l.

(** ** The search-space builder, [_optimize.py] *)

Module Optimize.

(** [hpo.Categorical(categories, name=name)]: a named categorical
    dimension.  The class belongs to [ai4water.hyperopt]; only its two
    constructor arguments matter here. *)
Record Categorical : Type := mkCategorical
  { categories : list string; name : string }.

(** The values found in the [include] and [append] mappings:
    a ready-made [Categorical], a list of candidates, anything else. *)
Inductive candidates : Type :=
| CCategorical (c : Categorical)
| CList (l : list string)
| COther.

(** An element of an [include] list. *)
Inductive feature : Type :=
| FStr (s : string)
| FDict (d : dict candidates)
| FOther.

(** The [include] argument: [None], a [str], a [list], a [dict], or any
    other object. *)
Inductive include_arg : Type :=
| IncNone
| IncStr (s : string)
| IncList (l : list feature)
| IncDict (d : dict candidates)
| IncOther.

Inductive exclude_arg : Type :=
| ExNone
| ExStr (s : string)
| ExList (l : list string)
| ExOther.

Inductive append_arg : Type :=
| ApNone
| ApDict (d : dict candidates)
| ApOther.

(** [feat in input_features], where [input_features] is a list of [str]:
    a dictionary, or any object that is not a [str], equals none of them. *)
Definition feature_in (feat : feature) (input_features : list string) : bool :=
  match feat with
  | FStr s => str_in s input_features
  | FDict _ => false
  | FOther => false
  end.

(** The loop over an [include] list, lines 247-253. *)
Fixpoint include_of_list (input_features categories : list string)
    (include : list feature) (_include : dict candidates)
  : result (dict candidates) :=
  match include with
  | [] => ok _include
  | feat :: rest =>
      (assert (feature_in feat input_features) ;;;
       match feat with
       | FStr s =>
           include_of_list input_features categories rest
             (dict_set _include s (CList categories))
       | FDict d =>
           assert (Nat.eqb (length d) 1) ;;;
           match d with
           | (k, v) :: _ =>
               include_of_list input_features categories rest
                 (dict_set _include k v)
           | [] => throw IndexError
           end
       | FOther => throw AssertionError
       end)%res
  end.

(** The loops of lines 260-264 and 275-279: every value that is not a
    [Categorical] must be a list and is wrapped under the name of its key. *)
Fixpoint add_dimensions (items : dict candidates) (space : dict Categorical)
  : result (dict Categorical) :=
  match items with
  | [] => ok space
  | (k, v) :: rest =>
      match v with
      | CCategorical c => add_dimensions rest (dict_set space k c)
      | CList l => add_dimensions rest (dict_set space k (mkCategorical l k))
      | COther => throw AssertionError
      end
  end.

(** [for feat in exclude: space.pop(feat)] *)
Fixpoint pop_all (exclude : list string) (space : dict Categorical)
  : result (dict Categorical) :=
  match exclude with
  | [] => ok space
  | feat :: rest => (space' <- dict_pop space feat ;; pop_all rest space')%res
  end.

(** [{name: Categorical(categories, name=name) for name in input_features}] *)
Definition default_space (input_features categories : list string)
  : dict Categorical :=
  fold_left (fun sp nm => dict_set sp nm (mkCategorical categories nm))
    input_features [].

Definition make_space (input_features categories : list string)
    (include : include_arg) (exclude : exclude_arg) (append : append_arg)
  : result (list Categorical) :=
  (let space := default_space input_features categories in
   space <-
     match include with
     | IncNone => ok space
     | _ =>
         include <-
           match include with
           | IncStr s => ok [(s, CList categories)]
           | IncList l => include_of_list input_features categories l []
           | IncDict d => assert (Nat.eqb (length d) 1) ;;; ok d
           | _ => throw AssertionError
           end ;;
         add_dimensions include []
     end ;;
   space <-
     match exclude with
     | ExNone => ok space
     | ExStr s => pop_all [s] space
     | ExList l => pop_all l space
     | ExOther => throw AssertionError
     end ;;
   space <-
     match append with
     | ApNone => ok space
     | ApDict d => add_dimensions d space
     | ApOther => throw AssertionError
     end ;;
   ok (dict_values space))%res.

End Optimize.

(** ** Python values of the transformation wrapper *)

(** Decimal rendering of an index inside an f-string, [f"{idx}"]. *)
Definition dec (n : nat) : string := DecimalString.NilEmpty.string_of_uint (Nat.to_uint n).

(** [str(z)] for an [int]. *)
Definition dec_int (z : Z) : string := DecimalString.NilEmpty.string_of_int (Z.to_int z).

(** [f"{key}_{suffix}"] *)
Definition fkey (key suffix : string) : string := key ++ "_" ++ suffix.

(** Plain values: what [feature_names] and [config] are made of
    ([None], [bool], [int], [str], [list], [dict] with [str] keys). *)
Inductive pyval : Type :=
| VNone
| VBool (b : bool)
| VInt (z : Z)
| VStr (s : string)
| VList (xs : list pyval)
| VDict (kvs : list (string * pyval)).

(** Column labels of a [DataFrame]: the hashable plain values. *)
Inductive label : Type :=
| LNone
| LInt (z : Z)
| LStr (s : string).

Definition label_eqb (a b : label) : bool :=
  match a, b with
  | LNone, LNone => true
  | LInt x, LInt y => Z.eqb x y
  | LStr x, LStr y => String.eqb x y
  | _, _ => false
  end.

Definition label_in (a : label) (l : list label) : bool :=
  existsb (label_eqb a) l.

(** The label a plain value stands for; lists and dictionaries are
    unhashable ([TypeError]); [True] and [False] hash as [1] and [0]. *)
Definition label_of (v : pyval) : result label :=
  match v with
  | VNone => ok LNone
  | VBool b => ok (LInt (if b then 1 else 0))
  | VInt z => ok (LInt z)
  | VStr s => ok (LStr s)
  | VList _ => throw TypeError
  | VDict _ => throw TypeError
  end.

Section Tables.

Variable V : Type.

(** [pd.DataFrame]: shape [(len(df_rows), len(df_columns))]. *)
Record DataFrame : Type := mkFrame
  { df_columns : list label; df_rows : list (list V) }.

(** [np.ndarray] of rank 2: shape [(len(rows2), ncols)]. *)
Record ndarray2 : Type := mkArray2
  { ncols : nat; rows2 : list (list V) }.

(** [np.ndarray] of rank 3: shape [(len(cube), steps, width)], that is
    (examples, time steps, features). *)
Record ndarray3 : Type := mkArray3
  { steps : nat; width : nat; cube : list (list (list V)) }.

(** Any object that can be handed to [fit_transform]. *)
Inductive pyobj : Type :=
| PyNone
| PyBool (b : bool)
| PyInt (z : Z)
| PyStr (s : string)
| PyList (xs : list pyobj)
| PyDict (kvs : list (string * pyobj))
| PyArray2 (a : ndarray2)
| PyArray3 (a : ndarray3)
| PyFrame (df : DataFrame).

(** [obj.__class__.__name__] *)
Definition class_name (o : pyobj) : string :=
  match o with
  | PyNone => "NoneType"
  | PyBool _ => "bool"
  | PyInt _ => "int"
  | PyStr _ => "str"
  | PyList _ => "list"
  | PyDict _ => "dict"
  | PyArray2 _ => "ndarray"
  | PyArray3 _ => "ndarray"
  | PyFrame _ => "DataFrame"
  end.

(** The fitted-transform descriptor [{scaler, shape, key}] kept in the
    registry; [fitted] is the opaque fitted state. *)
Record ScalerEntry (fitted : Type) : Type := mkEntry
  { scaler : fitted; shape : list nat; key : string }.

End Tables.

Arguments mkFrame {V}.
Arguments df_columns {V}.
Arguments df_rows {V}.
Arguments mkArray2 {V}.
Arguments ncols {V}.
Arguments rows2 {V}.
Arguments mkArray3 {V}.
Arguments steps {V}.
Arguments width {V}.
Arguments cube {V}.
Arguments PyNone {V}.
Arguments PyBool {V}.
Arguments PyInt {V}.
Arguments PyStr {V}.
Arguments PyList {V}.
Arguments PyDict {V}.
Arguments PyArray2 {V}.
Arguments PyArray3 {V}.
Arguments PyFrame {V}.
Arguments class_name {V}.
Arguments mkEntry {fitted}.
Arguments scaler {fitted}.
Arguments shape {fitted}.
Arguments key {fitted}.

(** ** Plain values: the operations the wrapper performs on them *)

(** [v.__class__.__name__] *)
Definition val_class (v : pyval) : string :=
  match v with
  | VNone => "NoneType"
  | VBool _ => "bool"
  | VInt _ => "int"
  | VStr _ => "str"
  | VList _ => "list"
  | VDict _ => "dict"
  end.

(** [bool(v)] *)
Definition truthy (v : pyval) : bool :=
  match v with
  | VNone => false
  | VBool b => b
  | VInt z => negb (Z.eqb z 0)
  | VStr s => negb (String.eqb s "")
  | VList xs => match xs with [] => false | _ => true end
  | VDict kvs => match kvs with [] => false | _ => true end
  end.

(** [v is not None] *)
Definition is_not_none (v : pyval) : bool :=
  match v with VNone => false | _ => true end.

Definition chars (s : string) : list string :=
  map (fun c => String c EmptyString) (list_ascii_of_string s).

(** [for x in v]: the elements a [for] loop sees. *)
Definition iterate (v : pyval) : result (list pyval) :=
  match v with
  | VList xs => ok xs
  | VDict kvs => ok (map (fun kv => VStr (fst kv)) kvs)
  | VStr s => ok (map VStr (chars s))
  | _ => throw TypeError
  end.

(** [v[i]] for an [int] index inside [range(len(...))]. *)
Definition getitem_int (v : pyval) (i : nat) : result pyval :=
  match v with
  | VList xs =>
      match nth_error xs i with Some x => ok x | None => throw IndexError end
  | VStr s =>
      match nth_error (chars s) i with
      | Some c => ok (VStr c)
      | None => throw IndexError
      end
  | VDict _ => throw (KeyError (dec i))
  | _ => throw TypeError
  end.

(** [v[k]] for a [str] key. *)
Definition getitem_str (v : pyval) (k : string) : result pyval :=
  match v with
  | VDict kvs => dict_item kvs k
  | _ => throw TypeError
  end.

Fixpoint join (sep : string) (l : list string) : string :=
  match l with
  | [] => ""
  | [x] => x
  | x :: rest => x ++ sep ++ join sep rest
  end.

(** [repr(v)]; escapes inside quoted strings are not rendered. *)
Fixpoint py_repr (v : pyval) : string :=
  match v with
  | VNone => "None"
  | VBool b => if b then "True" else "False"
  | VInt z => dec_int z
  | VStr s => "'" ++ s ++ "'"
  | VList xs => "[" ++ join ", " (map py_repr xs) ++ "]"
  | VDict kvs =>
      "{" ++ join ", "
               (map (fun kv => "'" ++ fst kv ++ "': " ++ py_repr (snd kv)) kvs)
          ++ "}"
  end.

(** [f"{v}"], that is [str(v)] *)
Definition py_str (v : pyval) : string :=
  match v with
  | VStr s => s
  | _ => py_repr v
  end.

(** ** The configuration update of [OptimizeTransformations], [_optimize.py] *)

Module Update.

(** [method == "none"] *)
Definition is_none_name (method : pyval) : bool :=
  match method with
  | VStr m => String.eqb m "none"
  | _ => false
  end.

(** [t["treat_negatives"] = True; t["replace_zeros"] = True] *)
Definition with_flags (t : dict pyval) : dict pyval :=
  dict_set (dict_set t "treat_negatives" (VBool true))
    "replace_zeros" (VBool true).

(** The dictionary [t] of lines 194-204.  Only a [str] has
    [startswith]; the three branches that set the flags do the same. *)
Definition descriptor (feature : string) (method : pyval)
  : result (dict pyval) :=
  let t := [("method", method); ("features", VList [VStr feature])] in
  match method with
  | VStr m =>
      if String.prefix "log" m then ok (with_flags t)
      else if str_in m ["box-cox"; "yeo-johnson"; "power"]
           then ok (with_flags t)
           else if String.eqb m "sqrt" then ok (with_flags t)
                else ok t
  | _ => throw AttributeError
  end.

(** The loop of lines 189-209 over the remaining suggestions. *)
Fixpoint collect (input_features : list string) (suggestions : dict pyval)
    (transformations y_transformations : list pyval)
  : result (list pyval * list pyval) :=
  match suggestions with
  | [] => ok (transformations, y_transformations)
  | (feature, method) :: rest =>
      if is_none_name method
      then collect input_features rest transformations y_transformations
      else
        (t <- descriptor feature method ;;
         if str_in feature input_features
         then collect input_features rest
                (transformations ++ [VDict t])%list y_transformations
         else collect input_features rest
                transformations (y_transformations ++ [VDict t])%list)%res
  end.

(** [y_transformations or None] *)
Definition or_None (l : list pyval) : pyval :=
  match l with
  | [] => VNone
  | _ => VList l
  end.

(** [OptimizeTransformations.update(config, suggestions)]: the method
    returns nothing and changes [config] in place; here it returns the
    changed [config]. *)
Definition update (input_features : list string)
    (config suggestions : dict pyval) : result (dict pyval) :=
  (r <- collect input_features suggestions [] [] ;;
   let config := dict_set config "x_transformation" (VList (fst r)) in
   ok (dict_set config "y_transformation" (or_None (snd r))))%res.

End Update.

(** ** The external collaborators

    The statistical transformations ([Transformation]), the fitted scalers
    and numpy's random generator are not part of the wrapper.  They are the
    fields of [Backend]:
    - [Transformation_transform kwargs df] is
      [Transformation(data=df, **kwargs)('transformation', return_key=True)];
    - [Transformation_inverse kwargs s df] is
      [Transformation(data=df, **kwargs)(what='inverse', scaler=s)];
    - [scaler_inverse_transform s df] is [s.inverse_transform(df)];
    - [random_sample] is one draw of [np.random.random]. *)

Class Backend : Type := mkBackend
  { cell : Type;
    nan : cell;
    fitted : Type;
    generator : Type;
    random_sample : generator -> cell * generator;
    Transformation_transform :
      dict pyval -> DataFrame cell -> result (DataFrame cell * ScalerEntry fitted);
    Transformation_inverse :
      dict pyval -> fitted -> DataFrame cell -> result (DataFrame cell);
    scaler_inverse_transform :
      fitted -> DataFrame cell -> result (ndarray2 cell) }.

Section Wrapper.

Context {B : Backend}.

#[local] Abbreviation frame := (DataFrame cell).
#[local] Abbreviation array2 := (ndarray2 cell).
#[local] Abbreviation array3 := (ndarray3 cell).
#[local] Abbreviation object := (pyobj cell).
#[local] Abbreviation entry := (ScalerEntry fitted).

(** *** numpy and pandas operations used by the wrapper *)

Fixpoint random_vector (n : nat) (g : generator) : list cell * generator :=
  match n with
  | O => ([], g)
  | S n' =>
      let (x, g1) := random_sample g in
      let (xs, g2) := random_vector n' g1 in
      (x :: xs, g2)
  end.

(** [np.random.random((n, k))], drawn row by row *)
Fixpoint random_matrix (n k : nat) (g : generator)
  : list (list cell) * generator :=
  match n with
  | O => ([], g)
  | S n' =>
      let (r, g1) := random_vector k g in
      let (rs, g2) := random_matrix n' k g1 in
      (r :: rs, g2)
  end.

(** [df.values] *)
Definition values (df : frame) : array2 :=
  mkArray2 (length (df_columns df)) (df_rows df).

Fixpoint map2 {X Y Z : Type} (f : X -> Y -> Z) (xs : list X) (ys : list Y)
  : list Z :=
  match xs, ys with
  | x :: xs', y :: ys' => f x y :: map2 f xs' ys'
  | _, _ => []
  end.

Fixpoint set_nth {X : Type} (i : nat) (x : X) (l : list X) : list X :=
  match l, i with
  | [], _ => []
  | _ :: l', O => x :: l'
  | y :: l', S i' => y :: set_nth i' x l'
  end.

Fixpoint index_of (a : label) (l : list label) : option nat :=
  match l with
  | [] => None
  | b :: l' =>
      if label_eqb a b then Some O
      else match index_of a l' with Some i => Some (S i) | None => None end
  end.

Fixpoint nodup_labels (l : list label) : bool :=
  match l with
  | [] => true
  | a :: l' => negb (label_in a l') && nodup_labels l'
  end.

Definition label_repr (a : label) : string :=
  match a with
  | LNone => "None"
  | LInt z => dec_int z
  | LStr s => "'" ++ s ++ "'"
  end.

(** The labels given as [columns=...]: a list of hashable values, or the
    keys of a dictionary. *)
Fixpoint labels_of_list (xs : list pyval) : result (list label) :=
  match xs with
  | [] => ok []
  | x :: xs' =>
      (a <- label_of x ;; l <- labels_of_list xs' ;; ok (a :: l))%res
  end.

Definition labels_of (cols : pyval) : result (list label) :=
  match cols with
  | VList xs => labels_of_list xs
  | VDict kvs => ok (map (fun kv => LStr (fst kv)) kvs)
  | _ => throw TypeError
  end.

(** One row of [df.reindex(columns=cols)]: a label that is absent gives
    a [nan] cell. *)
Definition reindex_row (old new : list label) (row : list cell) : list cell :=
  map (fun a => match index_of a old with
                | Some i => nth i row nan
                | None => nan
                end) new.

(** [pd.DataFrame(data, columns=cols)] for the two kinds of 2-D data the
    wrapper passes: an array takes the labels (as many as it has columns),
    a frame is reindexed by them (its own labels must then be unique). *)
Definition pd_DataFrame (data : object) (cols : pyval) : result frame :=
  (new <- labels_of cols ;;
   match data with
   | PyArray2 a =>
       if Nat.eqb (length new) (ncols a) then ok (mkFrame new (rows2 a))
       else throw ValueError
   | PyFrame df =>
       if nodup_labels (df_columns df)
       then ok (mkFrame new (map (reindex_row (df_columns df) new) (df_rows df)))
       else throw ValueError
   | PyArray3 _ => throw ValueError
   | _ => throw TypeError
   end)%res.

Fixpoint positions_from (i : nat) (a : label) (l : list label) : list nat :=
  match l with
  | [] => []
  | b :: l' =>
      if label_eqb a b then i :: positions_from (S i) a l'
      else positions_from (S i) a l'
  end.

(** Positions selected by [df[labels]]; a label that [df] lacks is a
    [KeyError]. *)
Fixpoint select_positions (have want : list label) : result (list nat) :=
  match want with
  | [] => ok []
  | a :: want' =>
      match positions_from 0 a have with
      | [] => throw (KeyError (label_repr a))
      | ps => (qs <- select_positions have want' ;; ok (ps ++ qs)%list)%res
      end
  end.

(** [df[labels]] *)
Definition select_columns (df : frame) (labels : list label) : result frame :=
  (ps <- select_positions (df_columns df) labels ;;
   ok (mkFrame (map (fun i => nth i (df_columns df) LNone) ps)
         (map (fun row => map (fun i => nth i row nan) ps) (df_rows df))))%res.

(** [row[d:]] for a possibly negative start *)
Definition slice_from {X : Type} (d : Z) (row : list X) : list X :=
  if (0 <=? d)%Z then skipn (Z.to_nat d) row
  else skipn (length row - Z.to_nat (- d)) row.

(** [arr[:, d:]] *)
Definition slice_columns (d : Z) (a : array2) : array2 :=
  mkArray2 (length (slice_from d (repeat tt (ncols a))))
    (map (slice_from d) (rows2 a)).

Fixpoint chunks {X : Type} (n c : nat) (l : list X) : list (list X) :=
  match n with
  | O => []
  | S n' => firstn c l :: chunks n' c (skipn c l)
  end.

(** [arr.reshape((n, c))]: the cells in row-major order, cut into [n] rows *)
Definition reshape (a : array2) (n c : nat) : result array2 :=
  let flat := concat (rows2 a) in
  if Nat.eqb (length flat) (n * c) then ok (mkArray2 c (chunks n c flat))
  else throw ValueError.

(** [arr[:, t]] of a rank-3 array *)
Definition slice_step (a : array3) (t : nat) : array2 :=
  mkArray2 (width a) (map (fun ex => nth t ex []) (cube a)).

(** [np.full(arr.shape, np.nan)] *)
Definition np_full_nan (a : array3) : array3 :=
  mkArray3 (steps a) (width a)
    (repeat (repeat (repeat nan (width a)) (steps a)) (length (cube a))).

(** Broadcasting of a 2-D value to the shape [(n, c)]: an axis of length 1
    is repeated, any other mismatch is a [ValueError]. *)
Definition broadcast_to (v : array2) (n c : nat) : result (list (list cell)) :=
  (rs <- (if Nat.eqb (length (rows2 v)) n then ok (rows2 v)
          else if Nat.eqb (length (rows2 v)) 1
               then ok (repeat (hd [] (rows2 v)) n)
               else throw ValueError) ;;
   if Nat.eqb (ncols v) c then ok rs
   else if Nat.eqb (ncols v) 1
        then ok (map (fun r => repeat (hd nan r) c) rs)
        else throw ValueError)%res.

(** [_data[:, t] = value] *)
Definition assign_step (_data : array3) (t : nat) (value : object)
  : result array3 :=
  (v <- match value with
        | PyArray2 a => ok a
        | PyFrame df => ok (values df)
        | _ => throw ValueError
        end ;;
   rs <- broadcast_to v (length (cube _data)) (width _data) ;;
   ok (mkArray3 (steps _data) (width _data)
         (map2 (fun ex r => set_nth t r ex) (cube _data) rs)))%res.

(** [data.values] *)
Definition dot_values (data : object) : result object :=
  match data with
  | PyFrame df => ok (PyArray2 (values df))
  | _ => throw AttributeError
  end.

(** *** The instance, the world and the monad of the methods *)

(** The attributes of a [Transformations] instance.  The three flags do
    not exist before the first [fit_transform] that gets past its first
    line; reading an attribute that does not exist is an
    [AttributeError]. *)
Record Transformations : Type := mkTransformations
  { names : pyval;
    config : pyval;
    scalers : dict entry;
    is_numpy_ : option bool;
    is_list_ : option bool;
    is_dict_ : option bool }.

(** [Transformations(feature_names, config)] *)
Definition __init__ (feature_names config : pyval) : Transformations :=
  mkTransformations feature_names config [] None None None.

(** What a call can change: the instance and numpy's global generator. *)
Record world : Type := mkWorld
  { self : Transformations; np_random : generator }.

(** What a call lets an observer see besides its result: the calls made
    to the external transformation primitive and the keys written to the
    registry, in order. *)
Inductive event : Type :=
| Transform_called (kwargs : dict pyval)
| Inverse_called (kwargs : dict pyval) (s : fitted)
| Scaler_inverse_called (s : fitted)
| Registered (key : string).

Record outcome (A : Type) : Type := mkOutcome
  { value : result A; after : world; emitted : list event }.

Arguments mkOutcome {A}.
Arguments value {A}.
Arguments after {A}.
Arguments emitted {A}.

Definition M (A : Type) : Type := world -> outcome A.

Definition ret {A} (a : A) : M A := fun w => mkOutcome (inr a) w [].

Definition raise {A} (e : exn) : M A := fun w => mkOutcome (inl e) w [].

Definition bind {A C} (m : M A) (f : A -> M C) : M C :=
  fun w =>
    let o := m w in
    match value o with
    | inl e => mkOutcome (inl e) (after o) (emitted o)
    | inr a =>
        let o' := f a (after o) in
        mkOutcome (value o') (after o') (emitted o ++ emitted o')%list
    end.

Definition lift {A} (r : result A) : M A := fun w => mkOutcome r w [].

Definition get_self : M Transformations :=
  fun w => mkOutcome (inr (self w)) w [].

Definition set_self (s : Transformations) : M unit :=
  fun w => mkOutcome (inr tt) (mkWorld s (np_random w)) [].

Definition emit (e : event) : M unit := fun w => mkOutcome (inr tt) w [e].

Definition draw {A} (f : generator -> A * generator) : M A :=
  fun w =>
    let (a, g) := f (np_random w) in
    mkOutcome (inr a) (mkWorld (self w) g) [].

Declare Scope m_scope.
Delimit Scope m_scope with M.
Notation "x <- m ;; k" := (bind m (fun x => k))
  (at level 61, m at next level, right associativity) : m_scope.
Notation "m ;;; k" := (bind m (fun _ => k))
  (at level 61, right associativity) : m_scope.

(** [object.flag], where the attribute may not exist yet *)
Definition attribute (flag : option bool) : M bool :=
  match flag with
  | Some b => ret b
  | None => raise AttributeError
  end.

(** *** [conform_shape] *)

(** [np.random.random((n, k))]; a negative dimension is a [ValueError]. *)
Definition np_random_random (n : nat) (k : Z) : M (list (list cell)) :=
  if (k <? 0)%Z then raise ValueError
  else draw (random_matrix n (Z.to_nat k)).

(** [shape[-1]] *)
Definition last_dim (shape : list nat) : Z := Z.of_nat (last shape O).

(** Lines 352-354: every feature that is not a column yet becomes a new
    last column of random values. *)
Fixpoint add_missing (features : list pyval) (df : frame) : M frame :=
  match features with
  | [] => ret df
  | f :: rest =>
      (a <- lift (label_of f) ;;
       if label_in a (df_columns df) then add_missing rest df
       else
         col <- draw (random_vector (length (df_rows df))) ;;
         add_missing rest
           (mkFrame (df_columns df ++ [a])%list
              (map2 (fun r x => r ++ [x])%list (df_rows df) col)))%M
  end.

(** [pd.concat([pd.DataFrame(dummy_data), df], axis=1)]: the dummy
    columns, labelled [0 .. k-1], come first. *)
Definition concat_frames (dummy_data : list (list cell)) (k : nat) (df : frame)
  : frame :=
  mkFrame (map (fun i => LInt (Z.of_nat i)) (seq 0 k) ++ df_columns df)%list
    (map2 (fun d r => d ++ r)%list dummy_data (df_rows df)).

(** [np.concatenate([dummy_data, arr], axis=1)] for two 2-D arrays *)
Definition concatenate (dummy_data : list (list cell)) (k : nat)
    (c : nat) (rs : list (list cell)) : array2 :=
  mkArray2 (k + c) (map2 (fun d r => d ++ r)%list dummy_data rs).

(** [conform_shape(data, shape, features=None)].  Whenever the rank of
    [data] has to be changed and the result is not a 2-D array, the final
    [np.concatenate] of the 2-D dummy block with it raises. *)
Definition conform_shape (data : object) (shape : list nat) (features : pyval)
  : M (object * Z) :=
  let r := length shape in
  match data with
  | PyFrame df =>
      if Nat.ltb r 2 then
        (* np.squeeze(df, axis=-1): a frame has no axis -1 *)
        raise ValueError
      else if Nat.ltb 2 r then
        (* np.expand_dims gives an array of shape (n, c, 1) *)
        (lift (assert (Nat.eqb 3 r)) ;;;
         np_random_random (length (df_rows df)) (last_dim shape - 1) ;;;
         raise ValueError)%M
      else
        let dummy_features :=
          (last_dim shape - Z.of_nat (length (df_columns df)))%Z in
        if truthy features then
          (fs <- lift (iterate features) ;;
           df' <- add_missing fs df ;;
           ret (PyFrame df', dummy_features))%M
        else if (0 <? dummy_features)%Z then
          (dummy_data <-
             draw (random_matrix (length (df_rows df)) (Z.to_nat dummy_features)) ;;
           ret (PyFrame (concat_frames dummy_data (Z.to_nat dummy_features) df),
                dummy_features))%M
        else ret (PyFrame df, dummy_features)
  | PyArray2 a =>
      if Nat.ltb r 2 then
        if Nat.eqb (ncols a) 1 then
          (* squeezed to shape (n,) *)
          (lift (assert (Nat.eqb 1 r)) ;;;
           np_random_random (length (rows2 a))
             (last_dim shape - Z.of_nat (length (rows2 a))) ;;;
           raise ValueError)%M
        else raise ValueError
      else if Nat.ltb 2 r then
        (lift (assert (Nat.eqb 3 r)) ;;;
         np_random_random (length (rows2 a)) (last_dim shape - 1) ;;;
         raise ValueError)%M
      else
        let dummy_features := (last_dim shape - Z.of_nat (ncols a))%Z in
        (dummy_data <- np_random_random (length (rows2 a)) dummy_features ;;
         ret (PyArray2 (concatenate dummy_data (Z.to_nat dummy_features)
                          (ncols a) (rows2 a)),
              dummy_features))%M
  | PyArray3 a =>
      if Nat.ltb r 3 then
        if Nat.eqb (width a) 1 then
          (* squeezed to shape (examples, steps) *)
          let rs := map (map (fun row => hd nan row)) (cube a) in
          let dummy_features := (last_dim shape - Z.of_nat (steps a))%Z in
          (lift (assert (Nat.eqb 2 r)) ;;;
           dummy_data <- np_random_random (length rs) dummy_features ;;
           ret (PyArray2 (concatenate dummy_data (Z.to_nat dummy_features)
                            (steps a) rs),
                dummy_features))%M
        else raise ValueError
      else if Nat.ltb 3 r then
        (lift (assert (Nat.eqb 4 r)) ;;;
         np_random_random (length (cube a)) (last_dim shape - 1) ;;;
         raise ValueError)%M
      else
        (np_random_random (length (cube a))
           (last_dim shape - Z.of_nat (width a)) ;;;
         raise ValueError)%M
  | _ => raise AttributeError
  end.

(** *** The methods of [Transformations] *)

(** [self.transformation(data)]: a single method name is repeated for
    every source of a list or of a dictionary. *)
Definition transformation (slf : Transformations) (data : object) : pyval :=
  let config := config slf in
  match data with
  | PyList xs =>
      match config with
      | VStr _ => VList (repeat config (length xs))
      | _ => config
      end
  | PyDict kvs =>
      match config with
      | VStr _ =>
          VDict (fold_left (fun d k => dict_set d k config) (dict_keys kvs) [])
      | _ => config
      end
  | _ => config
  end.

Definition all_lists (xs : list pyval) : bool :=
  forallb (fun n => String.eqb (val_class n) "list") xs.

Definition _check_features : M unit :=
  (slf <- get_self ;;
   numpy <- attribute (is_numpy_ slf) ;;
   if numpy then lift (assert (String.eqb (val_class (names slf)) "list"))
   else
     list_ <- attribute (is_list_ slf) ;;
     if list_ then
       ns <- lift (iterate (names slf)) ;;
       lift (assert (all_lists ns))
     else
       dict_ <- attribute (is_dict_ slf) ;;
       if dict_ then
         match names slf with
         | VDict kvs => lift (assert (all_lists (dict_values kvs)))
         | _ => raise AssertionError
         end
       else ret tt)%M.

(** [Transformation(data=pd.DataFrame(data, columns=columns), **kwargs)
    ('transformation', return_key=True)]; a [data] entry among the keyword
    arguments clashes with the explicit one. *)
Definition call_transformation (data : object) (columns : pyval)
    (kwargs : dict pyval) : M (frame * entry) :=
  (df <- lift (pd_DataFrame data columns) ;;
   if dict_mem kwargs "data" then raise TypeError
   else
     emit (Transform_called kwargs) ;;;
     lift (Transformation_transform kwargs df))%M.

(** [f'{key}_{method}_{idx}'] *)
Definition list_key (key method : string) (idx : nat) : string :=
  key ++ "_" ++ method ++ "_" ++ dec idx.

(** The loop of lines 159-169, from position [idx] on. *)
Fixpoint transform_list (columns : pyval) (key : string)
    (transformation : list pyval) (idx : nat)
    (data : object) (scalers : dict entry) : M (object * dict entry) :=
  match transformation with
  | [] => ret (data, scalers)
  | trans :: rest =>
      match trans with
      | VStr method =>
          (r <- call_transformation data columns [("method", trans)] ;;
           transform_list columns key rest (S idx) (PyFrame (fst r))
             (dict_set scalers (list_key key method idx) (snd r)))%M
      | _ =>
          (method <- lift (getitem_str trans "method") ;;
           if is_not_none method then
             match trans with
             | VDict kwargs =>
                 r <- call_transformation data columns kwargs ;;
                 transform_list columns key rest (S idx) (PyFrame (fst r))
                   (dict_set scalers (list_key key (py_str method) idx) (snd r))
             | _ => raise TypeError
             end
           else transform_list columns key rest (S idx) data scalers)%M
      end
  end.

(** [self.scalers.update(scalers)] *)
Fixpoint register (updates : dict entry) : M unit :=
  match updates with
  | [] => ret tt
  | (k, e) :: rest =>
      (slf <- get_self ;;
       set_self (mkTransformations (names slf) (config slf)
                   (dict_set (scalers slf) k e)
                   (is_numpy_ slf) (is_list_ slf) (is_dict_ slf)) ;;;
       emit (Registered k) ;;;
       register rest)%M
  end.

Definition _transform_2d (data : object) (columns : pyval)
    (transformation : pyval) (key : string) : M object :=
  (r <-
     (if truthy transformation then
        r <-
          match transformation with
          | VDict kwargs =>
              r <- call_transformation data columns kwargs ;;
              ret (PyFrame (fst r), dict_set [] key (snd r))
          | VList l => transform_list columns key l 0 data []
          | VStr _ =>
              r <- call_transformation data columns
                     [("method", transformation)] ;;
              ret (PyFrame (fst r), dict_set [] key (snd r))
          | _ => raise AssertionError
          end ;;
        data <- lift (dot_values (fst r)) ;;
        ret (data, snd r)
      else ret (data, [])) ;;
   register (snd r) ;;;
   ret (fst r))%M.

(** The loop of lines 193-197 over the remaining time steps. *)
Fixpoint fit_steps (data : array3) (feature_names transformation : pyval)
    (key : string) (time_steps : list nat) (_data : array3) : M array3 :=
  match time_steps with
  | [] => ret _data
  | time_step :: rest =>
      (v <- _transform_2d (PyArray2 (slice_step data time_step))
              feature_names transformation (fkey key (dec time_step)) ;;
       _data <- lift (assign_step _data time_step v) ;;
       fit_steps data feature_names transformation key rest _data)%M
  end.

Definition __fit_transform (data : object) (feature_names transformation : pyval)
    (key : string) : M object :=
  match data with
  | PyArray3 a =>
      (_data <- fit_steps a feature_names transformation key
                  (seq 0 (steps a)) (np_full_nan a) ;;
       ret (PyArray3 _data))%M
  | PyArray2 _ | PyFrame _ =>
      _transform_2d data feature_names transformation key
  | _ => raise AttributeError
  end.

(** The loop of lines 211-216. *)
Fixpoint fit_list (names transformation : pyval) (key : string)
    (data : list object) (idx : nat) (_data : list object) : M (list object) :=
  match data with
  | [] => ret _data
  | array :: rest =>
      (feature_names <- lift (getitem_int names idx) ;;
       trans <- lift (getitem_int transformation idx) ;;
       r <- __fit_transform array feature_names trans (fkey key (dec idx)) ;;
       fit_list names transformation key rest (S idx) (_data ++ [r])%list)%M
  end.

(** The loop of lines 219-223. *)
Fixpoint fit_dict (names transformation : pyval) (key : string)
    (data : dict object) (_data : dict object) : M (dict object) :=
  match data with
  | [] => ret _data
  | (src_name, array) :: rest =>
      (feature_names <- lift (getitem_str names src_name) ;;
       trans <- lift (getitem_str transformation src_name) ;;
       r <- __fit_transform array feature_names trans (fkey key src_name) ;;
       fit_dict names transformation key rest (dict_set _data src_name r))%M
  end.

(** [enumerate(data)] and [data.items()] on an object of another class
    are a [TypeError] and an [AttributeError]. *)
Definition _fit_transform (data : object) (key : string) : M object :=
  (slf <- get_self ;;
   let transformation := transformation slf data in
   numpy <- attribute (is_numpy_ slf) ;;
   if numpy then __fit_transform data (names slf) transformation key
   else
     list_ <- attribute (is_list_ slf) ;;
     if list_ then
       match data with
       | PyList xs =>
           _data <- fit_list (names slf) transformation key xs 0 [] ;;
           ret (PyList _data)
       | _ => raise TypeError
       end
     else
       match data with
       | PyDict kvs =>
           _data <- fit_dict (names slf) transformation key kvs [] ;;
           ret (PyDict _data)
       | _ => raise AttributeError
       end)%M.

(** [setattr(self, 'is_numpy_', b)] and its two siblings *)
Definition set_is_numpy_ (b : bool) : M unit :=
  (slf <- get_self ;;
   set_self (mkTransformations (names slf) (config slf) (scalers slf)
               (Some b) (is_list_ slf) (is_dict_ slf)))%M.

Definition set_is_list_ (b : bool) : M unit :=
  (slf <- get_self ;;
   set_self (mkTransformations (names slf) (config slf) (scalers slf)
               (is_numpy_ slf) (Some b) (is_dict_ slf)))%M.

Definition set_is_dict_ (b : bool) : M unit :=
  (slf <- get_self ;;
   set_self (mkTransformations (names slf) (config slf) (scalers slf)
               (is_numpy_ slf) (is_list_ slf) (Some b)))%M.

Definition fit_transform (data : object) : M object :=
  (slf <- get_self ;;
   match config slf with
   | VNone => ret data
   | _ =>
       let orignal_data_type := class_name data in
       set_is_numpy_ false ;;;
       set_is_list_ false ;;;
       set_is_dict_ false ;;;
       match data with
       | PyArray2 _ | PyArray3 _ => set_is_numpy_ true
       | PyList _ => set_is_list_ true
       | PyDict _ => set_is_dict_ true
       | _ => raise ValueError
       end ;;;
       _check_features ;;;
       data <- _fit_transform data "5" ;;
       lift (assert (String.eqb (class_name data) orignal_data_type)) ;;;
       ret data
   end)%M.

(** [any([True if f in data else False for f in features])] *)
Definition any_in (features : pyval) (data : frame) : result bool :=
  (fs <- iterate features ;;
   ls <- labels_of_list fs ;;
   ok (existsb (fun a => label_in a (df_columns data)) ls))%res.

(** [Transformation(data=data, **kwargs)(what='inverse', scaler=s)] *)
Definition call_inverse (data : frame) (kwargs : dict pyval) (s : fitted)
  : M frame :=
  if dict_mem kwargs "data" then raise TypeError
  else
    (emit (Inverse_called kwargs s) ;;;
     lift (Transformation_inverse kwargs s data))%M.

(** [list(enumerate(l))], counting from [i] *)
Fixpoint enumerate {X : Type} (i : nat) (l : list X) : list (nat * X) :=
  match l with
  | [] => []
  | x :: l' => (i, x) :: enumerate (S i) l'
  end.

(** Lines 316-321 and 327-331: pad the frame to the fitted shape, invert,
    keep the original columns. *)
Definition inverse_padded (data : frame) (e : entry) (features : pyval)
    (kwargs : dict pyval) : M frame :=
  (let orig_cols := df_columns data in
   r <- conform_shape (PyFrame data) (shape e) features ;;
   match fst r with
   | PyFrame padded =>
       transformed_data <- call_inverse padded kwargs (scaler e) ;;
       lift (select_columns transformed_data orig_cols)
   | _ => raise TypeError
   end)%M.

(** The loop of lines 305-321 over the remaining [(idx, trans)] pairs,
    which the caller hands over already reversed. *)
Fixpoint inverse_list (columns : pyval) (key : string)
    (items : list (nat * pyval)) (data : frame) : M frame :=
  match items with
  | [] => ret data
  | (idx, trans) :: rest =>
      match trans with
      | VStr method =>
          (slf <- get_self ;;
           e <- lift (dict_item (scalers slf) (list_key key method idx)) ;;
           data <- call_inverse data [("method", trans)] (scaler e) ;;
           inverse_list columns key rest data)%M
      | _ =>
          (method <- lift (getitem_str trans "method") ;;
           if is_not_none method then
             match trans with
             | VDict kwargs =>
                 let features :=
                   match dict_get kwargs "features" with
                   | Some f => f
                   | None => columns
                   end in
                 hit <- lift (any_in features data) ;;
                 if hit then
                   slf <- get_self ;;
                   e <- lift (dict_item (scalers slf)
                                (list_key key (py_str method) idx)) ;;
                   data <- inverse_padded data e features kwargs ;;
                   inverse_list columns key rest data
                 else inverse_list columns key rest data
             | _ => raise TypeError
             end
           else inverse_list columns key rest data)%M
      end
  end.

Definition _inverse_transform_2d (data : object) (columns : pyval)
    (key : string) (transformation : pyval) : M object :=
  (data <- lift (pd_DataFrame data columns) ;;
   match transformation with
   | VNone => ret (PyFrame data)
   | VStr _ =>
       slf <- get_self ;;
       if negb (dict_mem (scalers slf) key) then
         raise (ValueError_key_not_found key (dict_keys (scalers slf)))
       else
         e <- lift (dict_item (scalers slf) key) ;;
         let original_shape :=
           (length (df_rows data), length (df_columns data)) in
         r <- conform_shape (PyFrame data) (shape e) VNone ;;
         match fst r with
         | PyFrame padded =>
             emit (Scaler_inverse_called (scaler e)) ;;;
             transformed_data <-
               lift (scaler_inverse_transform (scaler e) padded) ;;
             data <- lift (reshape (slice_columns (snd r) transformed_data)
                             (fst original_shape) (snd original_shape)) ;;
             ret (PyArray2 data)
         | _ => raise TypeError
         end
   | VList l =>
       data <- inverse_list columns key (rev (enumerate 0 l)) data ;;
       ret (PyFrame data)
   | VDict kwargs =>
       features <- lift (dict_item kwargs "features") ;;
       hit <- lift (any_in features data) ;;
       if hit then
         slf <- get_self ;;
         e <- lift (dict_item (scalers slf) key) ;;
         data <- inverse_padded data e features kwargs ;;
         ret (PyFrame data)
       else ret (PyFrame data)
   | _ => ret (PyFrame data)
   end)%M.

(** The loop of lines 273-277 over the remaining time steps. *)
Fixpoint inverse_steps (data : array3) (feature_names transformation : pyval)
    (key : string) (time_steps : list nat) (_data : array3) : M array3 :=
  match time_steps with
  | [] => ret _data
  | time_step :: rest =>
      (v <- _inverse_transform_2d (PyArray2 (slice_step data time_step))
              feature_names (fkey key (dec time_step)) transformation ;;
       _data <- lift (assign_step _data time_step v) ;;
       inverse_steps data feature_names transformation key rest _data)%M
  end.

Definition __inverse_transform (data : object)
    (feature_names transformation : pyval) (key : string) : M object :=
  match data with
  | PyArray3 a =>
      (_data <- inverse_steps a feature_names transformation key
                  (seq 0 (steps a)) (np_full_nan a) ;;
       ret (PyArray3 _data))%M
  | PyArray2 _ | PyFrame _ =>
      _inverse_transform_2d data feature_names key transformation
  | _ => raise AttributeError
  end.

(** The loop of lines 249-254. *)
Fixpoint inverse_sources (names transformation : pyval) (key : string)
    (data : list object) (idx : nat) (_data : list object) : M (list object) :=
  match data with
  | [] => ret _data
  | src :: rest =>
      (feature_names <- lift (getitem_int names idx) ;;
       trans <- lift (getitem_int transformation idx) ;;
       __data <- __inverse_transform src feature_names trans
                   (fkey key (dec idx)) ;;
       inverse_sources names transformation key rest (S idx)
         (_data ++ [__data])%list)%M
  end.

(** The loop of lines 260-264. *)
Fixpoint inverse_items (names transformation : pyval) (key : string)
    (data : dict object) (_data : dict object) : M (dict object) :=
  match data with
  | [] => ret _data
  | (src_name, src) :: rest =>
      (feature_names <- lift (getitem_str names src_name) ;;
       trans <- lift (getitem_str transformation src_name) ;;
       r <- __inverse_transform src feature_names trans (fkey key src_name) ;;
       inverse_items names transformation key rest (dict_set _data src_name r))%M
  end.

Definition _inverse_transform (data : object) (key : string) : M object :=
  (slf <- get_self ;;
   let transformation := transformation slf data in
   numpy <- attribute (is_numpy_ slf) ;;
   if numpy then __inverse_transform data (names slf) transformation key
   else
     list_ <- attribute (is_list_ slf) ;;
     if list_ then
       match data with
       | PyList xs =>
           _data <- inverse_sources (names slf) transformation key xs 0 [] ;;
           ret (PyList _data)
       | _ => raise AssertionError
       end
     else
       dict_ <- attribute (is_dict_ slf) ;;
       if dict_ then
         match data with
         | PyDict kvs =>
             _data <- inverse_items (names slf) transformation key kvs [] ;;
             ret (PyDict _data)
         | _ => raise AssertionError
         end
       else ret data)%M.

Definition inverse_transform (data : object) : M object :=
  _inverse_transform data "5".

End Wrapper.

Arguments mkOutcome {B A}.
Arguments value {B A}.
Arguments after {B A}.
Arguments emitted {B A}.

(** ** A small backend to run the wrapper on

    Cells are rationals or [NaN].  Every method negates the cells it is
    given and is undone by negating again; the fitted state is the name of
    the method.  The generator counts its draws and always yields 1/2. *)

Module Toy.

Inductive num : Type :=
| NaN
| Num (q : Q).

Definition negate (x : num) : num :=
  match x with
  | NaN => NaN
  | Num q => Num (Qopp q)
  end.

Definition negate_frame (df : DataFrame num) : DataFrame num :=
  mkFrame (df_columns df) (map (map negate) (df_rows df)).

Definition transform (kwargs : dict pyval) (df : DataFrame num)
  : result (DataFrame num * ScalerEntry string) :=
  match dict_get kwargs "method" with
  | Some (VStr method) =>
      ok (negate_frame df,
          mkEntry method [length (df_rows df); length (df_columns df)] method)
  | _ => throw ValueError
  end.

Definition inverse (kwargs : dict pyval) (s : string) (df : DataFrame num)
  : result (DataFrame num) :=
  ok (negate_frame df).

Definition scaler_inverse (s : string) (df : DataFrame num)
  : result (ndarray2 num) :=
  ok (mkArray2 (length (df_columns df)) (map (map negate) (df_rows df))).

Definition backend : Backend :=
  mkBackend num NaN string nat (fun g => (Num (1 # 2)%Q, S g))
    transform inverse scaler_inverse.

(** [np.array(rows)] with whole numbers *)
Definition array (c : nat) (rs : list (list Z)) : ndarray2 num :=
  mkArray2 c (map (map (fun z => Num (inject_Z z))) rs).

Definition start (feature_names config : pyval) : @world backend :=
  @mkWorld backend (@__init__ backend feature_names config) O.

End Toy.

(** ** A backend whose scalers depend on the data

    Cells are integers or [None] for NaN.  Every method subtracts from
    all cells the first cell of the table; the fitted state is that first
    cell, and the inverse adds it back.  There is nothing random. *)

Module Shift.

Definition num : Type := option Z.

Definition first_cell (rs : list (list num)) : Z :=
  match rs with
  | (Some z :: _) :: _ => z
  | _ => 0%Z
  end.

Definition add (d : Z) (x : num) : num :=
  match x with
  | Some z => Some (z + d)%Z
  | None => None
  end.

Definition transform (kwargs : dict pyval) (df : DataFrame num)
  : result (DataFrame num * ScalerEntry Z) :=
  match dict_get kwargs "method" with
  | Some (VStr method) =>
      ok (mkFrame (df_columns df)
            (map (map (add (- first_cell (df_rows df)))) (df_rows df)),
          mkEntry (first_cell (df_rows df))
            [length (df_rows df); length (df_columns df)] method)
  | _ => throw ValueError
  end.

Definition inverse (kwargs : dict pyval) (s : Z) (df : DataFrame num)
  : result (DataFrame num) :=
  ok (mkFrame (df_columns df) (map (map (add s)) (df_rows df))).

Definition scaler_inverse (s : Z) (df : DataFrame num)
  : result (ndarray2 num) :=
  ok (mkArray2 (length (df_columns df)) (map (map (add s)) (df_rows df))).

Definition backend : Backend :=
  mkBackend num None Z unit (fun g => (Some 0%Z, g))
    transform inverse scaler_inverse.

Definition start (feature_names config : pyval) : @world backend :=
  @mkWorld backend (@__init__ backend feature_names config) tt.

End Shift.

(** ** Notions used in the statements *)

Fixpoint has_underscore (s : string) : bool :=
  match s with
  | EmptyString => false
  | String c s' => Ascii.eqb c "_" || has_underscore s'
  end.

(** A name without the separator of the registry keys. *)
Definition no_underscore (s : string) : Prop := has_underscore s = false.

(** Nothing, or something that starts with the separator. *)
Definition separated (r : string) : Prop :=
  r = "" \/ exists t, r = String "_" t.

(** [k] is the key [b], or [b] followed by the separator and more. *)
Definition derived (b k : string) : Prop :=
  exists r, k = b ++ r /\ separated r.

Section Notions.

Context {B : Backend}.

(** The keys written to the registry, in order, among the events of a
    call. *)
Definition registered (evs : list event) : list string :=
  flat_map (fun e => match e with Registered k => [k] | _ => [] end) evs.

(** A computation that leaves the instance as it found it and writes no
    key, whatever its outcome. *)
Definition read_only {A} (m : M A) : Prop :=
  forall w, self (after (m w)) = self w /\ registered (emitted (m w)) = [].

(** The keyword arguments of a call for a method given by its name. *)
Definition method_kwargs (method : string) : dict pyval :=
  [("method", VStr method)].

(** The spec that lists the methods [ms] by name. *)
Definition method_list (ms : list string) : pyval := VList (map VStr ms).

(** The forward calls for the methods [ms], in list order. *)
Definition forward_calls (ms : list string) : list event :=
  map (fun m => Transform_called (method_kwargs m)) ms.

(** The composite key of the entry [(idx, method)] of a list. *)
Definition key_of_entry (k : string) (it : nat * string) : string :=
  list_key k (snd it) (fst it).

(** The inverse call for the entry [(idx, method)]: the one made with the
    scaler that the registry [reg] holds under the composite key. *)
Definition inverse_call (reg : dict (ScalerEntry fitted)) (k : string)
    (it : nat * string) : list event :=
  match dict_get reg (key_of_entry k it) with
  | Some e => [Inverse_called (method_kwargs (snd it)) (scaler e)]
  | None => []
  end.

(** A computation that writes no key. *)
Definition silent {A} (m : M A) : Prop :=
  forall w, registered (emitted (m w)) = [].

(** [Q] holds of the value of [m] whenever [m] returns one. *)
Definition post {A} (m : M A) (Q : A -> Prop) : Prop :=
  forall w, match value (m w) with inr a => Q a | inl _ => True end.

(** Distinct keys, all with the property [R]. *)
Definition good (R : string -> Prop) (l : list string) : Prop :=
  NoDup l /\ Forall R l.

(** [m], started in [w], returns [a] and leaves the world [w1]. *)
Definition runs {A} (m : M A) (w : world) (a : A) (w1 : world) : Prop :=
  value (m w) = inr a /\ after (m w) = w1.

(** The world [w] with the registry [reg]. *)
Definition with_scalers (w : world) (reg : dict (ScalerEntry fitted)) : world :=
  mkWorld
    (mkTransformations (names (self w)) (config (self w)) reg
       (is_numpy_ (self w)) (is_list_ (self w)) (is_dict_ (self w)))
    (np_random w).

(** The registries [r1] and [r2] hold the same entries under the keys
    that satisfy [P]. *)
Definition agree (P : string -> Prop) (r1 r2 : dict (ScalerEntry fitted))
  : Prop :=
  forall k, P k -> dict_get r1 k = dict_get r2 k.

(** What the round trip needs of one source handled under the base key
    [k]: the forward pass returns an array and touches only keys derived
    from [k]; and the inverse pass gives the source back in every world
    whose registry holds, under the keys derived from [k], what the
    forward pass left there. *)
Definition source_spec (method : string) (src : pyobj cell) (cols : pyval)
    (k : string) : Prop :=
  forall w, exists out w1,
    runs (__fit_transform src cols (VStr method) k) w out w1 /\
    class_name out = "ndarray" /\
    agree (fun k' => ~ derived k k') (scalers (self w1)) (scalers (self w)) /\
    (forall w',
        agree (derived k) (scalers (self w')) (scalers (self w1)) ->
        value (__inverse_transform out cols (VStr method) k w') = inr src).

(** What a forward pass must leave alone for the inverse pass to take
    the same branches: names, config and the three flags. *)
Definition settings (w : world)
  : pyval * pyval * option bool * option bool * option bool :=
  (names (self w), config (self w), is_numpy_ (self w), is_list_ (self w),
   is_dict_ (self w)).

Definition keeps_settings {A} (m : M A) : Prop :=
  forall w, settings (after (m w)) = settings w.

(** The sources of a list from position [idx] on: each has its names and
    the method at its position, and meets [source_spec] under its key. *)
Fixpoint list_sources (method : string) (nms tr : pyval) (k : string)
    (idx : nat) (srcs : list (pyobj cell)) : Prop :=
  match srcs with
  | [] => True
  | src :: rest =>
      (exists n, getitem_int nms idx = inr n /\
                 getitem_int tr idx = inr (VStr method) /\
                 source_spec method src n (fkey k (dec idx))) /\
      list_sources method nms tr k (S idx) rest
  end.

(** The same for the sources of a dictionary. *)
Fixpoint dict_sources (method : string) (nms tr : pyval) (k : string)
    (srcs : dict (pyobj cell)) : Prop :=
  match srcs with
  | [] => True
  | (s, src) :: rest =>
      (exists n, getitem_str nms s = inr n /\
                 getitem_str tr s = inr (VStr method) /\
                 source_spec method src n (fkey k s)) /\
      dict_sources method nms tr k rest
  end.

(** The world [w] with the three flags set. *)
Definition flagged (w : world) (numpy list_ dict_ : bool) : world :=
  mkWorld
    (mkTransformations (names (self w)) (config (self w)) (scalers (self w))
       (Some numpy) (Some list_) (Some dict_))
    (np_random w).

(** A cube of [n] examples with [t] rows each. *)
Definition cube_shape {X : Type} (n t : nat) (c : list (list (list X)))
  : Prop :=
  length c = n /\ Forall (fun ex => length ex = t) c.

(** All rows have [c] cells. *)
Definition rectangular {X : Type} (c : nat) (rs : list (list X)) : Prop :=
  Forall (fun r => length r = c) rs.

(** [o] is a 2-D table (a frame or an array) with [c] columns and the rows
    [rs]. *)
Definition is_table (c : nat) (rs : list (list cell)) (o : pyobj cell) : Prop :=
  (exists labels, length labels = c /\ o = PyFrame (mkFrame labels rs)) \/
  o = PyArray2 (mkArray2 c rs).

(** The method round-trips on the table with the labels [labels] and the
    rows [rs]: the transformation primitive accepts the table, returns a
    table of the same shape and a descriptor with the shape of the table,
    and the fitted scaler maps the transformed rows back to [rs]. *)
Definition invertible_on (method : string) (labels : list label)
    (rs : list (list cell)) : Prop :=
  exists df' e,
    Transformation_transform (method_kwargs method) (mkFrame labels rs)
    = inr (df', e) /\
    length (df_columns df') = length labels /\
    length (df_rows df') = length rs /\
    length (shape e) = 2 /\
    last (shape e) 0 = length labels /\
    scaler_inverse_transform (scaler e) (mkFrame labels (df_rows df'))
    = inr (mkArray2 (length labels) rs).

(** A source the round trip is stated for: a well-formed array of rank 2
    or 3 with as many feature names as columns, on whose tables (the
    array itself, or each of its time steps) the method round-trips. *)
Definition source_ok (method : string) (cols : pyval) (src : pyobj cell)
  : Prop :=
  exists xs labels,
    cols = VList xs /\ labels_of_list xs = inr labels /\
    match src with
    | PyArray2 a =>
        ncols a = length labels /\
        rectangular (ncols a) (rows2 a) /\
        invertible_on method labels (rows2 a)
    | PyArray3 a =>
        width a = length labels /\
        Forall (fun ex => length ex = steps a) (cube a) /\
        Forall (rectangular (width a)) (cube a) /\
        forall t, t < steps a ->
                  invertible_on method labels (rows2 (slice_step a t))
    | _ => False
    end.

(** The containers the round trip is stated for, with their feature
    names: one array, a list of arrays, a dictionary of arrays whose names
    are distinct and do not contain the separator [_]. *)
Definition roundtrip_ready (method : string) (nms : pyval)
    (data : pyobj cell) : Prop :=
  match data with
  | PyArray2 _ | PyArray3 _ => source_ok method nms data
  | PyList srcs =>
      exists ns, nms = VList ns /\ Forall2 (source_ok method) ns srcs
  | PyDict kvs =>
      exists nd,
        nms = VDict nd /\
        NoDup (dict_keys kvs) /\
        Forall no_underscore (dict_keys kvs) /\
        all_lists (dict_values nd) = true /\
        Forall (fun kv => exists n, dict_get nd (fst kv) = Some n /\
                                    source_ok method n (snd kv)) kvs
  | _ => False
  end.

End Notions.

(** ** Notions used in the further properties *)

(** Distinct strings, decided. *)
Fixpoint distinct (l : list string) : bool :=
  match l with
  | [] => true
  | s :: l' => negb (str_in s l') && distinct l'
  end.

Module SpaceNotions.
Import Optimize.

(** A mapping whose ready-made dimensions carry the name of their key. *)
Definition well_named (d : dict candidates) : Prop :=
  Forall (fun kv => match snd kv with
                    | CCategorical c => name c = fst kv
                    | _ => True
                    end) d.

Definition well_named_include (include : include_arg) : Prop :=
  match include with
  | IncDict d => well_named d
  | _ => True
  end.

Definition well_named_append (append : append_arg) : Prop :=
  match append with
  | ApDict d => well_named d
  | _ => True
  end.

(** The space as a dictionary: distinct keys, every dimension named
    after its key. *)
Definition named_by_key (sp : dict Categorical) : Prop :=
  NoDup (dict_keys sp) /\ Forall (fun kv => name (snd kv) = fst kv) sp.

End SpaceNotions.

Module UpdateNotions.
Import Update.

(** The suggestions that ask for a transformation. *)
Definition active (kv : string * pyval) : bool := negb (is_none_name (snd kv)).

(** The suggestions for input features, and the others. *)
Definition for_inputs (input_features : list string)
    (suggestions : dict pyval) : dict pyval :=
  filter (fun kv => active kv && str_in (fst kv) input_features) suggestions.

Definition for_outputs (input_features : list string)
    (suggestions : dict pyval) : dict pyval :=
  filter (fun kv => active kv && negb (str_in (fst kv) input_features))
    suggestions.

(** [ts] holds the descriptors of the suggestions [kvs], one for one. *)
Definition describes (kvs : dict pyval) (ts : list pyval) : Prop :=
  Forall2 (fun kv t => exists d, descriptor (fst kv) (snd kv) = ok d /\
                                 t = VDict d) kvs ts.

End UpdateNotions.

Section FrameNotions.
Context {B : Backend}.

(** [m] relates the world it starts in, the world it leaves and the events
    it emits by [R], whatever its outcome. *)
Definition respects (R : world -> world -> list event -> Prop) {A} (m : M A)
  : Prop :=
  forall w, R w (after (m w)) (emitted (m w)).

(** The instance of [w] with other flags. *)
Definition reflagged (w : world) (numpy list_ dict_ : option bool) : world :=
  mkWorld
    (mkTransformations (names (self w)) (config (self w)) (scalers (self w))
       numpy list_ dict_)
    (np_random w).

(** What the forward pass never changes: the feature names, the config
    and the state of numpy's generator. *)
Definition same_inputs (w w1 : world) (_ : list event) : Prop :=
  names (self w1) = names (self w) /\ config (self w1) = config (self w) /\
  np_random w1 = np_random w.

(** The registry of [w1] is the registry of [w] except under the keys
    written by the events, and these keys are all present in it. *)
Definition registry_follows (w w1 : world) (evs : list event) : Prop :=
  (forall k, ~ In k (registered evs) ->
             dict_get (scalers (self w1)) k = dict_get (scalers (self w)) k) /\
  (forall k, In k (registered evs) -> dict_mem (scalers (self w1)) k = true).

Definition same_settings (w w1 : world) (_ : list event) : Prop :=
  settings w1 = settings w.

End FrameNotions.

Section ShapeNotions.

Context {B : Backend}.

(** Every row of [rs'] is the row of [rs] at its place, followed by more
    cells. *)
Definition grown (rs rs' : list (list cell)) : Prop :=
  Forall2 (fun r r' => exists t, r' = (r ++ t)%list) rs rs'.

End ShapeNotions.

Section LayoutNotions.

Context {B : Backend}.

(** What [fit_transform] keeps of the layout of its argument: the
    number of sources of a list, the names of the sources of a
    dictionary and their order, the shape of a rank-3 array. *)
Definition same_layout (data out : pyobj cell) : Prop :=
  match data with
  | PyList xs => exists ys, out = PyList ys /\ length ys = length xs
  | PyDict kvs =>
      NoDup (dict_keys kvs) ->
      exists outs, out = PyDict outs /\ dict_keys outs = dict_keys kvs
  | PyArray3 a =>
      exists a', out = PyArray3 a' /\ steps a' = steps a /\
                 width a' = width a /\ length (cube a') = length (cube a)
  | _ => True
  end.

(** The keys of one source under a single method name: the base key for
    a 2-D table, one key per time step for a rank-3 array. *)
Definition source_keys (base : string) (src : pyobj cell) : list string :=
  match src with
  | PyArray3 a => map (fun t => fkey base (dec t)) (seq 0 (steps a))
  | _ => [base]
  end.

(** The keys of a container under a single method name, in the order
    they are written. *)
Definition container_keys (data : pyobj cell) : list string :=
  match data with
  | PyList xs =>
      flat_map (fun it => source_keys (fkey "5" (dec (fst it))) (snd it))
        (enumerate 0 xs)
  | PyDict kvs =>
      flat_map (fun kv => source_keys (fkey "5" (fst kv)) (snd kv)) kvs
  | _ => source_keys "5" data
  end.

End LayoutNotions.

Section ChainNotions.

Context {B : Backend}.

(** The method [m] loses nothing on the tables with the column labels
    [ls]: the transformation primitive accepts every such table and
    returns a table with the same labels and as wide, and the inverse
    primitive, given the scaler that was fitted, maps the transformed
    table back to the table. *)
Definition exact_method (ls : list label) (m : string) : Prop :=
  forall rs, rectangular (length ls) rs ->
    exists rs' e,
      Transformation_transform (method_kwargs m) (mkFrame ls rs)
      = inr (mkFrame ls rs', e) /\
      rectangular (length ls) rs' /\
      Transformation_inverse (method_kwargs m) (scaler e) (mkFrame ls rs')
      = inr (mkFrame ls rs).

End ChainNotions.

(** The keys under which the descriptors of the suggestions [kvs] are
    registered, counted from [idx]: [k_method_position]. *)
Definition suggestion_keys (k : string) (idx : nat) (kvs : dict pyval)
  : list string :=
  map (fun it => list_key k (py_str (snd (snd it))) (fst it))
    (enumerate idx kvs).

(** * Properties *)

(** ** The search-space builder *)

Module OptimizeFacts.

Import Optimize.

(** C6.  With input features a, b, c, categories none, log, minmax,
    [include=['a','b']], [exclude=['a']] and [append={'d': ['zscore']}],
    [make_space] returns exactly two dimensions in this order: b with the
    three categories, then d with the single candidate zscore. *)
Theorem make_space_precedence :
  make_space ["a"; "b"; "c"] ["none"; "log"; "minmax"]
    (IncList [FStr "a"; FStr "b"]) (ExList ["a"])
    (ApDict [("d", CList ["zscore"])])
  = ok [ mkCategorical ["none"; "log"; "minmax"] "b";
         mkCategorical ["zscore"] "d" ].
Proof. reflexivity. Qed.

Lemma include_of_list_mapping input_features cats l d acc :
  In (FDict d) l ->
  include_of_list input_features cats l acc = throw AssertionError.
Proof.
  revert acc.
  induction l as [|feat rest IH]; intros acc Hin.
  - destruct Hin.
  - destruct Hin as [Heq|Hin].
    + subst feat. reflexivity.
    + destruct feat as [s| |]; simpl; try reflexivity.
      destruct (str_in s input_features); simpl.
      * apply IH, Hin.
      * reflexivity.
Qed.

(** C7, where the code departs from it.  A single-entry mapping
    [{feature: candidates}] inside an [include] list is never accepted:
    the membership assertion of line 248 compares the mapping itself with
    the feature names and fails before the branch written for mappings
    (lines 251-253) is reached. *)
Theorem include_list_rejects_mapping input_features cats l d exclude append :
  In (FDict d) l ->
  make_space input_features cats (IncList l) exclude append
  = throw AssertionError.
Proof.
  intros Hin. unfold make_space.
  rewrite (include_of_list_mapping input_features cats l d [] Hin).
  reflexivity.
Qed.

Lemma include_list_rejects_mapping_witness :
  In (FDict [("a", CList ["log"])]) [FDict [("a", CList ["log"])]] /\
  make_space ["a"; "b"] ["none"; "log"]
    (IncList [FDict [("a", CList ["log"])]]) ExNone ApNone
  = throw AssertionError.
Proof.
  split.
  - simpl. left. reflexivity.
  - apply (include_list_rejects_mapping ["a"; "b"] ["none"; "log"]
             [FDict [("a", CList ["log"])]] [("a", CList ["log"])]).
    simpl. left. reflexivity.
Defined.

(** The other forms of [include] that C7 lists behave as it says. *)
Lemma include_single_name input_features cats s :
  make_space input_features cats (IncStr s) ExNone ApNone
  = ok [mkCategorical cats s].
Proof. reflexivity. Qed.

Lemma include_single_mapping input_features cats k l :
  make_space input_features cats (IncDict [(k, CList l)]) ExNone ApNone
  = ok [mkCategorical l k].
Proof. reflexivity. Qed.

Lemma include_of_list_unknown input_features cats l s acc :
  In (FStr s) l -> str_in s input_features = false ->
  include_of_list input_features cats l acc = throw AssertionError.
Proof.
  revert acc.
  induction l as [|feat rest IH]; intros acc Hin Hs.
  - destruct Hin.
  - destruct Hin as [Heq|Hin].
    + subst feat. simpl. rewrite Hs. reflexivity.
    + destruct feat as [s'| |]; simpl; try reflexivity.
      destruct (str_in s' input_features); simpl.
      * apply IH; assumption.
      * reflexivity.
Qed.

Lemma include_list_unknown_feature input_features cats l s exclude append :
  In (FStr s) l -> str_in s input_features = false ->
  make_space input_features cats (IncList l) exclude append
  = throw AssertionError.
Proof.
  intros Hin Hs. unfold make_space.
  rewrite (include_of_list_unknown input_features cats l s [] Hin Hs).
  reflexivity.
Qed.

End OptimizeFacts.

(** ** The transformation wrapper *)

Section WrapperFacts.

Context {B : Backend}.

#[local] Abbreviation object := (pyobj cell).

(** *** Equations of the monad *)

Lemma outcome_eta {A} (o : outcome A) :
  mkOutcome (value o) (after o) (emitted o) = o.
Proof. destruct o. reflexivity. Qed.

Lemma bind_ret {A C} (a : A) (f : A -> M C) w : bind (ret a) f w = f a w.
Proof. unfold bind, ret. cbn. apply outcome_eta. Qed.

Lemma bind_lift_ok {A C} (a : A) (f : A -> M C) w :
  bind (lift (inr a)) f w = f a w.
Proof. unfold bind, lift. cbn. apply outcome_eta. Qed.

Lemma bind_lift_error {A C} (e : exn) (f : A -> M C) w :
  bind (lift (inl e)) f w = mkOutcome (inl e) w [].
Proof. reflexivity. Qed.

Lemma bind_raise {A C} (e : exn) (f : A -> M C) w :
  bind (raise e) f w = mkOutcome (inl e) w [].
Proof. reflexivity. Qed.

Lemma bind_get_self {C} (f : Transformations -> M C) w :
  bind get_self f w = f (self w) w.
Proof. unfold bind, get_self. cbn. apply outcome_eta. Qed.

Lemma bind_emit {C} (e : event) (f : unit -> M C) w :
  bind (emit e) f w
  = mkOutcome (value (f tt w)) (after (f tt w)) (e :: emitted (f tt w)).
Proof. reflexivity. Qed.

Lemma bind_set_self {C} (s : Transformations) (f : unit -> M C) w :
  bind (set_self s) f w = f tt (mkWorld s (np_random w)).
Proof. unfold bind, set_self. cbn. apply outcome_eta. Qed.

Lemma bind_bind {A C D} (m : M A) (f : A -> M C) (g : C -> M D) w :
  bind (bind m f) g w = bind m (fun a => bind (f a) g) w.
Proof.
  unfold bind.
  destruct (m w) as [[e|a] w1 ev1]; cbn; [reflexivity|].
  destruct (f a w1) as [[e|c] w2 ev2]; cbn; [reflexivity|].
  rewrite app_assoc. reflexivity.
Qed.

(** C10.  With [config] equal to [None], [fit_transform] gives back its
    argument, whatever it is, and does nothing else: the instance (flags
    and registry included) and the generator are as before, and nothing
    was called or registered. *)
Theorem fit_transform_without_config (data : object) (w : world) :
  config (self w) = VNone ->
  fit_transform data w = mkOutcome (inr data) w [].
Proof.
  intros Hc. unfold fit_transform.
  rewrite bind_get_self, Hc. reflexivity.
Qed.

Lemma bind_ok_inv {A C} (m : M A) (f : A -> M C) w c :
  value (bind m f w) = inr c ->
  exists a, value (m w) = inr a /\ value (f a (after (m w))) = inr c.
Proof.
  unfold bind. destruct (m w) as [[e|a] w1 ev1]; cbn; intros H.
  - discriminate H.
  - exists a. split; [reflexivity|exact H].
Qed.

Lemma lift_assert_ok_inv (b : bool) w u :
  value (lift (assert b) w) = inr u -> b = true.
Proof. destruct b; cbn; intros H; [reflexivity|discriminate H]. Qed.

(** *** Container kind *)

(** The first half of C4: whenever [fit_transform] returns, what it
    returns has the class of its argument. *)
Lemma fit_transform_keeps_class (data out : object) (w : world) :
  value (fit_transform data w) = inr out ->
  class_name out = class_name data.
Proof.
  unfold fit_transform. rewrite bind_get_self.
  assert (Hgen : forall m1 m2 m3 m4 m5 : M unit, forall w',
    value (bind m1 (fun _ => bind m2 (fun _ => bind m3 (fun _ =>
           bind m4 (fun _ => bind m5 (fun _ =>
           bind (_fit_transform data "5") (fun data0 =>
           bind (lift (assert (String.eqb (class_name data0)
                                 (class_name data))))
                (fun _ => ret data0))))))) w') = inr out ->
    class_name out = class_name data).
  { intros m1 m2 m3 m4 m5 w' H.
    apply bind_ok_inv in H. destruct H as (? & _ & H).
    apply bind_ok_inv in H. destruct H as (? & _ & H).
    apply bind_ok_inv in H. destruct H as (? & _ & H).
    apply bind_ok_inv in H. destruct H as (? & _ & H).
    apply bind_ok_inv in H. destruct H as (? & _ & H).
    apply bind_ok_inv in H. destruct H as (data0 & _ & H).
    apply bind_ok_inv in H. destruct H as (u & Ha & H).
    apply lift_assert_ok_inv in Ha.
    cbn in H. injection H as <-.
    apply String.eqb_eq, Ha. }
  destruct (config (self w)); intros H;
    try (cbn in H; injection H as <-; reflexivity);
    eapply Hgen; exact H.
Qed.

(** C4, where the code departs from it.  A 2-D array, one feature name
    and an empty list of transformations (what [OptimizeTransformations]
    writes when every method is none): [fit_transform] returns the array,
    of class ndarray, and [inverse_transform] of that array returns a
    DataFrame.  Only the branch for a single method name turns the frame
    of line 285 back into an array. *)
Theorem inverse_of_array_is_frame (g : generator) :
  let w := mkWorld (__init__ (VList [VStr "a"]) (VList [])) g in
  let x := PyArray2 (mkArray2 1 [[nan]]) in
  let forward := fit_transform x w in
  value forward = inr x /\
  class_name x = "ndarray" /\
  value (inverse_transform x (after forward))
  = inr (PyFrame (mkFrame [LStr "a"] [[nan]])) /\
  class_name (PyFrame (mkFrame [LStr "a"] [[nan]]) : object) = "DataFrame".
Proof. cbv. repeat split. Qed.

(** *** Missing registry keys *)

Lemma rev_enumerate_snoc {X} (l : list X) (x : X) i :
  List.rev (enumerate i (l ++ [x])) = (i + length l, x) :: List.rev (enumerate i l).
Proof.
  revert i. induction l as [|y l IH]; intros i; cbn.
  - rewrite Nat.add_0_r. reflexivity.
  - rewrite IH. cbn. rewrite Nat.add_succ_r. reflexivity.
Qed.

(** A single method name whose key is absent: the [ValueError] of lines
    290-292, carrying the key and the keys of the registry. *)
Lemma missing_key_single_method data columns k method w df :
  pd_DataFrame data columns = inr df ->
  dict_mem (scalers (self w)) k = false ->
  _inverse_transform_2d data columns k (VStr method) w
  = mkOutcome (inl (ValueError_key_not_found k (dict_keys (scalers (self w)))))
      w [].
Proof.
  intros Hdf Hk. unfold _inverse_transform_2d.
  rewrite Hdf, bind_lift_ok, bind_get_self, Hk. reflexivity.
Qed.

(** A list of methods whose last entry (the first to be inverted) has no
    key: the [KeyError] of the plain lookup of line 307, which carries the
    key and nothing else. *)
Lemma missing_key_method_list data columns k l method w df :
  pd_DataFrame data columns = inr df ->
  dict_get (scalers (self w)) (list_key k method (length l)) = None ->
  _inverse_transform_2d data columns k (VList (l ++ [VStr method])) w
  = mkOutcome (inl (KeyError (list_key k method (length l)))) w [].
Proof.
  intros Hdf Hk. unfold _inverse_transform_2d.
  rewrite Hdf, bind_lift_ok, rev_enumerate_snoc.
  cbn [inverse_list Nat.add].
  rewrite bind_bind, bind_get_self.
  unfold dict_item. rewrite Hk. reflexivity.
Qed.

End WrapperFacts.

(** C5, where the code departs from it.  An instance with the method
    list [['minmax']] is fitted on a 2-D array and then asked to invert a
    3-D array: the key [5_0_minmax_0] was never written, and the call
    fails with a bare [KeyError] on that key; the error does not list the
    keys that are available, as the [ValueError] for a single method name
    does. *)
Theorem missing_key_of_method_list :
  let w := Toy.start (VList [VStr "a"]) (VList [VStr "minmax"]) in
  let forward := @fit_transform Toy.backend (PyArray2 (Toy.array 1 [[1%Z]])) w in
  dict_keys (scalers (self (after forward))) = ["5_minmax_0"] /\
  value (@inverse_transform Toy.backend
           (PyArray3 (mkArray3 1 1 [[[Toy.Num 1%Q]]])) (after forward))
  = inl (KeyError "5_0_minmax_0").
Proof. vm_compute. split; reflexivity. Qed.

(** The same scenario with the single method name ['minmax']: the error
    names the key and lists the registry. *)
Lemma missing_key_of_single_method :
  let w := Toy.start (VList [VStr "a"]) (VStr "minmax") in
  let forward := @fit_transform Toy.backend (PyArray2 (Toy.array 1 [[1%Z]])) w in
  value (@inverse_transform Toy.backend
           (PyArray3 (mkArray3 1 1 [[[Toy.Num 1%Q]]])) (after forward))
  = inl (ValueError_key_not_found "5_0" ["5"]).
Proof. vm_compute. reflexivity. Qed.

(** Before any [fit_transform] the flags do not exist, and
    [inverse_transform] fails on reading them, whatever the spec. *)
Lemma inverse_before_forward (B : Backend) (data : pyobj cell)
    (feature_names cfg : pyval) (g : generator) :
  value (inverse_transform data (mkWorld (__init__ feature_names cfg) g))
  = inl AttributeError.
Proof. reflexivity. Qed.

(** *** The registry during inverse transforms *)

Section ReadOnly.

Context {B : Backend}.

Lemma registered_app (l1 l2 : list event) :
  registered (l1 ++ l2) = (registered l1 ++ registered l2)%list.
Proof. unfold registered. apply flat_map_app. Qed.

Lemma read_only_ret {A} (a : A) : read_only (ret a).
Proof. intros w. split; reflexivity. Qed.

Lemma read_only_raise {A} (e : exn) : read_only (@raise B A e).
Proof. intros w. split; reflexivity. Qed.

Lemma read_only_lift {A} (r : result A) : read_only (lift r).
Proof. intros w. split; reflexivity. Qed.

Lemma read_only_get_self : read_only get_self.
Proof. intros w. split; reflexivity. Qed.

Lemma read_only_attribute (flag : option bool) : read_only (attribute flag).
Proof. destruct flag; [apply read_only_ret|apply read_only_raise]. Qed.

Lemma read_only_draw {A} (f : generator -> A * generator) : read_only (draw f).
Proof.
  intros w. unfold draw. destruct (f (np_random w)). split; reflexivity.
Qed.

Lemma read_only_emit (e : event) :
  registered [e] = [] -> read_only (emit e).
Proof. intros H w. split; [reflexivity|exact H]. Qed.

Lemma read_only_bind {A C} (m : M A) (f : A -> M C) :
  read_only m -> (forall a, read_only (f a)) -> read_only (bind m f).
Proof.
  intros Hm Hf w. unfold bind.
  destruct (Hm w) as [Hs Hr].
  destruct (m w) as [[e|a] w1 ev1]; cbn [value after emitted] in *.
  - split; assumption.
  - destruct (Hf a w1) as [Hs' Hr'].
    rewrite registered_app, Hr, Hr', Hs', Hs. split; reflexivity.
Qed.

Ltac ro_step :=
  match goal with
  | |- read_only (bind _ _) => apply read_only_bind; [|intros ?]
  | |- read_only (ret _) => apply read_only_ret
  | |- read_only (raise _) => apply read_only_raise
  | |- read_only (lift _) => apply read_only_lift
  | |- read_only get_self => apply read_only_get_self
  | |- read_only (attribute _) => apply read_only_attribute
  | |- read_only (draw _) => apply read_only_draw
  | |- read_only (emit _) => apply read_only_emit; reflexivity
  | |- read_only (match ?x with _ => _ end) => destruct x
  end.

Ltac ro := repeat first [ro_step | solve [auto]].

Lemma read_only_np_random_random n k : read_only (np_random_random n k).
Proof. unfold np_random_random. ro. Qed.

Lemma read_only_add_missing features df : read_only (add_missing features df).
Proof.
  revert df. induction features as [|f rest IH]; intros df; cbn [add_missing].
  - ro.
  - ro.
Qed.

Lemma read_only_conform_shape data shape features :
  read_only (conform_shape data shape features).
Proof.
  pose proof read_only_np_random_random.
  pose proof read_only_add_missing.
  unfold conform_shape. ro.
Qed.

Lemma read_only_call_inverse data kwargs s :
  read_only (call_inverse data kwargs s).
Proof. unfold call_inverse. ro. Qed.

Lemma read_only_inverse_padded data e features kwargs :
  read_only (inverse_padded data e features kwargs).
Proof.
  pose proof read_only_conform_shape.
  pose proof read_only_call_inverse.
  unfold inverse_padded. ro.
Qed.

Lemma read_only_inverse_list columns k items data :
  read_only (inverse_list columns k items data).
Proof.
  pose proof read_only_inverse_padded.
  pose proof read_only_call_inverse.
  revert data. induction items as [|[idx trans] rest IH]; intros data;
    cbn [inverse_list]; ro.
Qed.

Lemma read_only_inverse_transform_2d data columns k transformation :
  read_only (_inverse_transform_2d data columns k transformation).
Proof.
  pose proof read_only_inverse_padded.
  pose proof read_only_inverse_list.
  pose proof read_only_conform_shape.
  unfold _inverse_transform_2d. ro.
Qed.

Lemma read_only_inverse_steps data feature_names transformation k ts _data :
  read_only (inverse_steps data feature_names transformation k ts _data).
Proof.
  pose proof read_only_inverse_transform_2d.
  revert _data. induction ts as [|t rest IH]; intros _data;
    cbn [inverse_steps]; ro.
Qed.

Lemma read_only__inverse_transform data feature_names transformation k :
  read_only (__inverse_transform data feature_names transformation k).
Proof.
  pose proof read_only_inverse_transform_2d.
  pose proof read_only_inverse_steps.
  unfold __inverse_transform. ro.
Qed.

Lemma read_only_inverse_sources nms transformation k data idx _data :
  read_only (inverse_sources nms transformation k data idx _data).
Proof.
  pose proof read_only__inverse_transform.
  revert idx _data. induction data as [|src rest IH]; intros idx _data;
    cbn [inverse_sources]; ro.
Qed.

Lemma read_only_inverse_items nms transformation k data _data :
  read_only (inverse_items nms transformation k data _data).
Proof.
  pose proof read_only__inverse_transform.
  revert _data. induction data as [|[src_name src] rest IH]; intros _data;
    cbn [inverse_items]; ro.
Qed.

Lemma read_only_inverse_transform data : read_only (inverse_transform data).
Proof.
  pose proof read_only__inverse_transform.
  pose proof read_only_inverse_sources.
  pose proof read_only_inverse_items.
  unfold inverse_transform, _inverse_transform. ro.
Qed.

(** C9.  No [inverse_transform] call, whatever the data, the spec and the
    outcome, adds, removes or overwrites a registry entry: the registry
    (indeed the whole instance) after the call is the one before it, and
    the call writes no key.  Keys are written by [fit_transform] only (see
    [register], called from [_transform_2d]). *)
Theorem inverse_transform_keeps_registry (data : pyobj cell) (w : world) :
  scalers (self (after (inverse_transform data w))) = scalers (self w) /\
  self (after (inverse_transform data w)) = self w /\
  registered (emitted (inverse_transform data w)) = [].
Proof.
  destruct (read_only_inverse_transform data w) as [Hs Hr].
  rewrite Hs. repeat split. exact Hr.
Qed.

End ReadOnly.

(** *** Padding *)

Section Padding.

Context {B : Backend}.

Lemma bind_draw {A C} (f : generator -> A * generator) (k : A -> M C) w :
  bind (draw f) k w
  = k (fst (f (np_random w))) (mkWorld (self w) (snd (f (np_random w)))).
Proof.
  unfold bind, draw. destruct (f (np_random w)) as [a g]. cbn.
  apply outcome_eta.
Qed.

Lemma random_vector_spec (P : cell -> Prop) :
  (forall g, P (fst (random_sample g))) ->
  forall n g, length (fst (random_vector n g)) = n /\
              Forall P (fst (random_vector n g)).
Proof.
  intros HP. induction n as [|n IH]; intros g; cbn.
  - split; [reflexivity|constructor].
  - specialize (HP g). destruct (random_sample g) as [x g1].
    specialize (IH g1). destruct (random_vector n g1) as [xs g2].
    cbn in *. destruct IH as [Hl Hf].
    split; [now rewrite Hl|now constructor].
Qed.

Lemma random_matrix_spec (P : cell -> Prop) :
  (forall g, P (fst (random_sample g))) ->
  forall n k g, length (fst (random_matrix n k g)) = n /\
                rectangular k (fst (random_matrix n k g)) /\
                Forall (Forall P) (fst (random_matrix n k g)).
Proof.
  intros HP. induction n as [|n IH]; intros k g; cbn.
  - repeat split; constructor.
  - destruct (random_vector_spec P HP k g) as [Hl Hf].
    destruct (random_vector k g) as [r g1].
    specialize (IH k g1). destruct (random_matrix n k g1) as [rs g2].
    cbn in *. destruct IH as (Hn & Hrect & Hall).
    repeat split; [now rewrite Hn|now constructor|now constructor].
Qed.

Lemma slice_from_of_nat {X} (k : nat) (l : list X) :
  slice_from (Z.of_nat k) l = skipn k l.
Proof.
  unfold slice_from.
  destruct (Z.leb_spec 0 (Z.of_nat k)) as [_|H]; [|lia].
  now rewrite Nat2Z.id.
Qed.

Lemma map2_app_rectangular {X} k c (pad rs : list (list X)) :
  rectangular k pad -> rectangular c rs ->
  rectangular (k + c) (map2 (fun d r => d ++ r)%list pad rs).
Proof.
  intros Hp. revert rs. induction Hp as [|d pad Hd Hp IH]; intros rs Hr; cbn.
  - constructor.
  - destruct Hr as [|r rs Hr Hrs]; constructor.
    + rewrite length_app. now rewrite Hd, Hr.
    + apply IH, Hrs.
Qed.

Lemma map2_length {X Y Z} (f : X -> Y -> Z) xs ys :
  length xs = length ys -> length (map2 f xs ys) = length ys.
Proof.
  revert ys. induction xs as [|x xs IH]; intros [|y ys] H; cbn in *;
    try discriminate; [reflexivity|].
  f_equal. apply IH. now injection H.
Qed.

Lemma strip_map2_app {X} k (pad rs : list (list X)) :
  length pad = length rs -> rectangular k pad ->
  map (skipn k) (map2 (fun d r => d ++ r)%list pad rs) = rs.
Proof.
  intros Hl Hp. revert rs Hl.
  induction Hp as [|d pad Hd Hp IH]; intros [|r rs] Hl; cbn in *;
    try discriminate; [reflexivity|].
  f_equal.
  - rewrite skipn_app, <- Hd, skipn_all, Nat.sub_diag. reflexivity.
  - apply IH. now injection Hl.
Qed.

Lemma concat_length_rectangular {X} c (rs : list (list X)) :
  rectangular c rs -> length (concat rs) = length rs * c.
Proof.
  induction 1 as [|r rs Hr Hrs IH]; cbn; [reflexivity|].
  now rewrite length_app, IH, Hr.
Qed.

Lemma chunks_concat {X} c (rs : list (list X)) :
  rectangular c rs -> chunks (length rs) c (concat rs) = rs.
Proof.
  induction 1 as [|r rs Hr Hrs IH]; cbn; [reflexivity|].
  rewrite firstn_app, <- Hr, firstn_all, Nat.sub_diag, firstn_O, app_nil_r.
  rewrite skipn_app, skipn_all, Nat.sub_diag. cbn.
  rewrite Hr. now rewrite IH.
Qed.

Lemma reshape_same (a : ndarray2 cell) :
  rectangular (ncols a) (rows2 a) ->
  reshape a (length (rows2 a)) (ncols a) = ok a.
Proof.
  intros Hr. unfold reshape.
  rewrite (concat_length_rectangular _ _ Hr), Nat.eqb_refl.
  rewrite (chunks_concat _ _ Hr). now destruct a.
Qed.

Lemma skipn_rectangular {X} k w (rs : list (list X)) :
  rectangular w rs -> rectangular (w - k) (map (skipn k) rs).
Proof.
  induction 1 as [|r rs Hr Hrs IH]; cbn; constructor.
  - now rewrite length_skipn, Hr.
  - exact IH.
Qed.

(** What line 300 and line 301 keep of an array that has the padded
    shape: its last [c] columns, in a [(n, c)] array. *)
Lemma strip_then_reshape (t : ndarray2 cell) (c w : nat) :
  c <= w -> ncols t = w -> rectangular w (rows2 t) ->
  reshape (slice_columns (Z.of_nat (w - c)) t) (length (rows2 t)) c
  = ok (mkArray2 c (map (skipn (w - c)) (rows2 t))).
Proof.
  intros Hc Hw Hr.
  assert (Heq : slice_columns (Z.of_nat (w - c)) t
                = mkArray2 c (map (skipn (w - c)) (rows2 t))).
  { unfold slice_columns. rewrite slice_from_of_nat, Hw.
    rewrite length_skipn, repeat_length.
    replace (w - (w - c)) with c by lia.
    f_equal. apply map_ext. intros r. apply slice_from_of_nat. }
  rewrite Heq.
  pose proof (skipn_rectangular (w - c) w _ Hr) as Hr'.
  replace (w - (w - c)) with c in Hr' by lia.
  pose proof (reshape_same (mkArray2 c (map (skipn (w - c)) (rows2 t)))) as H.
  cbn [ncols rows2] in H. rewrite length_map in H. apply H, Hr'.
Qed.


End Padding.

(** *** Registry keys as strings *)

Section KeyStrings.

Lemma append_assoc (a b c : string) : (a ++ b) ++ c = a ++ (b ++ c).
Proof. induction a as [|x a IH]; cbn; [reflexivity|now rewrite IH]. Qed.

Lemma append_nil_r (a : string) : a ++ "" = a.
Proof. induction a as [|x a IH]; cbn; [reflexivity|now rewrite IH]. Qed.

Lemma append_inj_l (a b c : string) : a ++ b = a ++ c -> b = c.
Proof.
  induction a as [|x a IH]; cbn; intros H; [exact H|].
  injection H as H. apply IH, H.
Qed.

Lemma has_underscore_append (a b : string) :
  has_underscore (a ++ b) = has_underscore a || has_underscore b.
Proof.
  induction a as [|x a IH]; cbn; [reflexivity|].
  now rewrite IH, orb_assoc.
Qed.

Lemma no_underscore_cons c s :
  no_underscore (String c s) -> c <> "_"%char /\ no_underscore s.
Proof.
  unfold no_underscore. cbn. intros H.
  apply orb_false_iff in H. destruct H as [Hc Hs].
  split; [|exact Hs]. now apply Ascii.eqb_neq.
Qed.

(** Cutting at the first separator. *)
Lemma split_first (a b r r' : string) :
  no_underscore a -> no_underscore b -> separated r -> separated r' ->
  a ++ r = b ++ r' -> a = b /\ r = r'.
Proof.
  revert b. induction a as [|x a IH]; intros b Ha Hb Hr Hr' H.
  - destruct b as [|y b]; cbn in H.
    + split; [reflexivity|exact H].
    + apply no_underscore_cons in Hb. destruct Hb as [Hy _].
      destruct Hr as [->|[t ->]]; [discriminate H|].
      injection H as H _. congruence.
  - apply no_underscore_cons in Ha. destruct Ha as [Hx Ha].
    destruct b as [|y b]; cbn in H.
    + destruct Hr' as [->|[t ->]]; [discriminate H|].
      injection H as H _. congruence.
    + apply no_underscore_cons in Hb. destruct Hb as [_ Hb].
      injection H as -> H.
      destruct (IH b Ha Hb Hr Hr' H) as [-> ->]. split; reflexivity.
Qed.

(** Cutting at the last separator. *)
Lemma split_last (x y a b : string) :
  no_underscore a -> no_underscore b ->
  x ++ String "_" a = y ++ String "_" b -> x = y /\ a = b.
Proof.
  intros Ha Hb. revert y. induction x as [|c x IH]; intros y H.
  - destruct y as [|d y]; cbn in H.
    + injection H as ->. split; reflexivity.
    + injection H as _ H. exfalso.
      assert (Hu : has_underscore a = true).
      { rewrite H, has_underscore_append. cbn. apply orb_true_r. }
      unfold no_underscore in Ha. congruence.
  - destruct y as [|d y]; cbn in H.
    + injection H as _ H. exfalso.
      assert (Hu : has_underscore b = true).
      { rewrite <- H, has_underscore_append. cbn. apply orb_true_r. }
      unfold no_underscore in Hb. congruence.
    + injection H as -> H. destruct (IH y H) as [-> ->].
      split; reflexivity.
Qed.

Lemma no_underscore_string_of_uint (d : Decimal.uint) :
  no_underscore (DecimalString.NilEmpty.string_of_uint d).
Proof.
  unfold no_underscore. induction d; cbn; [reflexivity|assumption..].
Qed.

Lemma no_underscore_dec (n : nat) : no_underscore (dec n).
Proof. apply no_underscore_string_of_uint. Qed.

Lemma dec_inj (n m : nat) : dec n = dec m -> n = m.
Proof.
  unfold dec. intros H.
  apply DecimalNat.Unsigned.to_uint_inj.
  assert (Hs : Some (Nat.to_uint n) = Some (Nat.to_uint m)).
  { rewrite <- !DecimalString.NilEmpty.usu. now rewrite H. }
  now injection Hs.
Qed.

Lemma derived_refl (b : string) : derived b b.
Proof. exists "". split; [now rewrite append_nil_r|now left]. Qed.

Lemma derived_fkey (b s k : string) : derived (fkey b s) k -> derived b k.
Proof.
  intros (r & -> & _). exists ("_" ++ s ++ r). split.
  - unfold fkey. now rewrite !append_assoc.
  - right. now exists (s ++ r).
Qed.

Lemma derived_list_key (b method : string) (idx : nat) :
  derived b (list_key b method idx).
Proof.
  exists ("_" ++ method ++ "_" ++ dec idx). split; [reflexivity|].
  right. now eexists.
Qed.

(** Keys derived from two different names under the same base are
    different, provided the names do not contain the separator. *)
Lemma derived_same_tag (b s s' k : string) :
  no_underscore s -> no_underscore s' ->
  derived (fkey b s) k -> derived (fkey b s') k -> s = s'.
Proof.
  intros Hs Hs' (r & -> & Hr) (r' & H & Hr').
  unfold fkey in H. rewrite !append_assoc in H.
  apply append_inj_l in H. cbn in H. injection H as H.
  now destruct (split_first s s' r r' Hs Hs' Hr Hr' H).
Qed.

(** Keys of different list positions differ. *)
Lemma list_key_inj (b m m' : string) (i j : nat) :
  list_key b m i = list_key b m' j -> m = m' /\ i = j.
Proof.
  unfold list_key. intros H. apply append_inj_l in H.
  cbn in H. injection H as H.
  destruct (split_last m m' (dec i) (dec j)
              (no_underscore_dec i) (no_underscore_dec j) H) as [-> Hd].
  split; [reflexivity|now apply dec_inj].
Qed.

End KeyStrings.

(** *** The keys written by one forward call *)

Section WrittenKeys.

Context {B : Backend}.

Lemma keys_bind {A C} (m : M A) (f : A -> M C) w :
  registered (emitted (bind m f w))
  = (registered (emitted (m w)) ++
     match value (m w) with
     | inl _ => []
     | inr a => registered (emitted (f a (after (m w))))
     end)%list.
Proof.
  unfold bind. destruct (m w) as [[e|a] w1 ev]; cbn [value after emitted].
  - now rewrite app_nil_r.
  - apply registered_app.
Qed.

Lemma silent_ret {A} (a : A) : silent (ret a).
Proof. intros w. reflexivity. Qed.

Lemma silent_raise {A} (e : exn) : silent (@raise B A e).
Proof. intros w. reflexivity. Qed.

Lemma silent_lift {A} (r : result A) : silent (lift r).
Proof. intros w. reflexivity. Qed.

Lemma silent_get_self : silent get_self.
Proof. intros w. reflexivity. Qed.

Lemma silent_set_self s : silent (set_self s).
Proof. intros w. reflexivity. Qed.

Lemma silent_attribute (flag : option bool) : silent (attribute flag).
Proof. destruct flag; [apply silent_ret|apply silent_raise]. Qed.

Lemma silent_emit (e : event) : registered [e] = [] -> silent (emit e).
Proof. intros H w. exact H. Qed.

Lemma silent_bind {A C} (m : M A) (f : A -> M C) :
  silent m -> (forall a, silent (f a)) -> silent (bind m f).
Proof.
  intros Hm Hf w. rewrite keys_bind, Hm.
  destruct (value (m w)); [reflexivity|apply Hf].
Qed.

Ltac sil_step :=
  match goal with
  | |- silent (bind _ _) => apply silent_bind; [|intros ?]
  | |- silent (ret _) => apply silent_ret
  | |- silent (raise _) => apply silent_raise
  | |- silent (lift _) => apply silent_lift
  | |- silent get_self => apply silent_get_self
  | |- silent (set_self _) => apply silent_set_self
  | |- silent (attribute _) => apply silent_attribute
  | |- silent (emit _) => apply silent_emit; reflexivity
  | |- silent (match ?x with _ => _ end) => destruct x
  end.

Ltac sil := repeat first [sil_step | solve [auto]].

Lemma post_ret {A} (a : A) (Q : A -> Prop) : Q a -> post (ret a) Q.
Proof. intros H w. exact H. Qed.

Lemma post_raise {A} (e : exn) (Q : A -> Prop) : post (raise e) Q.
Proof. intros w. exact I. Qed.

Lemma post_bind {A C} (m : M A) (f : A -> M C) (Q1 : A -> Prop)
    (Q2 : C -> Prop) :
  post m Q1 -> (forall a, Q1 a -> post (f a) Q2) -> post (bind m f) Q2.
Proof.
  intros Hm Hf w. specialize (Hm w). unfold bind.
  destruct (m w) as [[e|a] w1 ev]; cbn [value after emitted] in *.
  - exact I.
  - apply (Hf a Hm w1).
Qed.

Lemma post_true {A} (m : M A) : post m (fun _ => True).
Proof. intros w. destruct (value (m w)); exact I. Qed.

(** A silent first part, then a part whose keys satisfy [P]. *)
Lemma keys_after_silent {A C} (m : M A) (f : A -> M C) (Q : A -> Prop)
    (P : list string -> Prop) :
  silent m -> post m Q -> P [] ->
  (forall a w, Q a -> P (registered (emitted (f a w)))) ->
  forall w, P (registered (emitted (bind m f w))).
Proof.
  intros Hs Hq Hnil Hf w. rewrite keys_bind, Hs. cbn [app].
  specialize (Hq w). destruct (value (m w)) as [e|a]; [exact Hnil|].
  apply Hf, Hq.
Qed.

(** A part whose keys satisfy [P], then a silent part. *)
Lemma keys_before_silent {A C} (m : M A) (f : A -> M C)
    (P : list string -> Prop) :
  (forall w, P (registered (emitted (m w)))) ->
  (forall a, silent (f a)) ->
  forall w, P (registered (emitted (bind m f w))).
Proof.
  intros Hm Hf w. rewrite keys_bind.
  destruct (value (m w)) as [e|a]; [|rewrite Hf]; rewrite app_nil_r; apply Hm.
Qed.

Lemma good_nil (R : string -> Prop) : good R [].
Proof. split; constructor. Qed.

Lemma good_weaken (R R' : string -> Prop) l :
  (forall k, R k -> R' k) -> good R l -> good R' l.
Proof.
  intros H [Hn Hf]. split; [exact Hn|].
  eapply Forall_impl; [exact H|exact Hf].
Qed.

(** Two parts whose keys are distinct and of two incompatible kinds. *)
Lemma keys_of_two_parts {A C} (m : M A) (f : A -> M C)
    (R1 R2 : string -> Prop) :
  (forall w, good R1 (registered (emitted (m w)))) ->
  (forall a w, good R2 (registered (emitted (f a w)))) ->
  (forall k, R1 k -> R2 k -> False) ->
  forall w, good (fun k => R1 k \/ R2 k) (registered (emitted (bind m f w))).
Proof.
  intros Hm Hf Hd w. rewrite keys_bind.
  destruct (Hm w) as [Hn1 Hf1].
  destruct (value (m w)) as [e|a].
  - rewrite app_nil_r. split; [exact Hn1|].
    eapply Forall_impl; [|exact Hf1]. intros k Hk. now left.
  - destruct (Hf a (after (m w))) as [Hn2 Hf2]. split.
    + apply NoDup_app; [exact Hn1|exact Hn2|].
      intros k Hk1 Hk2.
      rewrite Forall_forall in Hf1, Hf2.
      exact (Hd k (Hf1 k Hk1) (Hf2 k Hk2)).
    + apply Forall_app. split.
      * eapply Forall_impl; [|exact Hf1]. intros k Hk. now left.
      * eapply Forall_impl; [|exact Hf2]. intros k Hk. now right.
Qed.

Lemma dict_set_keys_in {A} (d : dict A) k v x :
  In x (dict_keys (dict_set d k v)) -> x = k \/ In x (dict_keys d).
Proof.
  induction d as [|[k' v'] d IH]; cbn.
  - intros [H|[]]. now left.
  - destruct (String.eqb k k'); cbn.
    + intros H. now right.
    + intros [H|H]; [right; now left|].
      destruct (IH H) as [Hk|Hd]; [now left|right; now right].
Qed.

Lemma dict_set_keys_good {A} (R : string -> Prop) (d : dict A) k v :
  good R (dict_keys d) -> R k -> good R (dict_keys (dict_set d k v)).
Proof.
  intros [Hn Hf] Hk. induction d as [|[k' v'] d IH]; cbn.
  - split; repeat constructor; [intros []|exact Hk].
  - cbn in Hn, Hf. inversion Hn as [|? ? Hni Hn']; subst.
    inversion Hf as [|? ? Hr Hf']; subst.
    destruct (String.eqb_spec k k') as [->|Hne]; cbn.
    + split; constructor; assumption.
    + destruct (IH Hn' Hf') as [Hn2 Hf2]. split; constructor; try assumption.
      intros Hin. apply dict_set_keys_in in Hin.
      destruct Hin as [Heq|Hin]; [congruence|contradiction].
Qed.

Lemma register_keys (d : dict (ScalerEntry fitted)) w :
  registered (emitted (register d w)) = dict_keys d.
Proof.
  revert w. induction d as [|[k e] d IH]; intros w; cbn [register].
  - reflexivity.
  - rewrite bind_get_self, bind_set_self, bind_emit.
    cbn [emitted registered flat_map app dict_keys map fst].
    f_equal. apply IH.
Qed.

Lemma silent_call_transformation data columns kwargs :
  silent (call_transformation data columns kwargs).
Proof. unfold call_transformation. sil. Qed.

Lemma silent_transform_list columns k l idx data acc :
  silent (transform_list columns k l idx data acc).
Proof.
  pose proof silent_call_transformation.
  revert idx data acc. induction l as [|trans rest IH]; intros idx data acc;
    cbn [transform_list]; sil.
Qed.

Lemma post_transform_list columns k l idx data acc :
  good (derived k) (dict_keys acc) ->
  post (transform_list columns k l idx data acc)
    (fun r => good (derived k) (dict_keys (snd r))).
Proof.
  revert idx data acc. induction l as [|trans rest IH]; intros idx data acc Hacc;
    cbn [transform_list].
  - apply post_ret. exact Hacc.
  - assert (Hstep : forall kwargs method,
      post (bind (call_transformation data columns kwargs)
              (fun r => transform_list columns k rest (S idx) (PyFrame (fst r))
                          (dict_set acc (list_key k method idx) (snd r))))
        (fun r => good (derived k) (dict_keys (snd r)))).
    { intros kwargs method.
      eapply post_bind; [apply post_true|]. intros r _.
      apply IH. apply dict_set_keys_good; [exact Hacc|].
      apply derived_list_key. }
    assert (Hother :
      post (bind (lift (getitem_str trans "method"))
              (fun method =>
                 if is_not_none method
                 then match trans with
                      | VDict kwargs =>
                          bind (call_transformation data columns kwargs)
                            (fun r =>
                               transform_list columns k rest (S idx)
                                 (PyFrame (fst r))
                                 (dict_set acc
                                    (list_key k (py_str method) idx) (snd r)))
                      | _ => raise TypeError
                      end
                 else transform_list columns k rest (S idx) data acc))
        (fun r => good (derived k) (dict_keys (snd r)))).
    { eapply post_bind; [apply post_true|]. intros method _.
      destruct (is_not_none method); [|apply IH, Hacc].
      destruct trans; try apply post_raise. apply Hstep. }
    destruct trans; try exact Hother. apply Hstep.
Qed.

(** The keys written by one [_transform_2d] call are distinct and derive
    from the key it was given. *)
Lemma keys_transform_2d data columns transformation k w :
  good (derived k)
    (registered (emitted (_transform_2d data columns transformation k w))).
Proof.
  pose proof silent_call_transformation.
  pose proof silent_transform_list.
  unfold _transform_2d.
  apply keys_after_silent
    with (Q := fun r => good (derived k) (dict_keys (snd r))).
  - sil.
  - assert (Hone : good (derived k)
                     (dict_keys (@nil (string * ScalerEntry fitted)))).
    { apply good_nil. }
    destruct (truthy transformation); [|apply post_ret; exact Hone].
    eapply post_bind with (Q1 := fun r => good (derived k) (dict_keys (snd r))).
    + destruct transformation; try apply post_raise.
      * eapply post_bind; [apply post_true|]. intros r _. apply post_ret.
        cbn [snd]. apply dict_set_keys_good; [exact Hone|apply derived_refl].
      * apply post_transform_list. exact Hone.
      * eapply post_bind; [apply post_true|]. intros r _. apply post_ret.
        cbn [snd]. apply dict_set_keys_good; [exact Hone|apply derived_refl].
    + intros r Hr. eapply post_bind; [apply post_true|].
      intros d _. apply post_ret. exact Hr.
  - apply good_nil.
  - intros r w' Hr.
    apply keys_before_silent with (P := good (derived k)).
    + intros w''. rewrite register_keys. exact Hr.
    + intros _. apply silent_ret.
Qed.

(** The time steps of a rank-3 source write keys of distinct steps. *)
Lemma keys_fit_steps data feature_names transformation k ts :
  NoDup ts ->
  forall _data w,
    good (fun x => exists t, In t ts /\ derived (fkey k (dec t)) x)
      (registered (emitted
         (fit_steps data feature_names transformation k ts _data w))).
Proof.
  induction 1 as [|t rest Hnin Hnd IH]; intros _data w; cbn [fit_steps].
  - apply good_nil.
  - eapply good_weaken; cycle 1.
    + apply keys_of_two_parts
        with (R1 := derived (fkey k (dec t)))
             (R2 := fun x => exists t', In t' rest /\
                                        derived (fkey k (dec t')) x).
      * intros w'. apply keys_transform_2d.
      * intros v w'.
        apply keys_after_silent with (Q := fun _ => True).
        -- apply silent_lift.
        -- apply post_true.
        -- apply good_nil.
        -- intros a w'' _. apply IH.
      * intros x H1 (t' & Hin & H2).
        apply Hnin.
        assert (Heq : dec t = dec t').
        { eapply derived_same_tag; eauto using no_underscore_dec. }
        apply dec_inj in Heq. now subst.
    + cbn beta. intros x [H1|(t' & Hin & H2)].
      * exists t. split; [now left|exact H1].
      * exists t'. split; [now right|exact H2].
Qed.

Lemma keys__fit_transform data feature_names transformation k w :
  good (derived k)
    (registered (emitted
       (__fit_transform data feature_names transformation k w))).
Proof.
  unfold __fit_transform.
  destruct data; try apply good_nil; try apply keys_transform_2d.
  apply keys_before_silent with (P := good (derived k)).
  - intros w'. eapply good_weaken; [|apply keys_fit_steps, seq_NoDup].
    cbn beta. intros x (t & _ & Hd). eapply derived_fkey, Hd.
  - intros _data. apply silent_ret.
Qed.

(** The sources of a list write keys of distinct positions. *)
Lemma keys_fit_list nms transformation k data :
  forall idx _data w,
    good (fun x => exists i, idx <= i /\ derived (fkey k (dec i)) x)
      (registered (emitted
         (fit_list nms transformation k data idx _data w))).
Proof.
  induction data as [|array rest IH]; intros idx _data w; cbn [fit_list].
  - apply good_nil.
  - apply keys_after_silent with (Q := fun _ => True);
      [apply silent_lift|apply post_true|apply good_nil|].
    intros feature_names w1 _.
    apply keys_after_silent with (Q := fun _ => True);
      [apply silent_lift|apply post_true|apply good_nil|].
    intros trans w2 _.
    eapply good_weaken; cycle 1.
    + apply keys_of_two_parts
        with (R1 := derived (fkey k (dec idx)))
             (R2 := fun x => exists i, S idx <= i /\
                                       derived (fkey k (dec i)) x).
      * intros w'. apply keys__fit_transform.
      * intros r w'. apply IH.
      * intros x H1 (i & Hle & H2).
        assert (Heq : dec idx = dec i).
        { eapply derived_same_tag; eauto using no_underscore_dec. }
        apply dec_inj in Heq. lia.
    + cbn beta. intros x [H1|(i & Hle & H2)].
      * exists idx. split; [lia|exact H1].
      * exists i. split; [lia|exact H2].
Qed.

(** The sources of a dictionary write keys of distinct names, as long as
    no name contains the separator. *)
Lemma keys_fit_dict nms transformation k (data : dict (pyobj cell)) :
  NoDup (dict_keys data) ->
  Forall no_underscore (dict_keys data) ->
  forall _data w,
    good (fun x => exists s, In s (dict_keys data) /\ derived (fkey k s) x)
      (registered (emitted (fit_dict nms transformation k data _data w))).
Proof.
  induction data as [|[src_name array] rest IH]; intros Hnd Hnu _data w;
    cbn [fit_dict].
  - apply good_nil.
  - cbn in Hnd, Hnu.
    inversion Hnd as [|? ? Hnin Hnd']; subst.
    inversion Hnu as [|? ? Hs Hnu']; subst.
    apply keys_after_silent with (Q := fun _ => True);
      [apply silent_lift|apply post_true|apply good_nil|].
    intros feature_names w1 _.
    apply keys_after_silent with (Q := fun _ => True);
      [apply silent_lift|apply post_true|apply good_nil|].
    intros trans w2 _.
    eapply good_weaken; cycle 1.
    + apply keys_of_two_parts
        with (R1 := derived (fkey k src_name))
             (R2 := fun x => exists s, In s (dict_keys rest) /\
                                       derived (fkey k s) x).
      * intros w'. apply keys__fit_transform.
      * intros r w'. apply IH; assumption.
      * intros x H1 (s & Hin & H2).
        apply Hnin.
        assert (Heq : src_name = s).
        { eapply derived_same_tag; eauto.
          rewrite Forall_forall in Hnu'. now apply Hnu'. }
        now subst.
    + cbn beta. intros x [H1|(s & Hin & H2)].
      * exists src_name. split; [now left|exact H1].
      * exists s. split; [now right|exact H2].
Qed.

Lemma good_NoDup (R : string -> Prop) l : good R l -> NoDup l.
Proof. now intros [H _]. Qed.

Lemma keys__fit_transform_top (data : pyobj cell) k w :
  (forall kvs, data = PyDict kvs ->
     NoDup (dict_keys kvs) /\ Forall no_underscore (dict_keys kvs)) ->
  NoDup (registered (emitted (_fit_transform data k w))).
Proof.
  intros Hd. unfold _fit_transform.
  rewrite bind_get_self.
  apply keys_after_silent with (Q := fun _ => True) (P := @NoDup string);
    [apply silent_attribute|apply post_true|constructor|].
  intros numpy w1 _. destruct numpy.
  - eapply good_NoDup, keys__fit_transform.
  - apply keys_after_silent with (Q := fun _ => True) (P := @NoDup string);
      [apply silent_attribute|apply post_true|constructor|].
    intros list_ w2 _. destruct list_.
    + destruct data; try constructor.
      apply keys_before_silent with (P := @NoDup string).
      * intros w'. eapply good_NoDup, keys_fit_list.
      * intros ?. apply silent_ret.
    + destruct data; try constructor.
      destruct (Hd kvs eq_refl) as [Hn Hu].
      apply keys_before_silent with (P := @NoDup string).
      * intros w'. eapply good_NoDup, keys_fit_dict; assumption.
      * intros ?. apply silent_ret.
Qed.

Lemma silent_check_features : silent _check_features.
Proof. unfold _check_features. sil. Qed.


End WrittenKeys.

(** *** Order of a list of transformations *)

Section ListOrder.

Context {B : Backend}.

Lemma bind_eq {A C} (m : M A) (f : A -> M C) w :
  bind m f w
  = match value (m w) with
    | inl e => mkOutcome (inl e) (after (m w)) (emitted (m w))
    | inr a =>
        mkOutcome (value (f a (after (m w)))) (after (f a (after (m w))))
          (emitted (m w) ++ emitted (f a (after (m w))))%list
    end.
Proof. reflexivity. Qed.

Lemma call_transformation_events data columns method w :
  let o := call_transformation data columns (method_kwargs method) w in
  (emitted o = [] /\ exists e, value o = inl e) \/
  emitted o = [Transform_called (method_kwargs method)].
Proof.
  unfold call_transformation. cbn zeta.
  destruct (pd_DataFrame data columns) as [e|df].
  - left. rewrite bind_lift_error. cbn. split; [reflexivity|now exists e].
  - right. rewrite bind_lift_ok.
    change (dict_mem (method_kwargs method) "data") with false.
    cbn iota. rewrite bind_emit. reflexivity.
Qed.

Lemma dict_set_fresh {A} (d : dict A) k v :
  ~ In k (dict_keys d) -> dict_keys (dict_set d k v) = (dict_keys d ++ [k])%list.
Proof.
  induction d as [|[k' v'] d IH]; cbn; intros Hn; [reflexivity|].
  destruct (String.eqb_spec k k') as [->|Hne].
  - exfalso. apply Hn. now left.
  - cbn. f_equal. apply IH. intros Hin. apply Hn. now right.
Qed.

Lemma enumerate_map {X Y} (f : X -> Y) (l : list X) i :
  enumerate i (map f l) = map (fun it => (fst it, f (snd it))) (enumerate i l).
Proof.
  revert i. induction l as [|x l IH]; intros i; cbn; [reflexivity|].
  now rewrite IH.
Qed.

(** The loop of the forward pass over method names: the calls made are
    those of a prefix of the list, in order; when the loop returns, all
    were made and the local dictionary has grown by the composite keys. *)
Lemma transform_list_order columns k ms :
  forall idx data acc w,
    (forall x, In x (dict_keys acc) ->
               exists m i, i < idx /\ x = list_key k m i) ->
    let o := transform_list columns k (map VStr ms) idx data acc w in
    (exists j, emitted o = forward_calls (firstn j ms)) /\
    (forall r, value o = inr r ->
       emitted o = forward_calls ms /\
       dict_keys (snd r)
       = (dict_keys acc ++ map (key_of_entry k) (enumerate idx ms))%list).
Proof.
  induction ms as [|m rest IH]; intros idx data acc w Hacc; cbn zeta.
  - cbn. split; [exists 0; reflexivity|].
    intros r Hr. injection Hr as <-. cbn. now rewrite app_nil_r.
  - cbn [map transform_list]. rewrite bind_eq.
    fold (method_kwargs m).
    pose proof (call_transformation_events data columns m w) as Hev.
    cbn zeta in Hev.
    destruct (call_transformation data columns (method_kwargs m) w)
      as [[e|r1] w1 ev1]; cbn [value after emitted] in *.
    + split.
      * destruct Hev as [[-> _]| ->].
        -- exists 0. reflexivity.
        -- exists 1. reflexivity.
      * intros r Hr. discriminate Hr.
    + destruct Hev as [[_ [e He]]| ->]; [discriminate He|].
      assert (Hfresh : ~ In (list_key k m idx) (dict_keys acc)).
      { intros Hin. destruct (Hacc _ Hin) as (m' & i & Hlt & Heq).
        apply list_key_inj in Heq. lia. }
      assert (Hacc' : forall x,
                In x (dict_keys (dict_set acc (list_key k m idx) (snd r1))) ->
                exists m' i, i < S idx /\ x = list_key k m' i).
      { intros x Hin. rewrite (dict_set_fresh _ _ _ Hfresh) in Hin.
        apply in_app_iff in Hin. destruct Hin as [Hin|[<-|[]]].
        - destruct (Hacc _ Hin) as (m' & i & Hlt & Heq).
          exists m', i. split; [lia|exact Heq].
        - exists m, idx. split; [lia|reflexivity]. }
      destruct (IH (S idx) (PyFrame (fst r1))
                  (dict_set acc (list_key k m idx) (snd r1)) w1 Hacc')
        as [[j Hj] Hok].
      split.
      * exists (S j). cbn [firstn forward_calls map app].
        f_equal. exact Hj.
      * intros r Hr. destruct (Hok r Hr) as [He Hk].
        split.
        -- cbn [forward_calls map app]. f_equal. exact He.
        -- rewrite Hk, (dict_set_fresh _ _ _ Hfresh), <- app_assoc.
           reflexivity.
Qed.

Lemma register_emitted (d : dict (ScalerEntry fitted)) w :
  emitted (register d w) = map Registered (dict_keys d).
Proof.
  revert w. induction d as [|[k e] d IH]; intros w; cbn [register].
  - reflexivity.
  - rewrite bind_get_self, bind_set_self, bind_emit.
    cbn [emitted dict_keys map fst]. f_equal. apply IH.
Qed.

Lemma dict_mem_set {A} (d : dict A) k v x :
  dict_mem (dict_set d k v) x = String.eqb x k || dict_mem d x.
Proof.
  unfold dict_mem. induction d as [|[k' v'] d IH]; cbn.
  - now destruct (String.eqb x k).
  - destruct (String.eqb_spec k k') as [->|Hne]; cbn.
    + destruct (String.eqb x k'); reflexivity.
    + destruct (String.eqb_spec x k') as [->|Hx].
      * now rewrite orb_true_r.
      * exact IH.
Qed.

Lemma register_value (d : dict (ScalerEntry fitted)) w :
  value (register d w) = inr tt.
Proof.
  revert w. induction d as [|[k e] d IH]; intros w; cbn [register].
  - reflexivity.
  - rewrite bind_get_self, bind_set_self, bind_emit. cbn [value]. apply IH.
Qed.

(** After [self.scalers.update(d)] the registry has every key of [d],
    and the keys it had. *)
Lemma register_mem (d : dict (ScalerEntry fitted)) w x :
  dict_mem (scalers (self (after (register d w)))) x
  = dict_mem (scalers (self w)) x || str_in x (dict_keys d).
Proof.
  revert w. induction d as [|[k e] d IH]; intros w; cbn [register].
  - cbn. now rewrite orb_false_r.
  - rewrite bind_get_self, bind_set_self, bind_emit. cbn [after].
    rewrite IH. cbn [self scalers dict_keys map fst str_in existsb].
    rewrite dict_mem_set.
    destruct (String.eqb x k), (dict_mem (scalers (self w)) x); reflexivity.
Qed.

Lemma call_inverse_events data method s w :
  let o := call_inverse data (method_kwargs method) s w in
  after o = w /\ emitted o = [Inverse_called (method_kwargs method) s].
Proof.
  unfold call_inverse. cbn zeta.
  change (dict_mem (method_kwargs method) "data") with false.
  cbn iota. rewrite bind_emit. split; reflexivity.
Qed.

(** The loop of the inverse pass over [(idx, method)] pairs: the calls
    made are those of a prefix of the pairs, each with the scaler found
    under the composite key; when the loop returns, every pair had its
    key and its call. *)
Lemma inverse_list_order columns k (its : list (nat * string)) :
  forall data w,
    let o := inverse_list columns k
               (map (fun it => (fst it, VStr (snd it))) its) data w in
    after o = w /\
    (exists j, emitted o
               = flat_map (inverse_call (scalers (self w)) k) (firstn j its)) /\
    (forall out, value o = inr out ->
       emitted o = flat_map (inverse_call (scalers (self w)) k) its /\
       Forall (fun it => dict_mem (scalers (self w)) (key_of_entry k it) = true)
         its).
Proof.
  induction its as [|[idx m] rest IH]; intros data w; cbn zeta.
  - cbn. split; [reflexivity|]. split; [exists 0; reflexivity|].
    intros out _. split; [reflexivity|constructor].
  - cbn [map inverse_list fst snd]. rewrite bind_get_self.
    unfold dict_item.
    destruct (dict_get (scalers (self w)) (list_key k m idx)) as [e|] eqn:Hget.
    + assert (Hcall : inverse_call (scalers (self w)) k (idx, m)
                      = [Inverse_called (method_kwargs m) (scaler e)]).
      { unfold inverse_call, key_of_entry. cbn [fst snd]. now rewrite Hget. }
      rewrite bind_lift_ok, bind_eq. fold (method_kwargs m).
      destruct (call_inverse_events data m (scaler e) w) as [Haft Hev].
      destruct (call_inverse data (method_kwargs m) (scaler e) w)
        as [[err|df] w1 ev1]; cbn [value after emitted] in *; subst w1 ev1.
      * split; [reflexivity|]. split.
        -- exists 1. cbn [firstn flat_map]. rewrite Hcall. reflexivity.
        -- intros out Hout. discriminate Hout.
      * destruct (IH df w) as (Haft' & [j Hj] & Hok).
        split; [exact Haft'|]. split.
        -- exists (S j). cbn [firstn flat_map]. rewrite Hcall. cbn [app].
           f_equal. exact Hj.
        -- intros out Hout. destruct (Hok out Hout) as [He Hall]. split.
           ++ cbn [flat_map]. rewrite Hcall. cbn [app]. f_equal. exact He.
           ++ constructor; [|exact Hall].
              unfold key_of_entry, dict_mem. cbn [fst snd]. now rewrite Hget.
    + rewrite bind_lift_error. cbn [value after emitted].
      split; [reflexivity|]. split.
      * exists 0. reflexivity.
      * intros out Hout. discriminate Hout.
Qed.

Lemma register_then_ret {A} (d : dict (ScalerEntry fitted)) (x : A) w :
  let o := bind (register d) (fun _ => ret x) w in
  value o = inr x /\
  emitted o = map Registered (dict_keys d) /\
  after o = after (register d w).
Proof.
  cbn zeta. rewrite bind_eq, register_value. cbn [value after emitted ret].
  rewrite app_nil_r, register_emitted. repeat split.
Qed.

Lemma str_in_spec x l : str_in x l = true <-> In x l.
Proof.
  unfold str_in. rewrite existsb_exists. split.
  - intros (y & Hin & Heq). apply String.eqb_eq in Heq. now subst.
  - intros Hin. exists x. split; [exact Hin|apply String.eqb_refl].
Qed.

Lemma transform_2d_order data columns k ms w :
  let o := _transform_2d data columns (method_list ms) k w in
  (exists j reg,
      emitted o = (forward_calls (firstn j ms) ++ map Registered reg)%list) /\
  (forall out, value o = inr out ->
     emitted o
     = (forward_calls ms ++
        map Registered (map (key_of_entry k) (enumerate 0 ms)))%list /\
     Forall (fun it => dict_mem (scalers (self (after o))) (key_of_entry k it)
                       = true)
       (enumerate 0 ms)).
Proof.
  cbn zeta. unfold _transform_2d, method_list.
  destruct ms as [|m rest].
  - cbn [map truthy]. rewrite bind_ret. cbn [snd fst register].
    rewrite bind_ret. cbn. split.
    + exists 0, []. reflexivity.
    + intros out _. split; [reflexivity|constructor].
  - change (truthy (VList (map VStr (m :: rest)))) with true. cbn iota.
    rewrite !bind_bind, bind_eq.
    assert (Hacc : forall x, In x (dict_keys (@nil (string * ScalerEntry fitted))) ->
                             exists m' i, i < 0 /\ x = list_key k m' i)
      by (intros x []).
    destruct (transform_list_order columns k (m :: rest) 0 data [] w Hacc)
      as [[j Hj] Hok].
    destruct (transform_list columns k (map VStr (m :: rest)) 0 data [] w)
      as [[e|r] w1 ev1]; cbn [value after emitted] in *.
    + split.
      * exists j, []. rewrite Hj. cbn [map]. now rewrite app_nil_r.
      * intros out Hout. discriminate Hout.
    + destruct (Hok r eq_refl) as [Hev Hkeys]. cbn [app] in Hkeys.
      cbn beta. rewrite bind_bind.
      destruct (dot_values (fst r)) as [e|d].
      * rewrite bind_lift_error. cbn [value after emitted]. split.
        -- exists (length (m :: rest)), [].
           rewrite firstn_all, app_nil_r, Hev. cbn [map]. now rewrite app_nil_r.
        -- intros out Hout. discriminate Hout.
      * rewrite bind_lift_ok, bind_ret. cbn [fst snd].
        destruct (register_then_ret (snd r) d w1) as (Hv & He & Ha).
        rewrite Hv, He, Ha, Hkeys, Hev. split.
        -- exists (length (m :: rest)), (map (key_of_entry k)
                                           (enumerate 0 (m :: rest))).
           now rewrite firstn_all.
        -- intros out _. split; [reflexivity|].
           apply Forall_forall. intros it Hin.
           rewrite register_mem, Hkeys.
           apply orb_true_iff. right. apply str_in_spec.
           apply in_map, Hin.
Qed.

Lemma inverse_transform_2d_order data columns k ms w :
  let o := _inverse_transform_2d data columns k (method_list ms) w in
  (exists j, emitted o
             = flat_map (inverse_call (scalers (self w)) k)
                 (firstn j (List.rev (enumerate 0 ms)))) /\
  (forall out, value o = inr out ->
     emitted o = flat_map (inverse_call (scalers (self w)) k)
                   (List.rev (enumerate 0 ms)) /\
     Forall (fun it => dict_mem (scalers (self w)) (key_of_entry k it) = true)
       (enumerate 0 ms)).
Proof.
  cbn zeta. unfold _inverse_transform_2d, method_list.
  destruct (pd_DataFrame data columns) as [e|df].
  - rewrite bind_lift_error. cbn [value emitted]. split.
    + exists 0. reflexivity.
    + intros out Hout. discriminate Hout.
  - rewrite bind_lift_ok, enumerate_map, <- map_rev, bind_eq.
    destruct (inverse_list_order columns k (List.rev (enumerate 0 ms)) df w)
      as (Haft & [j Hj] & Hok).
    destruct (inverse_list columns k
                (map (fun it => (fst it, VStr (snd it)))
                   (List.rev (enumerate 0 ms))) df w)
      as [[e|d] w1 ev1]; cbn [value after emitted ret] in *.
    + split; [exists j; exact Hj|]. intros out Hout. discriminate Hout.
    + rewrite app_nil_r. split; [exists j; exact Hj|].
      intros out _. destruct (Hok d eq_refl) as [He Hall].
      split; [exact He|].
      apply Forall_rev in Hall. now rewrite rev_involutive in Hall.
Qed.


End ListOrder.

(** *** Round trip *)

Section RoundTrip.

Context {B : Backend}.

Lemma runs_bind {A C} (m : M A) (f : A -> M C) w a w1 c w2 :
  runs m w a w1 -> runs (f a) w1 c w2 -> runs (bind m f) w c w2.
Proof.
  unfold runs, bind. intros [Hv Ha] [Hv' Ha'].
  destruct (m w) as [[e|a'] w' ev]; cbn [value after emitted] in *.
  - discriminate Hv.
  - injection Hv as ->. subst w'. split; assumption.
Qed.

Lemma runs_ret {A} (a : A) w : runs (ret a) w a w.
Proof. split; reflexivity. Qed.

Lemma runs_lift {A} (r : result A) a w : r = inr a -> runs (lift r) w a w.
Proof. intros ->. split; reflexivity. Qed.

Lemma runs_get_self w : runs get_self w (self w) w.
Proof. split; reflexivity. Qed.

Lemma runs_set_self s w : runs (set_self s) w tt (mkWorld s (np_random w)).
Proof. split; reflexivity. Qed.

Lemma runs_emit e w : runs (emit e) w tt w.
Proof. split; reflexivity. Qed.

Lemma runs_attribute flag b w : flag = Some b -> runs (attribute flag) w b w.
Proof. intros ->. split; reflexivity. Qed.

Lemma runs_value {A} (m : M A) w a w1 : runs m w a w1 -> value (m w) = inr a.
Proof. now intros [H _]. Qed.

Lemma value_bind {A C} (m : M A) (f : A -> M C) w a :
  value (m w) = inr a -> value (bind m f w) = value (f a (after (m w))).
Proof.
  unfold bind. destruct (m w) as [[e|a'] w' ev]; cbn [value after emitted].
  - discriminate.
  - intros H. injection H as ->. reflexivity.
Qed.

Lemma pd_DataFrame_array (a : ndarray2 cell) xs labels :
  labels_of_list xs = inr labels -> ncols a = length labels ->
  pd_DataFrame (PyArray2 a) (VList xs) = inr (mkFrame labels (rows2 a)).
Proof.
  intros Hl Hn. unfold pd_DataFrame. cbn [labels_of]. rewrite Hl.
  cbn [rbind]. now rewrite Hn, Nat.eqb_refl.
Qed.

Lemma runs_call_transformation (a : ndarray2 cell) xs labels m r w :
  labels_of_list xs = inr labels -> ncols a = length labels ->
  Transformation_transform (method_kwargs m) (mkFrame labels (rows2 a)) = inr r ->
  runs (call_transformation (PyArray2 a) (VList xs) [("method", VStr m)]) w r w.
Proof.
  intros Hl Hn Ht. unfold call_transformation.
  eapply runs_bind.
  - apply runs_lift. apply (pd_DataFrame_array a xs labels Hl Hn).
  - change (dict_mem [("method", VStr m)] "data") with false. cbn iota.
    eapply runs_bind; [apply runs_emit|].
    apply runs_lift. exact Ht.
Qed.

Lemma runs_register_one k (e : ScalerEntry fitted) w :
  runs (register [(k, e)]) w tt
    (with_scalers w (dict_set (scalers (self w)) k e)).
Proof.
  cbn [register].
  eapply runs_bind; [apply runs_get_self|].
  eapply runs_bind; [apply runs_set_self|].
  eapply runs_bind; [apply runs_emit|].
  apply runs_ret.
Qed.

Lemma truthy_method m : m <> "" -> truthy (VStr m) = true.
Proof.
  intros H. cbn. now destruct (String.eqb_spec m "").
Qed.

(** Forward pass of one 2-D table under a single method name. *)
Lemma transform_2d_single (a : ndarray2 cell) xs labels m k df' e w :
  m <> "" ->
  labels_of_list xs = inr labels -> ncols a = length labels ->
  Transformation_transform (method_kwargs m) (mkFrame labels (rows2 a))
  = inr (df', e) ->
  runs (_transform_2d (PyArray2 a) (VList xs) (VStr m) k) w
    (PyArray2 (values df'))
    (with_scalers w (dict_set (scalers (self w)) k e)).
Proof.
  intros Hm Hl Hn Ht. unfold _transform_2d.
  rewrite (truthy_method m Hm).
  eapply runs_bind.
  - eapply runs_bind.
    + eapply runs_bind.
      * eapply runs_call_transformation; eassumption.
      * apply runs_ret.
    + cbn [fst snd]. eapply runs_bind.
      * apply runs_lift. reflexivity.
      * apply runs_ret.
  - cbn [fst snd dict_set]. eapply runs_bind.
    + apply runs_register_one.
    + apply runs_ret.
Qed.

Lemma conform_shape_same (df : DataFrame cell) sh w :
  length sh = 2 -> last sh 0 = length (df_columns df) ->
  conform_shape (PyFrame df) sh VNone w = mkOutcome (inr (PyFrame df, 0%Z)) w [].
Proof.
  intros Hl Hlast.
  destruct sh as [|x [|y [|z sh]]]; try discriminate Hl.
  cbn [last] in Hlast. subst y.
  unfold conform_shape. cbn [length Nat.ltb Nat.leb truthy].
  change (last_dim [x; length (df_columns df)])
    with (Z.of_nat (length (df_columns df))).
  rewrite Z.sub_diag. reflexivity.
Qed.

Lemma bind_pure {A C} (m : M A) (f : A -> M C) w a :
  m w = mkOutcome (inr a) w [] -> bind m f w = f a w.
Proof.
  intros H. unfold bind. rewrite H. cbn. apply outcome_eta.
Qed.

Lemma slice_columns_zero (t : ndarray2 cell) : slice_columns 0 t = t.
Proof.
  unfold slice_columns, slice_from. cbn.
  rewrite repeat_length, map_id. now destruct t.
Qed.

Lemma reshape_exact c (rs : list (list cell)) n :
  rectangular c rs -> length rs = n ->
  reshape (mkArray2 c rs) n c = ok (mkArray2 c rs).
Proof.
  intros Hr <-. apply (reshape_same (mkArray2 c rs)). exact Hr.
Qed.

(** Inverse pass of one 2-D table under a single method name, in a world
    whose registry holds the descriptor under the key. *)
Lemma inverse_2d_single rs xs labels m k (df' : DataFrame cell)
    (e : ScalerEntry fitted) w :
  labels_of_list xs = inr labels ->
  length (df_columns df') = length labels ->
  length (df_rows df') = length rs ->
  rectangular (length labels) rs ->
  length (shape e) = 2 -> last (shape e) 0 = length labels ->
  scaler_inverse_transform (scaler e) (mkFrame labels (df_rows df'))
  = inr (mkArray2 (length labels) rs) ->
  dict_get (scalers (self w)) k = Some e ->
  value (_inverse_transform_2d (PyArray2 (values df')) (VList xs) k (VStr m) w)
  = inr (PyArray2 (mkArray2 (length labels) rs)).
Proof.
  intros Hl Hc Hr Hrect Hs1 Hs2 Hinv Hget.
  unfold _inverse_transform_2d.
  rewrite (pd_DataFrame_array (values df') xs labels Hl Hc).
  rewrite bind_lift_ok, bind_get_self.
  unfold dict_mem, dict_item. rewrite Hget. cbn [negb].
  rewrite bind_lift_ok.
  cbn [values rows2 df_rows df_columns].
  rewrite (bind_pure _ _ _ _
             (conform_shape_same (mkFrame labels (df_rows df')) (shape e) w
                Hs1 Hs2)).
  cbn [fst snd]. rewrite bind_emit. cbn [value].
  rewrite Hinv, bind_lift_ok, slice_columns_zero.
  rewrite (reshape_exact _ _ _ Hrect (eq_sym Hr)).
  rewrite bind_lift_ok. reflexivity.
Qed.

(** Lists and cubes *)

Lemma set_nth_length {X} i (x : X) l : length (set_nth i x l) = length l.
Proof.
  revert i. induction l as [|y l IH]; intros [|i]; cbn; try reflexivity.
  now rewrite IH.
Qed.

Lemma nth_set_nth_same {X} i (x d : X) l :
  i < length l -> nth i (set_nth i x l) d = x.
Proof.
  revert i. induction l as [|y l IH]; intros [|i] H; cbn in *; try lia.
  - reflexivity.
  - apply IH. lia.
Qed.

Lemma nth_set_nth_other {X} i j (x d : X) l :
  i <> j -> nth j (set_nth i x l) d = nth j l d.
Proof.
  revert i j. induction l as [|y l IH]; intros [|i] [|j] H; cbn;
    try reflexivity; try congruence.
  apply IH. congruence.
Qed.

Lemma cube_shape_assign {X} n t i (c : list (list (list X))) rs :
  cube_shape n t c -> length rs = n ->
  cube_shape n t (map2 (fun ex r => set_nth i r ex) c rs).
Proof.
  intros [Hl Hf]. revert n rs Hl.
  induction Hf as [|ex c Hex Hf IH]; intros n rs Hl Hr; cbn in *.
  - subst n. split; [reflexivity|constructor].
  - destruct rs as [|r rs]; cbn in *; [lia|].
    destruct n as [|n]; [discriminate|].
    destruct (IH n rs) as [Hl' Hf']; [lia|lia|].
    split; [cbn; now rewrite Hl'|].
    constructor; [now rewrite set_nth_length|exact Hf'].
Qed.

Lemma slice_assign_same {X} n t i (c : list (list (list X))) rs :
  cube_shape n t c -> length rs = n -> i < t ->
  map (fun ex => nth i ex []) (map2 (fun ex r => set_nth i r ex) c rs) = rs.
Proof.
  intros [Hl Hf] Hr Hi. revert n rs Hl Hr.
  induction Hf as [|ex c Hex Hf IH]; intros n rs Hl Hr; cbn in *.
  - subst n. now destruct rs.
  - destruct rs as [|r rs]; cbn in *; [lia|].
    f_equal.
    + apply nth_set_nth_same. lia.
    + apply (IH (length c)); [reflexivity|lia].
Qed.

Lemma slice_assign_other {X} i j (c : list (list (list X))) rs :
  length rs = length c -> i <> j ->
  map (fun ex => nth j ex []) (map2 (fun ex r => set_nth i r ex) c rs)
  = map (fun ex => nth j ex []) c.
Proof.
  revert rs. induction c as [|ex c IH]; intros [|r rs] Hl Hij; cbn in *;
    try discriminate; [reflexivity|].
  f_equal.
  - now apply nth_set_nth_other.
  - apply IH; [lia|exact Hij].
Qed.

Lemma cube_ext {X} n t (c1 c2 : list (list (list X))) :
  cube_shape n t c1 -> cube_shape n t c2 ->
  (forall i, i < t -> map (fun ex => nth i ex []) c1
                      = map (fun ex => nth i ex []) c2) ->
  c1 = c2.
Proof.
  intros [Hl1 Hf1] [Hl2 Hf2]. revert n c2 Hl1 Hl2 Hf2.
  induction Hf1 as [|ex1 c1 Hex1 Hf1 IH]; intros n c2 Hl1 Hl2 Hf2 Hs.
  - cbn in Hl1. subst n. now destruct c2.
  - destruct c2 as [|ex2 c2]; cbn in *; [lia|].
    apply Forall_cons_iff in Hf2. destruct Hf2 as [Hex2 Hf2'].
    f_equal.
    + apply nth_ext with (d := []) (d' := []); [congruence|].
      intros i Hi. specialize (Hs i). rewrite Hex1 in Hi.
      specialize (Hs Hi). now injection Hs.
    + apply (IH (length c1)); [reflexivity|lia|exact Hf2'|].
      intros i Hi. specialize (Hs i Hi). now injection Hs.
Qed.

Lemma cube_shape_full (a : ndarray3 cell) :
  cube_shape (length (cube a)) (steps a) (cube (np_full_nan a)).
Proof.
  unfold np_full_nan. cbn [cube]. split.
  - apply repeat_length.
  - apply Forall_forall. intros ex Hin. apply repeat_spec in Hin. subst ex.
    apply repeat_length.
Qed.

Lemma slice_rows_rectangular (a : ndarray3 cell) i :
  Forall (fun ex => length ex = steps a) (cube a) ->
  Forall (rectangular (width a)) (cube a) ->
  i < steps a ->
  rectangular (width a) (rows2 (slice_step a i)).
Proof.
  intros Hs Hr Hi. unfold slice_step. cbn [rows2].
  unfold rectangular. apply Forall_map.
  rewrite Forall_forall in *. intros ex Hin.
  specialize (Hs ex Hin). specialize (Hr ex Hin).
  unfold rectangular in Hr. rewrite Forall_forall in Hr.
  apply Hr, nth_In. lia.
Qed.

Lemma assign_step_exact (_data : ndarray3 cell) i (v : ndarray2 cell) :
  length (rows2 v) = length (cube _data) -> ncols v = width _data ->
  assign_step _data i (PyArray2 v)
  = ok (mkArray3 (steps _data) (width _data)
          (map2 (fun ex r => set_nth i r ex) (cube _data) (rows2 v))).
Proof.
  intros Hl Hc. unfold assign_step, broadcast_to. cbn [rbind ok].
  now rewrite Hl, Hc, !Nat.eqb_refl.
Qed.

(** Registries *)

Lemma dict_get_set_same {A} (d : dict A) k v :
  dict_get (dict_set d k v) k = Some v.
Proof.
  induction d as [|[k' v'] d IH]; cbn.
  - now rewrite String.eqb_refl.
  - destruct (String.eqb_spec k k') as [->|Hne]; cbn.
    + now rewrite String.eqb_refl.
    + destruct (String.eqb_spec k k'); [contradiction|exact IH].
Qed.

Lemma dict_get_set_other {A} (d : dict A) k v k' :
  k' <> k -> dict_get (dict_set d k v) k' = dict_get d k'.
Proof.
  intros Hne. induction d as [|[k0 v0] d IH]; cbn.
  - now destruct (String.eqb_spec k' k).
  - destruct (String.eqb_spec k k0) as [->|Hk]; cbn.
    + now destruct (String.eqb_spec k' k0).
    + destruct (String.eqb_spec k' k0); [reflexivity|exact IH].
Qed.

Lemma fkey_inj k a b : fkey k a = fkey k b -> a = b.
Proof.
  unfold fkey. intros H. apply append_inj_l in H.
  cbn in H. now injection H.
Qed.

(** Time steps of a rank-3 source *)

Section Steps.

Variable a : ndarray3 cell.
Variable xs : list pyval.
Variable labels : list label.
Variables m k : string.

Hypothesis Hm : m <> "".
Hypothesis Hl : labels_of_list xs = inr labels.
Hypothesis Hw : width a = length labels.
Hypothesis Hsteps : Forall (fun ex => length ex = steps a) (cube a).
Hypothesis Hrect : Forall (rectangular (width a)) (cube a).
Hypothesis Hinv :
  forall t, t < steps a -> invertible_on m labels (rows2 (slice_step a t)).

Lemma fit_steps_spec ts :
  NoDup ts -> (forall t, In t ts -> t < steps a) ->
  forall _data w,
    steps _data = steps a -> width _data = width a ->
    cube_shape (length (cube a)) (steps a) (cube _data) ->
    exists _data' w1,
      runs (fit_steps a (VList xs) (VStr m) k ts _data) w _data' w1 /\
      steps _data' = steps a /\ width _data' = width a /\
      cube_shape (length (cube a)) (steps a) (cube _data') /\
      (forall t, ~ In t ts ->
                 rows2 (slice_step _data' t) = rows2 (slice_step _data t)) /\
      agree (fun k' => forall t, In t ts -> k' <> fkey k (dec t))
        (scalers (self w1)) (scalers (self w)) /\
      (forall t, In t ts ->
         exists df' e,
           Transformation_transform (method_kwargs m)
             (mkFrame labels (rows2 (slice_step a t))) = inr (df', e) /\
           rows2 (slice_step _data' t) = df_rows df' /\
           dict_get (scalers (self w1)) (fkey k (dec t)) = Some e).
Proof.
  induction 1 as [|t rest Hnin Hnd IH]; intros Hlt _data w Hs Hwd Hshape.
  - exists _data, w. cbn [fit_steps].
    split; [apply runs_ret|]. repeat split; try assumption; try apply Hshape.
    intros t [].
  - destruct (Hinv t (Hlt t (or_introl eq_refl)))
      as (df' & e & Ht & Hc & Hr & _ & _ & _).
    assert (Hlen : length (df_rows df') = length (cube _data)).
    { rewrite Hr. unfold slice_step. cbn [rows2]. rewrite length_map.
      symmetry. apply Hshape. }
    assert (Hcol : ncols (values df') = width _data).
    { cbn [values ncols]. now rewrite Hwd, Hw. }
    set (_data1 := mkArray3 (steps _data) (width _data)
                     (map2 (fun ex r => set_nth t r ex) (cube _data)
                        (df_rows df'))).
    assert (Hshape1 : cube_shape (length (cube a)) (steps a) (cube _data1)).
    { apply cube_shape_assign; [exact Hshape|].
      rewrite Hlen. apply Hshape. }
    destruct (IH (fun t' H' => Hlt t' (or_intror H')) _data1
                (with_scalers w (dict_set (scalers (self w))
                                   (fkey k (dec t)) e))
                Hs Hwd Hshape1)
      as (_data' & w1 & Hrun & Hs' & Hw' & Hshape' & Hkeep & Hagree & Hall).
    exists _data', w1. cbn [fit_steps]. split.
    { eapply runs_bind.
      - apply (transform_2d_single (slice_step a t) xs labels m
                 (fkey k (dec t)) df' e w Hm Hl Hw Ht).
      - eapply runs_bind.
        + apply runs_lift.
          apply (assign_step_exact _data t (values df') Hlen Hcol).
        + exact Hrun. }
    repeat split; try assumption; try apply Hshape'.
    + intros t' Hn. rewrite Hkeep by (intros H'; apply Hn; now right).
      unfold slice_step, _data1. cbn [rows2 cube].
      apply slice_assign_other; [exact Hlen|].
      intros ->. apply Hn. now left.
    + intros k' Hk'. rewrite Hagree.
      * cbn [with_scalers self scalers].
        apply dict_get_set_other. apply Hk'. now left.
      * intros t' H'. apply Hk'. now right.
    + intros t' [<-|Hin].
      * exists df', e. split; [exact Ht|]. split.
        -- rewrite (Hkeep t Hnin). unfold slice_step, _data1. cbn [rows2 cube].
           apply (slice_assign_same (length (cube a)) (steps a));
             [exact Hshape|rewrite Hlen; apply Hshape|].
           apply Hlt. now left.
        -- rewrite Hagree.
           ++ cbn [with_scalers self scalers]. apply dict_get_set_same.
           ++ intros t' Hin Heq. apply fkey_inj, dec_inj in Heq.
              subst t'. contradiction.
      * apply Hall, Hin.
Qed.

Lemma inverse_steps_spec (out : ndarray3 cell) ts :
  NoDup ts -> (forall t, In t ts -> t < steps a) ->
  width out = width a ->
  forall _data w,
    steps _data = steps a -> width _data = width a ->
    cube_shape (length (cube a)) (steps a) (cube _data) ->
    (forall t, In t ts ->
       exists df' e,
         Transformation_transform (method_kwargs m)
           (mkFrame labels (rows2 (slice_step a t))) = inr (df', e) /\
         rows2 (slice_step out t) = df_rows df' /\
         dict_get (scalers (self w)) (fkey k (dec t)) = Some e) ->
    exists _data',
      value (inverse_steps out (VList xs) (VStr m) k ts _data w) = inr _data' /\
      steps _data' = steps a /\ width _data' = width a /\
      cube_shape (length (cube a)) (steps a) (cube _data') /\
      (forall t, In t ts ->
                 rows2 (slice_step _data' t) = rows2 (slice_step a t)) /\
      (forall t, ~ In t ts ->
                 rows2 (slice_step _data' t) = rows2 (slice_step _data t)).
Proof.
  induction 1 as [|t rest Hnin Hnd IH];
    intros Hlt Hwo _data w Hs Hwd Hshape Hreg.
  - exists _data. cbn [inverse_steps].
    repeat split; try assumption; try apply Hshape.
    intros t [].
  - assert (Ht : t < steps a) by (apply Hlt; now left).
    destruct (Hreg t (or_introl eq_refl)) as (df' & e & Htt & Hrows & Hget).
    destruct (Hinv t Ht) as (df0 & e0 & Htt0 & Hc & Hr & Hs1 & Hs2 & Hback).
    rewrite Htt in Htt0. injection Htt0 as <- <-.
    pose proof (slice_rows_rectangular a t Hsteps Hrect Ht) as Hrr.
    rewrite Hw in Hrr.
    assert (Hsl : slice_step out t = values df').
    { unfold slice_step, values in *. cbn [rows2] in Hrows.
      now rewrite Hrows, Hwo, Hw, Hc. }
    pose proof (inverse_2d_single (rows2 (slice_step a t)) xs labels m
                  (fkey k (dec t)) df' e w Hl Hc Hr Hrr Hs1 Hs2 Hback Hget)
      as Hval.
    rewrite <- Hsl in Hval.
    destruct (read_only_inverse_transform_2d
                (PyArray2 (slice_step out t)) (VList xs) (fkey k (dec t))
                (VStr m) w) as [Hself _].
    set (w1 := after (_inverse_transform_2d (PyArray2 (slice_step out t))
                        (VList xs) (fkey k (dec t)) (VStr m) w)) in *.
    set (v := mkArray2 (length labels) (rows2 (slice_step a t))) in *.
    assert (Hlen : length (rows2 v) = length (cube _data)).
    { unfold v, slice_step. cbn [rows2]. rewrite length_map.
      symmetry. apply Hshape. }
    assert (Hcol : ncols v = width _data).
    { unfold v. cbn [ncols]. now rewrite Hwd, Hw. }
    set (_data1 := mkArray3 (steps _data) (width _data)
                     (map2 (fun ex r => set_nth t r ex) (cube _data)
                        (rows2 v))).
    assert (Hshape1 : cube_shape (length (cube a)) (steps a) (cube _data1)).
    { apply cube_shape_assign; [exact Hshape|].
      etransitivity; [exact Hlen|apply Hshape]. }
    destruct (IH (fun t' H' => Hlt t' (or_intror H')) Hwo _data1 w1
                Hs Hwd Hshape1)
      as (_data' & Hv' & Hs' & Hw' & Hshape' & Hall & Hkeep).
    { intros t' Hin. rewrite Hself. apply Hreg. now right. }
    exists _data'. cbn [inverse_steps]. split.
    { rewrite (value_bind _ _ _ _ Hval). fold w1.
      rewrite (assign_step_exact _data t v Hlen Hcol), bind_lift_ok.
      exact Hv'. }
    repeat split; try assumption; try apply Hshape'.
    + intros t' [<-|Hin]; [|apply Hall, Hin].
      rewrite (Hkeep t Hnin). unfold slice_step at 1, _data1.
      cbn [rows2 cube].
      apply (slice_assign_same (length (cube a)) (steps a));
        [exact Hshape|etransitivity; [exact Hlen|apply Hshape]|exact Ht].
    + intros t' Hn. rewrite Hkeep by (intros H'; apply Hn; now right).
      unfold slice_step, _data1. cbn [rows2 cube].
      apply slice_assign_other; [exact Hlen|].
      intros ->. apply Hn. now left.
Qed.

End Steps.

(** One source *)

Lemma source_spec_holds m cols src k :
  m <> "" -> source_ok m cols src -> source_spec m src cols k.
Proof.
  intros Hm (xs & labels & -> & Hl & Hsrc) w.
  destruct src as [| | | | | |a|a|]; try contradiction.
  - destruct Hsrc as (Hn & Hrect & df' & e & Ht & Hc & Hr & Hs1 & Hs2 & Hback).
    exists (PyArray2 (values df')),
      (with_scalers w (dict_set (scalers (self w)) k e)).
    split; [|split; [reflexivity|split]].
    + unfold __fit_transform.
      apply (transform_2d_single a xs labels m k df' e w Hm Hl Hn Ht).
    + intros k' Hk'. cbn [with_scalers self scalers].
      apply dict_get_set_other. intros ->. apply Hk', derived_refl.
    + intros w' Hag. unfold __inverse_transform.
      rewrite Hn in Hrect.
      rewrite (inverse_2d_single (rows2 a) xs labels m k df' e w'
                 Hl Hc Hr Hrect Hs1 Hs2 Hback).
      * destruct a as [c rs]. cbn in *. now subst c.
      * rewrite (Hag k (derived_refl k)). cbn [with_scalers self scalers].
        apply dict_get_set_same.
  - destruct Hsrc as (Hw & Hsteps & Hrect & Hinv).
    assert (Hlt : forall t, In t (seq 0 (steps a)) -> t < steps a).
    { intros t Hin. apply in_seq in Hin. lia. }
    destruct (fit_steps_spec a xs labels m k Hm Hl Hw Hinv
                (seq 0 (steps a)) (seq_NoDup _ _) Hlt (np_full_nan a) w
                eq_refl eq_refl (cube_shape_full a))
      as (out & w1 & Hrun & Hs' & Hw' & Hshape' & _ & Hagree & Hall).
    exists (PyArray3 out), w1.
    split; [|split; [reflexivity|split]].
    + unfold __fit_transform.
      eapply runs_bind; [exact Hrun|apply runs_ret].
    + intros k' Hk'. apply Hagree. intros t _ ->.
      apply Hk'. eapply derived_fkey, derived_refl.
    + intros w' Hag. unfold __inverse_transform.
      assert (Hfull : cube_shape (length (cube a)) (steps a)
                        (cube (np_full_nan out))).
      { pose proof (cube_shape_full out) as H.
        destruct Hshape' as [Hlen _]. now rewrite Hlen, Hs' in H. }
      destruct (inverse_steps_spec a xs labels m k Hl Hw Hsteps Hrect Hinv
                  out (seq 0 (steps a)) (seq_NoDup _ _) Hlt Hw'
                  (np_full_nan out) w' Hs' Hw' Hfull)
        as (back & Hv & Hs'' & Hw'' & Hshape'' & Hsl & _).
      { intros t Hin. destruct (Hall t Hin) as (df' & e & Ht & Hrows & Hget).
        exists df', e. split; [exact Ht|]. split; [exact Hrows|].
        rewrite Hag; [exact Hget|]. eapply derived_fkey, derived_refl. }
      rewrite Hs'. rewrite (value_bind _ _ _ _ Hv). cbn [ret value].
      f_equal. f_equal.
      assert (Hcube : cube back = cube a).
      { apply (cube_ext (length (cube a)) (steps a));
          [exact Hshape''|split; [reflexivity|exact Hsteps]|].
        intros i Hi. apply (Hsl i). apply in_seq. lia. }
      destruct back as [s1 w1' c1], a as [s2 w2 c2]. cbn in *. now subst.
Qed.

(** Settings *)

Lemma keeps_ret {A} (a : A) : keeps_settings (ret a).
Proof. intros w. reflexivity. Qed.

Lemma keeps_raise {A} (e : exn) : keeps_settings (@raise B A e).
Proof. intros w. reflexivity. Qed.

Lemma keeps_lift {A} (r : result A) : keeps_settings (lift r).
Proof. intros w. reflexivity. Qed.

Lemma keeps_get_self : keeps_settings get_self.
Proof. intros w. reflexivity. Qed.

Lemma keeps_emit e : keeps_settings (emit e).
Proof. intros w. reflexivity. Qed.

Lemma keeps_bind {A C} (m : M A) (f : A -> M C) :
  keeps_settings m -> (forall a, keeps_settings (f a)) ->
  keeps_settings (bind m f).
Proof.
  intros Hm Hf w. specialize (Hm w). unfold bind.
  destruct (m w) as [[e|a] w1 ev]; cbn [value after emitted] in *.
  - exact Hm.
  - now rewrite Hf.
Qed.

Lemma keeps_register d : keeps_settings (register d).
Proof.
  induction d as [|[k e] d IH]; intros w; cbn [register].
  - reflexivity.
  - rewrite bind_get_self, bind_set_self, bind_emit. cbn [after].
    now rewrite IH.
Qed.

Ltac ks_step :=
  match goal with
  | |- keeps_settings (bind _ _) => apply keeps_bind; [|intros ?]
  | |- keeps_settings (ret _) => apply keeps_ret
  | |- keeps_settings (raise _) => apply keeps_raise
  | |- keeps_settings (lift _) => apply keeps_lift
  | |- keeps_settings get_self => apply keeps_get_self
  | |- keeps_settings (emit _) => apply keeps_emit
  | |- keeps_settings (register _) => apply keeps_register
  | |- keeps_settings (match ?x with _ => _ end) => destruct x
  end.

Ltac ks := repeat first [ks_step | solve [auto]].

Lemma keeps_call_transformation data columns kwargs :
  keeps_settings (call_transformation data columns kwargs).
Proof. unfold call_transformation. ks. Qed.

Lemma keeps_transform_list columns k l idx data acc :
  keeps_settings (transform_list columns k l idx data acc).
Proof.
  pose proof keeps_call_transformation.
  revert idx data acc. induction l as [|trans rest IH]; intros idx data acc;
    cbn [transform_list]; ks.
Qed.

Lemma keeps_transform_2d data columns transformation k :
  keeps_settings (_transform_2d data columns transformation k).
Proof.
  pose proof keeps_call_transformation.
  pose proof keeps_transform_list.
  unfold _transform_2d. ks.
Qed.

Lemma keeps_fit_steps data feature_names transformation k ts _data :
  keeps_settings (fit_steps data feature_names transformation k ts _data).
Proof.
  pose proof keeps_transform_2d.
  revert _data. induction ts as [|t rest IH]; intros _data;
    cbn [fit_steps]; ks.
Qed.

Lemma keeps__fit_transform data feature_names transformation k :
  keeps_settings (__fit_transform data feature_names transformation k).
Proof.
  pose proof keeps_transform_2d.
  pose proof keeps_fit_steps.
  unfold __fit_transform. ks.
Qed.

(** Several sources *)

Lemma fit_list_spec m nms tr key xs :
  forall idx acc w,
    list_sources m nms tr key idx xs ->
    exists outs w1,
      runs (fit_list nms tr key xs idx acc) w (acc ++ outs)%list w1 /\
      length outs = length xs /\
      agree (fun k' => forall i, idx <= i -> ~ derived (fkey key (dec i)) k')
        (scalers (self w1)) (scalers (self w)) /\
      (forall acc' w',
          agree (fun k' => exists i, idx <= i /\ derived (fkey key (dec i)) k')
            (scalers (self w')) (scalers (self w1)) ->
          value (inverse_sources nms tr key outs idx acc' w')
          = inr (acc' ++ xs)%list).
Proof.
  induction xs as [|x rest IH]; intros idx acc w Hsrc.
  - exists [], w. cbn [fit_list inverse_sources]. rewrite app_nil_r.
    split; [apply runs_ret|]. split; [reflexivity|]. split.
    + intros k' _. reflexivity.
    + intros acc' w' _. now rewrite app_nil_r.
  - destruct Hsrc as [(n & Hn & Ht & Hspec) Hrest].
    destruct (Hspec w) as (out & w1 & Hrun & _ & Hag1 & Hinv1).
    destruct (IH (S idx) (acc ++ [out])%list w1 Hrest)
      as (outs & w2 & Hrun2 & Hlen & Hag2 & Hinv2).
    exists (out :: outs), w2. split; [|split; [|split]].
    + cbn [fit_list].
      eapply runs_bind; [apply runs_lift, Hn|].
      eapply runs_bind; [apply runs_lift, Ht|].
      eapply runs_bind; [exact Hrun|].
      rewrite <- app_assoc in Hrun2. exact Hrun2.
    + cbn. now rewrite Hlen.
    + intros k' Hk'. rewrite Hag2, Hag1.
      * reflexivity.
      * apply Hk'. lia.
      * intros i Hi. apply Hk'. lia.
    + intros acc' w' Hag. cbn [inverse_sources].
      rewrite Hn, bind_lift_ok, Ht, bind_lift_ok.
      assert (Hval : value (__inverse_transform out n (VStr m)
                              (fkey key (dec idx)) w') = inr x).
      { apply Hinv1. intros k' Hk'. rewrite Hag.
        - apply Hag2. intros i Hi Hd.
          assert (Heq : dec idx = dec i).
          { eapply derived_same_tag; eauto using no_underscore_dec. }
          apply dec_inj in Heq. lia.
        - exists idx. split; [lia|exact Hk']. }
      rewrite (value_bind _ _ _ _ Hval).
      destruct (read_only__inverse_transform out n (VStr m)
                  (fkey key (dec idx)) w') as [Hself _].
      rewrite Hinv2.
      * now rewrite <- app_assoc.
      * intros k' (i & Hi & Hd). rewrite Hself. apply Hag.
        exists i. split; [lia|exact Hd].
Qed.

Lemma dict_set_append {A} (d : dict A) k v :
  ~ In k (dict_keys d) -> dict_set d k v = (d ++ [(k, v)])%list.
Proof.
  induction d as [|[k' v'] d IH]; cbn; intros Hn; [reflexivity|].
  destruct (String.eqb_spec k k') as [->|Hne].
  - exfalso. apply Hn. now left.
  - f_equal. apply IH. intros Hin. apply Hn. now right.
Qed.

Lemma dict_keys_app {A} (d1 d2 : dict A) :
  dict_keys (d1 ++ d2)%list = (dict_keys d1 ++ dict_keys d2)%list.
Proof. apply map_app. Qed.

Lemma fit_dict_spec m nms tr key (kvs : dict (pyobj cell)) :
  NoDup (dict_keys kvs) -> Forall no_underscore (dict_keys kvs) ->
  dict_sources m nms tr key kvs ->
  forall acc w,
    (forall s, In s (dict_keys kvs) -> ~ In s (dict_keys acc)) ->
    exists outs w1,
      runs (fit_dict nms tr key kvs acc) w (acc ++ outs)%list w1 /\
      dict_keys outs = dict_keys kvs /\
      agree (fun k' => forall s, In s (dict_keys kvs) ->
                                 ~ derived (fkey key s) k')
        (scalers (self w1)) (scalers (self w)) /\
      (forall acc' w',
          (forall s, In s (dict_keys kvs) -> ~ In s (dict_keys acc')) ->
          agree (fun k' => exists s, In s (dict_keys kvs) /\
                                     derived (fkey key s) k')
            (scalers (self w')) (scalers (self w1)) ->
          value (inverse_items nms tr key outs acc' w')
          = inr (acc' ++ kvs)%list).
Proof.
  induction kvs as [|[s x] rest IH]; intros Hnd Hnu Hsrc acc w Hacc.
  - exists [], w. cbn [fit_dict inverse_items]. rewrite app_nil_r.
    split; [apply runs_ret|]. split; [reflexivity|]. split.
    + intros k' _. reflexivity.
    + intros acc' w' _ _. now rewrite app_nil_r.
  - cbn [dict_keys map fst] in Hnd, Hnu, Hacc.
    apply NoDup_cons_iff in Hnd. destruct Hnd as [Hnin Hnd].
    apply Forall_cons_iff in Hnu. destruct Hnu as [Hs Hnu].
    destruct Hsrc as [(n & Hn & Ht & Hspec) Hrest].
    destruct (Hspec w) as (out & w1 & Hrun & _ & Hag1 & Hinv1).
    assert (Hfresh : forall (d : dict (pyobj cell)) (v : pyobj cell),
               (forall s', s = s' \/ In s' (dict_keys rest) ->
                           ~ In s' (dict_keys d)) ->
               forall s', In s' (dict_keys rest) ->
                          ~ In s' (dict_keys (d ++ [(s, v)])%list)).
    { intros d v Hd s' Hin. rewrite dict_keys_app, in_app_iff.
      intros [H|[H|[]]].
      - apply (Hd s'); [now right|exact H].
      - cbn in H. subst s'. contradiction. }
    destruct (IH Hnd Hnu Hrest (acc ++ [(s, out)])%list w1
                (Hfresh acc out Hacc))
      as (outs & w2 & Hrun2 & Hkeys & Hag2 & Hinv2).
    exists ((s, out) :: outs), w2. split; [|split; [|split]].
    + cbn [fit_dict].
      eapply runs_bind; [apply runs_lift, Hn|].
      eapply runs_bind; [apply runs_lift, Ht|].
      eapply runs_bind; [exact Hrun|].
      rewrite dict_set_append by (apply Hacc; now left).
      rewrite <- app_assoc in Hrun2. exact Hrun2.
    + cbn [dict_keys map fst]. f_equal. exact Hkeys.
    + intros k' Hk'. rewrite Hag2, Hag1.
      * reflexivity.
      * apply Hk'. now left.
      * intros s' Hin. apply Hk'. now right.
    + intros acc' w' Hacc' Hag. cbn [inverse_items].
      rewrite Hn, bind_lift_ok, Ht, bind_lift_ok.
      assert (Hval : value (__inverse_transform out n (VStr m)
                              (fkey key s) w') = inr x).
      { apply Hinv1. intros k' Hk'. rewrite Hag.
        - apply Hag2. intros s' Hin Hd.
          assert (Heq : s = s').
          { eapply derived_same_tag; eauto.
            rewrite Forall_forall in Hnu. now apply Hnu. }
          subst s'. contradiction.
        - exists s. split; [now left|exact Hk']. }
      rewrite (value_bind _ _ _ _ Hval).
      destruct (read_only__inverse_transform out n (VStr m)
                  (fkey key s) w') as [Hself _].
      rewrite dict_set_append by (apply Hacc'; now left).
      rewrite Hinv2.
      * now rewrite <- app_assoc.
      * apply Hfresh. exact Hacc'.
      * intros k' (s' & Hin & Hd). rewrite Hself. apply Hag.
        exists s'. split; [now right|exact Hd].
Qed.

(** The whole container *)

Lemma list_sources_intro m key ns xs :
  m <> "" -> Forall2 (source_ok m) ns xs ->
  forall pre_n pre_t trs,
    length pre_n = length pre_t ->
    trs = repeat (VStr m) (length xs) ->
    list_sources m (VList (pre_n ++ ns)) (VList (pre_t ++ trs)) key
      (length pre_n) xs.
Proof.
  intros Hm. induction 1 as [|n x ns xs Hok Hall IH];
    intros pre_n pre_t trs Hlen ->; cbn [list_sources]; [exact I|].
  cbn [length repeat]. split.
  - exists n. split; [|split].
    + cbn [getitem_int]. rewrite nth_error_app2 by lia.
      now rewrite Nat.sub_diag.
    + cbn [getitem_int]. rewrite nth_error_app2 by lia.
      now rewrite Hlen, Nat.sub_diag.
    + now apply source_spec_holds.
  - specialize (IH (pre_n ++ [n])%list (pre_t ++ [VStr m])%list
                  (repeat (VStr m) (length xs))).
    rewrite <- !app_assoc, length_app in IH. cbn [length app] in IH.
    rewrite Nat.add_1_r in IH. apply IH; [|reflexivity].
    rewrite length_app. cbn. lia.
Qed.

Lemma fold_set_get {A} (c : A) keys :
  forall acc s,
    In s keys \/ dict_get acc s = Some c ->
    dict_get (fold_left (fun d k => dict_set d k c) keys acc) s = Some c.
Proof.
  induction keys as [|k keys IH]; intros acc s H; cbn [fold_left].
  - destruct H as [[]|H]. exact H.
  - apply IH. destruct (String.eqb_spec s k) as [->|Hne].
    + right. apply dict_get_set_same.
    + destruct H as [[Heq|Hin]|Hget].
      * congruence.
      * now left.
      * right. now rewrite dict_get_set_other.
Qed.

Lemma dict_sources_intro m key nd trd (kvs : dict (pyobj cell)) :
  m <> "" ->
  Forall (fun kv => exists n, dict_get nd (fst kv) = Some n /\
                              source_ok m n (snd kv)) kvs ->
  (forall s, In s (dict_keys kvs) -> dict_get trd s = Some (VStr m)) ->
  dict_sources m (VDict nd) (VDict trd) key kvs.
Proof.
  intros Hm. induction 1 as [|[s x] kvs (n & Hn & Hok) Hall IH];
    intros Htr; cbn [dict_sources]; [exact I|].
  split.
  - exists n. cbn [fst snd] in *. split; [|split].
    + cbn [getitem_str]. unfold dict_item. now rewrite Hn.
    + cbn [getitem_str]. unfold dict_item. rewrite Htr; [reflexivity|].
      now left.
    + now apply source_spec_holds.
  - apply IH. intros s' Hin. apply Htr. now right.
Qed.

Lemma all_lists_sources m ns (xs : list (pyobj cell)) :
  Forall2 (source_ok m) ns xs -> all_lists ns = true.
Proof.
  induction 1 as [|n x ns xs (l & labels & -> & _) Hall IH]; cbn;
    [reflexivity|exact IH].
Qed.

Lemma runs_set_is_numpy_ b w :
  runs (set_is_numpy_ b) w tt
    (mkWorld (mkTransformations (names (self w)) (config (self w))
                (scalers (self w)) (Some b) (is_list_ (self w))
                (is_dict_ (self w))) (np_random w)).
Proof.
  unfold set_is_numpy_.
  eapply runs_bind; [apply runs_get_self|apply runs_set_self].
Qed.

Lemma runs_set_is_list_ b w :
  runs (set_is_list_ b) w tt
    (mkWorld (mkTransformations (names (self w)) (config (self w))
                (scalers (self w)) (is_numpy_ (self w)) (Some b)
                (is_dict_ (self w))) (np_random w)).
Proof.
  unfold set_is_list_.
  eapply runs_bind; [apply runs_get_self|apply runs_set_self].
Qed.

Lemma runs_set_is_dict_ b w :
  runs (set_is_dict_ b) w tt
    (mkWorld (mkTransformations (names (self w)) (config (self w))
                (scalers (self w)) (is_numpy_ (self w)) (is_list_ (self w))
                (Some b)) (np_random w)).
Proof.
  unfold set_is_dict_.
  eapply runs_bind; [apply runs_get_self|apply runs_set_self].
Qed.

Lemma keeps_fit_list nms tr key xs idx acc :
  keeps_settings (fit_list nms tr key xs idx acc).
Proof.
  pose proof keeps__fit_transform.
  revert idx acc. induction xs as [|x rest IH]; intros idx acc;
    cbn [fit_list]; ks.
Qed.

Lemma keeps_fit_dict nms tr key kvs acc :
  keeps_settings (fit_dict nms tr key kvs acc).
Proof.
  pose proof keeps__fit_transform.
  revert acc. induction kvs as [|[s x] rest IH]; intros acc;
    cbn [fit_dict]; ks.
Qed.

Lemma runs_keeps {A} (m : M A) w a w1 :
  keeps_settings m -> runs m w a w1 -> settings w1 = settings w.
Proof. intros Hk [_ <-]. apply Hk. Qed.

Lemma agree_refl P (r : dict (ScalerEntry fitted)) : agree P r r.
Proof. intros k _. reflexivity. Qed.

(** The forward pass followed by the inverse pass, from a world whose
    flags say which kind of container is coming. *)
Lemma passes_array m (data : pyobj cell) w :
  m <> "" -> config (self w) = VStr m ->
  is_numpy_ (self w) = Some true ->
  source_ok m (names (self w)) data ->
  exists out w1,
    runs (_fit_transform data "5") w out w1 /\
    class_name out = class_name data /\
    value (_inverse_transform out "5" w1) = inr data.
Proof.
  intros Hm Hc Hf Hok.
  assert (Harr : class_name data = "ndarray").
  { destruct Hok as (xs & labels & _ & _ & H).
    destruct data; try contradiction; reflexivity. }
  assert (Htr : transformation (self w) data = VStr m).
  { unfold transformation. rewrite Hc.
    destruct data; try reflexivity; discriminate Harr. }
  destruct (source_spec_holds m (names (self w)) data "5" Hm Hok w)
    as (out & w1 & Hrun & Hcl & _ & Hinv).
  exists out, w1. split; [|split].
  - unfold _fit_transform.
    eapply runs_bind; [apply runs_get_self|].
    eapply runs_bind; [apply runs_attribute, Hf|].
    cbn iota. rewrite Htr. exact Hrun.
  - now rewrite Hcl.
  - pose proof (runs_keeps _ _ _ _ (keeps__fit_transform _ _ _ _) Hrun) as Hs.
    unfold settings in Hs. injection Hs as Hn1 Hc1 Hf1 _ _.
    unfold _inverse_transform. rewrite bind_get_self, Hf1, Hf.
    cbn [attribute]. rewrite bind_ret. cbn iota.
    assert (Htr1 : transformation (self w1) out = VStr m).
    { unfold transformation. rewrite Hc1, Hc.
      destruct out; try reflexivity; discriminate Hcl. }
    rewrite Htr1, Hn1. apply Hinv, agree_refl.
Qed.

Lemma passes_list m (xs : list (pyobj cell)) ns w :
  m <> "" -> config (self w) = VStr m ->
  is_numpy_ (self w) = Some false -> is_list_ (self w) = Some true ->
  names (self w) = VList ns ->
  Forall2 (source_ok m) ns xs ->
  exists out w1,
    runs (_fit_transform (PyList xs) "5") w out w1 /\
    class_name out = "list" /\
    value (_inverse_transform out "5" w1) = inr (PyList xs).
Proof.
  intros Hm Hc Hf1 Hf2 Hn Hok.
  pose proof (list_sources_intro m "5" ns xs Hm Hok [] []
                (repeat (VStr m) (length xs)) eq_refl eq_refl) as Hsrc.
  cbn [app length] in Hsrc.
  destruct (fit_list_spec m (VList ns) (VList (repeat (VStr m) (length xs)))
              "5" xs 0 [] w Hsrc)
    as (outs & w1 & Hrun & Hlen & _ & Hinv).
  cbn [app] in Hrun.
  exists (PyList outs), w1. split; [|split; [reflexivity|]].
  - unfold _fit_transform.
    eapply runs_bind; [apply runs_get_self|].
    eapply runs_bind; [apply runs_attribute, Hf1|]. cbn iota.
    eapply runs_bind; [apply runs_attribute, Hf2|]. cbn iota.
    unfold transformation. rewrite Hc, Hn.
    eapply runs_bind; [exact Hrun|apply runs_ret].
  - pose proof (runs_keeps _ _ _ _ (keeps_fit_list _ _ _ _ _ _) Hrun) as Hs.
    unfold settings in Hs. injection Hs as Hn1 Hc1 Hg1 Hg2 _.
    unfold _inverse_transform.
    rewrite bind_get_self, Hg1, Hf1, Hg2, Hf2.
    cbn [attribute]. rewrite !bind_ret. cbn iota.
    unfold transformation. rewrite Hc1, Hc, Hn1, Hn, Hlen.
    rewrite (value_bind _ _ _ _ (Hinv [] w1 (agree_refl _ _))).
    reflexivity.
Qed.

Lemma passes_dict m (kvs : dict (pyobj cell)) nd w :
  m <> "" -> config (self w) = VStr m ->
  is_numpy_ (self w) = Some false -> is_list_ (self w) = Some false ->
  is_dict_ (self w) = Some true ->
  names (self w) = VDict nd ->
  NoDup (dict_keys kvs) -> Forall no_underscore (dict_keys kvs) ->
  Forall (fun kv => exists n, dict_get nd (fst kv) = Some n /\
                              source_ok m n (snd kv)) kvs ->
  exists out w1,
    runs (_fit_transform (PyDict kvs) "5") w out w1 /\
    class_name out = "dict" /\
    value (_inverse_transform out "5" w1) = inr (PyDict kvs).
Proof.
  intros Hm Hc Hf1 Hf2 Hf3 Hn Hnd Hnu Hok.
  set (trd := fold_left (fun d k => dict_set d k (VStr m)) (dict_keys kvs)
                (@nil (string * pyval))).
  assert (Htr : forall s, In s (dict_keys kvs) ->
                          dict_get trd s = Some (VStr m)).
  { intros s Hin. apply fold_set_get. now left. }
  pose proof (dict_sources_intro m "5" nd trd kvs Hm Hok Htr) as Hsrc.
  destruct (fit_dict_spec m (VDict nd) (VDict trd) "5" kvs Hnd Hnu Hsrc [] w)
    as (outs & w1 & Hrun & Hkeys & _ & Hinv).
  { intros s _ []. }
  cbn [app] in Hrun.
  exists (PyDict outs), w1. split; [|split; [reflexivity|]].
  - unfold _fit_transform.
    eapply runs_bind; [apply runs_get_self|].
    eapply runs_bind; [apply runs_attribute, Hf1|]. cbn iota.
    eapply runs_bind; [apply runs_attribute, Hf2|]. cbn iota.
    unfold transformation. rewrite Hc, Hn. fold trd.
    eapply runs_bind; [exact Hrun|apply runs_ret].
  - pose proof (runs_keeps _ _ _ _ (keeps_fit_dict _ _ _ _ _) Hrun) as Hs.
    unfold settings in Hs. injection Hs as Hn1 Hc1 Hg1 Hg2 Hg3.
    unfold _inverse_transform.
    rewrite bind_get_self, Hg1, Hf1, Hg2, Hf2, Hg3, Hf3.
    cbn [attribute]. rewrite !bind_ret. cbn iota.
    unfold transformation. rewrite Hc1, Hc, Hn1, Hn, Hkeys. fold trd.
    rewrite (value_bind _ _ _ _
               (Hinv [] w1 (fun s _ H => H) (agree_refl _ _))).
    reflexivity.
Qed.

Lemma runs_check_array w :
  is_numpy_ (self w) = Some true -> val_class (names (self w)) = "list" ->
  runs _check_features w tt w.
Proof.
  intros Hf Hn. unfold _check_features.
  eapply runs_bind; [apply runs_get_self|].
  eapply runs_bind; [apply runs_attribute, Hf|]. cbn iota.
  apply runs_lift. now rewrite Hn.
Qed.

Lemma runs_check_list w ns :
  is_numpy_ (self w) = Some false -> is_list_ (self w) = Some true ->
  names (self w) = VList ns -> all_lists ns = true ->
  runs _check_features w tt w.
Proof.
  intros Hf1 Hf2 Hn Hall. unfold _check_features.
  eapply runs_bind; [apply runs_get_self|].
  eapply runs_bind; [apply runs_attribute, Hf1|]. cbn iota.
  eapply runs_bind; [apply runs_attribute, Hf2|]. cbn iota.
  rewrite Hn. eapply runs_bind; [apply runs_lift; reflexivity|].
  apply runs_lift. now rewrite Hall.
Qed.

Lemma runs_check_dict w nd :
  is_numpy_ (self w) = Some false -> is_list_ (self w) = Some false ->
  is_dict_ (self w) = Some true ->
  names (self w) = VDict nd -> all_lists (dict_values nd) = true ->
  runs _check_features w tt w.
Proof.
  intros Hf1 Hf2 Hf3 Hn Hall. unfold _check_features.
  eapply runs_bind; [apply runs_get_self|].
  eapply runs_bind; [apply runs_attribute, Hf1|]. cbn iota.
  eapply runs_bind; [apply runs_attribute, Hf2|]. cbn iota.
  eapply runs_bind; [apply runs_attribute, Hf3|]. cbn iota.
  rewrite Hn. apply runs_lift. now rewrite Hall.
Qed.

Lemma runs_finish (data out : pyobj cell) w :
  class_name out = class_name data ->
  runs (bind (lift (assert (String.eqb (class_name out) (class_name data))))
          (fun _ => ret out)) w out w.
Proof.
  intros H. rewrite H, String.eqb_refl.
  eapply runs_bind; [apply runs_lift; reflexivity|apply runs_ret].
Qed.

Lemma fit_then_inverse m (data : pyobj cell) w :
  m <> "" -> config (self w) = VStr m ->
  roundtrip_ready m (names (self w)) data ->
  exists out w1,
    runs (fit_transform data) w out w1 /\
    value (inverse_transform out w1) = inr data.
Proof.
  intros Hm Hc Hready.
  assert (Hstart : forall (rest : M (pyobj cell)) out w1 a b c,
    runs rest (flagged w a b c) out w1 ->
    forall last : M unit,
    runs last (flagged w false false false) tt (flagged w a b c) ->
    runs (bind get_self (fun slf =>
            match config slf with
            | VNone => ret data
            | _ =>
                bind (set_is_numpy_ false) (fun _ =>
                bind (set_is_list_ false) (fun _ =>
                bind (set_is_dict_ false) (fun _ =>
                bind last (fun _ => rest))))
            end)) w out w1).
  { intros rest out w1 a b c Hrest last Hlast.
    eapply runs_bind; [apply runs_get_self|]. rewrite Hc.
    eapply runs_bind; [apply runs_set_is_numpy_|].
    eapply runs_bind; [apply runs_set_is_list_|].
    eapply runs_bind; [apply runs_set_is_dict_|].
    eapply runs_bind; [exact Hlast|exact Hrest]. }
  unfold inverse_transform.
  destruct data as [| | | |xs|kvs|a|a|]; cbn [roundtrip_ready] in Hready;
    try contradiction.
  - destruct Hready as (ns & Hn & Hok).
    destruct (passes_list m xs ns (flagged w false true false) Hm Hc
                eq_refl eq_refl Hn Hok) as (out & w1 & Hrun & Hcl & Hinv).
    exists out, w1. split; [|exact Hinv].
    unfold fit_transform.
    eapply Hstart with (a := false) (b := true) (c := false).
    + eapply runs_bind.
      * apply (runs_check_list _ ns); try reflexivity; [exact Hn|].
        apply (all_lists_sources m ns xs Hok).
      * eapply runs_bind; [exact Hrun|]. now apply runs_finish.
    + apply runs_set_is_list_.
  - destruct Hready as (nd & Hn & Hnd & Hnu & Hall & Hok).
    destruct (passes_dict m kvs nd (flagged w false false true) Hm Hc
                eq_refl eq_refl eq_refl Hn Hnd Hnu Hok)
      as (out & w1 & Hrun & Hcl & Hinv).
    exists out, w1. split; [|exact Hinv].
    unfold fit_transform.
    eapply Hstart with (a := false) (b := false) (c := true).
    + eapply runs_bind.
      * apply (runs_check_dict _ nd); try reflexivity; assumption.
      * eapply runs_bind; [exact Hrun|]. now apply runs_finish.
    + apply runs_set_is_dict_.
  - destruct (passes_array m (PyArray2 a) (flagged w true false false) Hm Hc
                eq_refl Hready) as (out & w1 & Hrun & Hcl & Hinv).
    exists out, w1. split; [|exact Hinv].
    unfold fit_transform.
    eapply Hstart with (a := true) (b := false) (c := false).
    + eapply runs_bind.
      * apply runs_check_array; [reflexivity|].
        destruct Hready as (l & labels & Hn & _). cbn [flagged self names].
        now rewrite Hn.
      * eapply runs_bind; [exact Hrun|]. now apply runs_finish.
    + apply runs_set_is_numpy_.
  - destruct (passes_array m (PyArray3 a) (flagged w true false false) Hm Hc
                eq_refl Hready) as (out & w1 & Hrun & Hcl & Hinv).
    exists out, w1. split; [|exact Hinv].
    unfold fit_transform.
    eapply Hstart with (a := true) (b := false) (c := false).
    + eapply runs_bind.
      * apply runs_check_array; [reflexivity|].
        destruct Hready as (l & labels & Hn & _). cbn [flagged self names].
        now rewrite Hn.
      * eapply runs_bind; [exact Hrun|]. now apply runs_finish.
    + apply runs_set_is_numpy_.
Qed.


End RoundTrip.

(** * Further properties *)

(** ** The search space, case by case *)

Lemma distinct_NoDup (l : list string) : distinct l = true -> NoDup l.
Proof.
  induction l as [|s l IH]; cbn [distinct]; intros H; [constructor|].
  apply andb_true_iff in H. destruct H as [Hs Hl].
  constructor; [|now apply IH].
  intros Hin. apply str_in_spec in Hin. rewrite Hin in Hs. discriminate Hs.
Qed.

Module SpaceFacts.
Import Optimize SpaceNotions.

Section Dicts.
Context {A : Type}.

Lemma dict_get_None_keys (d : dict A) k :
  dict_get d k = None <-> ~ In k (dict_keys d).
Proof.
  induction d as [|[k' v] d IH]; cbn.
  - split; [intros _ []|reflexivity].
  - destruct (String.eqb_spec k k') as [->|Hne].
    + split; [discriminate|]. intros H. exfalso. apply H. now left.
    + rewrite IH. split.
      * intros H [Heq|Hin]; [congruence|contradiction].
      * intros H Hin. apply H. now right.
Qed.

Lemma dict_mem_keys (d : dict A) k :
  dict_mem d k = true <-> In k (dict_keys d).
Proof.
  unfold dict_mem. pose proof (dict_get_None_keys d k) as H.
  destruct (dict_get d k).
  - split; [|reflexivity]. intros _.
    destruct (in_dec string_dec k (dict_keys d)) as [Hin|Hn]; [exact Hin|].
    apply H in Hn. discriminate Hn.
  - split; [discriminate|]. intros Hin. exfalso. now apply H.
Qed.

Lemma dict_set_append_fresh (d : dict A) k v :
  ~ In k (dict_keys d) -> dict_set d k v = (d ++ [(k, v)])%list.
Proof.
  induction d as [|[k' v'] d IH]; cbn; intros Hn; [reflexivity|].
  destruct (String.eqb_spec k k') as [->|Hne].
  - exfalso. apply Hn. now left.
  - f_equal. apply IH. intros Hin. apply Hn. now right.
Qed.

(** Filling a dictionary from a list of distinct new keys appends one
    entry per key, in order. *)
Lemma fold_set_fresh (f : string -> A) l : forall acc,
  NoDup (dict_keys acc ++ l) ->
  fold_left (fun sp nm => dict_set sp nm (f nm)) l acc
  = (acc ++ map (fun n => (n, f n)) l)%list.
Proof.
  induction l as [|n l IH]; intros acc Hnd; cbn.
  - now rewrite app_nil_r.
  - assert (Hfresh : ~ In n (dict_keys acc)).
    { intros Hin. apply NoDup_remove_2 in Hnd. apply Hnd.
      apply in_or_app. now left. }
    rewrite (dict_set_append_fresh _ _ _ Hfresh), IH.
    + now rewrite <- app_assoc.
    + unfold dict_keys. rewrite map_app. cbn. rewrite <- app_assoc. exact Hnd.
Qed.

Lemma dict_values_entries (f : string -> A) l :
  dict_values (map (fun n => (n, f n)) l) = map f l.
Proof. unfold dict_values. rewrite map_map. reflexivity. Qed.

Lemma dict_keys_entries (f : string -> A) l :
  dict_keys (map (fun n => (n, f n)) l) = l.
Proof. unfold dict_keys. rewrite map_map. apply map_id. Qed.

Lemma dict_remove_keys (d : dict A) k x :
  In x (dict_keys (dict_remove d k)) -> In x (dict_keys d).
Proof.
  induction d as [|[k' v] d IH]; cbn; [intros []|].
  destruct (String.eqb k k'); cbn.
  - intros H. now right.
  - intros [H|H]; [now left|right; now apply IH].
Qed.

Lemma dict_remove_NoDup (d : dict A) k :
  NoDup (dict_keys d) -> NoDup (dict_keys (dict_remove d k)).
Proof.
  induction d as [|[k' v] d IH]; cbn; intros Hnd; [constructor|].
  inversion Hnd as [|? ? Hn Hnd']; subst.
  destruct (String.eqb k k'); cbn; [exact Hnd'|].
  constructor; [|now apply IH].
  intros Hin. apply Hn. eapply dict_remove_keys, Hin.
Qed.

Lemma dict_remove_gone (d : dict A) k :
  NoDup (dict_keys d) -> ~ In k (dict_keys (dict_remove d k)).
Proof.
  induction d as [|[k' v] d IH]; cbn; intros Hnd; [intros []|].
  inversion Hnd as [|? ? Hn Hnd']; subst.
  destruct (String.eqb_spec k k') as [->|Hne]; cbn.
  - exact Hn.
  - intros [Heq|Hin]; [congruence|]. now apply IH in Hin.
Qed.

Lemma dict_set_NoDup (d : dict A) k v :
  NoDup (dict_keys d) -> NoDup (dict_keys (dict_set d k v)).
Proof.
  induction d as [|[k' v'] d IH]; cbn; intros Hnd.
  - constructor; [intros []|constructor].
  - inversion Hnd as [|? ? Hn Hnd']; subst.
    destruct (String.eqb_spec k k') as [->|Hne]; cbn.
    + constructor; assumption.
    + constructor; [|now apply IH].
      intros Hin. apply dict_set_keys_in in Hin.
      destruct Hin as [Heq|Hin]; [congruence|contradiction].
Qed.

Lemma dict_set_keys_intro (d : dict A) k v x :
  x = k \/ In x (dict_keys d) -> In x (dict_keys (dict_set d k v)).
Proof.
  induction d as [|[k' v'] d IH]; cbn.
  - intros [->|[]]. now left.
  - destruct (String.eqb_spec k k') as [->|Hne]; cbn.
    + intros [->|[H|H]]; [now left|now left|now right].
    + intros [->|[H|H]].
      * right. apply IH. now left.
      * now left.
      * right. apply IH. now right.
Qed.

Lemma filter_absent (l : list string) s :
  ~ In s l -> filter (fun n => negb (String.eqb n s)) l = l.
Proof.
  induction l as [|n l IH]; cbn; intros Hn; [reflexivity|].
  destruct (String.eqb_spec n s) as [->|Hne]; cbn.
  - exfalso. apply Hn. now left.
  - f_equal. apply IH. intros Hin. apply Hn. now right.
Qed.

Lemma dict_remove_entries (f : string -> A) l s :
  NoDup l ->
  dict_remove (map (fun n => (n, f n)) l) s
  = map (fun n => (n, f n)) (filter (fun n => negb (String.eqb n s)) l).
Proof.
  induction l as [|n l IH]; cbn; intros Hnd; [reflexivity|].
  inversion Hnd as [|? ? Hn Hnd']; subst.
  rewrite (String.eqb_sym n s).
  destruct (String.eqb_spec s n) as [->|Hne]; cbn.
  - now rewrite (filter_absent l n Hn).
  - f_equal. now apply IH.
Qed.

End Dicts.

(** *** The default space *)

Lemma default_space_entries fs cats :
  NoDup fs ->
  default_space fs cats = map (fun n => (n, mkCategorical cats n)) fs.
Proof.
  intros Hnd. unfold default_space.
  now rewrite (fold_set_fresh (mkCategorical cats) fs []).
Qed.

(** Without [include], [exclude] and [append], the space has one
    dimension per input feature, in the order of the features, each over
    all the categories and named after its feature. *)
Theorem make_space_default fs cats :
  NoDup fs ->
  make_space fs cats IncNone ExNone ApNone = ok (map (mkCategorical cats) fs).
Proof.
  intros Hnd. unfold make_space. rewrite (default_space_entries fs cats Hnd).
  cbn [rbind ok]. now rewrite dict_values_entries.
Qed.

(** *** [include] as a list of names *)

Lemma include_of_list_names fs cats l : forall acc,
  incl l fs -> NoDup (dict_keys acc ++ l) ->
  include_of_list fs cats (map FStr l) acc
  = ok (acc ++ map (fun s => (s, CList cats)) l)%list.
Proof.
  induction l as [|s l IH]; intros acc Hin Hnd; cbn [map include_of_list].
  - now rewrite app_nil_r.
  - assert (Hs : str_in s fs = true).
    { apply str_in_spec, Hin. now left. }
    cbn [feature_in]. rewrite Hs. cbn [assert rbind ok].
    assert (Hfresh : ~ In s (dict_keys acc)).
    { intros H. apply NoDup_remove_2 in Hnd. apply Hnd, in_or_app. now left. }
    rewrite (dict_set_append_fresh _ _ _ Hfresh), IH.
    + now rewrite <- app_assoc.
    + intros x Hx. apply Hin. now right.
    + unfold dict_keys. rewrite map_app. cbn. rewrite <- app_assoc. exact Hnd.
Qed.

Lemma add_dimensions_lists (g : string -> list string) l : forall sp,
  NoDup (dict_keys sp ++ l) ->
  add_dimensions (map (fun s => (s, CList (g s))) l) sp
  = ok (sp ++ map (fun s => (s, mkCategorical (g s) s)) l)%list.
Proof.
  induction l as [|s l IH]; intros sp Hnd; cbn [map add_dimensions].
  - now rewrite app_nil_r.
  - assert (Hfresh : ~ In s (dict_keys sp)).
    { intros H. apply NoDup_remove_2 in Hnd. apply Hnd, in_or_app. now left. }
    rewrite (dict_set_append_fresh _ _ _ Hfresh), IH.
    + now rewrite <- app_assoc.
    + unfold dict_keys. rewrite map_app. cbn. rewrite <- app_assoc. exact Hnd.
Qed.

(** A list of distinct names of input features as [include]: the space
    has exactly these dimensions, in the order of the list (not of the
    input features), each over all the categories. *)
Theorem include_list_of_names fs cats l :
  NoDup l -> incl l fs ->
  make_space fs cats (IncList (map FStr l)) ExNone ApNone
  = ok (map (mkCategorical cats) l).
Proof.
  intros Hnd Hin. unfold make_space.
  rewrite (include_of_list_names fs cats l [] Hin Hnd).
  cbn [rbind ok app].
  rewrite (add_dimensions_lists (fun _ => cats) l [] Hnd).
  cbn [rbind ok app]. now rewrite dict_values_entries.
Qed.

(** *** [exclude] *)

Lemma filter_filter_names (l rest : list string) s :
  filter (fun n => negb (str_in n rest))
    (filter (fun n => negb (String.eqb n s)) l)
  = filter (fun n => negb (str_in n (s :: rest))) l.
Proof.
  induction l as [|n l IH]; [reflexivity|].
  cbn [filter].
  change (str_in n (s :: rest)) with (String.eqb n s || str_in n rest).
  destruct (String.eqb n s); cbn [negb orb filter]; [exact IH|].
  destruct (str_in n rest); cbn [negb]; [exact IH|now rewrite IH].
Qed.

Lemma filter_none_excluded (l : list string) :
  filter (fun n => negb (str_in n [])) l = l.
Proof.
  induction l as [|n l IH]; [reflexivity|].
  cbn [filter]. change (str_in n []) with false. cbn [negb]. now rewrite IH.
Qed.

Lemma pop_all_dimensions cats l : forall fs,
  NoDup fs -> NoDup l -> incl l fs ->
  pop_all l (map (fun n => (n, mkCategorical cats n)) fs)
  = ok (map (fun n => (n, mkCategorical cats n))
          (filter (fun n => negb (str_in n l)) fs)).
Proof.
  induction l as [|s l IH]; intros fs Hfs Hl Hin; cbn [pop_all].
  - now rewrite filter_none_excluded.
  - inversion Hl as [|? ? Hs Hl']; subst.
    assert (Hmem : dict_mem (map (fun n => (n, mkCategorical cats n)) fs) s
                   = true).
    { apply dict_mem_keys. rewrite dict_keys_entries. apply Hin. now left. }
    unfold dict_pop. rewrite Hmem. cbn [rbind ok].
    rewrite (dict_remove_entries _ fs s Hfs), IH.
    + now rewrite filter_filter_names.
    + apply NoDup_filter, Hfs.
    + exact Hl'.
    + intros x Hx. apply filter_In. split; [apply Hin; now right|].
      destruct (String.eqb_spec x s) as [->|Hne]; [contradiction|reflexivity].
Qed.

(** Distinct input features given as [exclude]: the space keeps the
    other features, in their order. *)
Theorem exclude_list_of_names fs cats l :
  NoDup fs -> NoDup l -> incl l fs ->
  make_space fs cats IncNone (ExList l) ApNone
  = ok (map (mkCategorical cats) (filter (fun n => negb (str_in n l)) fs)).
Proof.
  intros Hfs Hl Hin. unfold make_space.
  rewrite (default_space_entries fs cats Hfs). cbn [rbind ok].
  rewrite (pop_all_dimensions cats l fs Hfs Hl Hin).
  cbn [rbind ok]. now rewrite dict_values_entries.
Qed.

Lemma fold_set_keys {A} (f : string -> A) l : forall acc,
  NoDup (dict_keys acc) ->
  NoDup (dict_keys (fold_left (fun sp nm => dict_set sp nm (f nm)) l acc)) /\
  forall x, In x (dict_keys (fold_left (fun sp nm => dict_set sp nm (f nm))
                               l acc))
            <-> In x (dict_keys acc) \/ In x l.
Proof.
  induction l as [|n l IH]; intros acc Hnd; cbn [fold_left].
  - split; [exact Hnd|]. intros x. cbn. tauto.
  - destruct (IH (dict_set acc n (f n)) (dict_set_NoDup _ _ _ Hnd)) as [H1 H2].
    split; [exact H1|]. intros x. rewrite H2. cbn. split.
    + intros [H|H]; [|tauto].
      apply dict_set_keys_in in H. destruct H as [->|H]; tauto.
    + intros [H|[->|H]]; [| |tauto].
      * left. apply dict_set_keys_intro. now right.
      * left. apply dict_set_keys_intro. now left.
Qed.

Lemma default_space_keys fs cats :
  NoDup (dict_keys (default_space fs cats)) /\
  forall x, In x (dict_keys (default_space fs cats)) <-> In x fs.
Proof.
  destruct (fold_set_keys (mkCategorical cats) fs [] (NoDup_nil _)) as [H1 H2].
  split; [exact H1|]. intros x. unfold default_space. rewrite H2. cbn. tauto.
Qed.

Lemma pop_all_outcome l : forall sp : dict Categorical,
  NoDup (dict_keys sp) ->
  match pop_all l sp with
  | inr _ => NoDup l /\ incl l (dict_keys sp)
  | inl e => exists k, In k l /\ e = KeyError k
  end.
Proof.
  induction l as [|s l IH]; intros sp Hnd; cbn [pop_all].
  - split; [constructor|intros x []].
  - unfold dict_pop.
    destruct (dict_mem sp s) eqn:Hmem; cbn [rbind ok throw].
    + specialize (IH (dict_remove sp s) (dict_remove_NoDup sp s Hnd)).
      destruct (pop_all l (dict_remove sp s)) as [e|sp'].
      * destruct IH as (k & Hk & ->). exists k. split; [now right|reflexivity].
      * destruct IH as [Hl Hin]. split.
        -- constructor; [|exact Hl]. intros Hs.
           apply (dict_remove_gone sp s Hnd), Hin, Hs.
        -- intros x [<-|Hx]; [now apply dict_mem_keys|].
           eapply dict_remove_keys, Hin, Hx.
    + exists s. split; [now left|reflexivity].
Qed.

(** A name in [exclude] that is not an input feature, or that comes
    twice, makes [make_space] fail on [space.pop] with a [KeyError] that
    carries a name of the list. *)
Theorem exclude_list_unknown_name fs cats l append :
  ~ (NoDup l /\ incl l fs) ->
  exists k, In k l /\
    make_space fs cats IncNone (ExList l) append = throw (KeyError k).
Proof.
  intros Hbad. unfold make_space. cbn [rbind ok].
  destruct (default_space_keys fs cats) as [Hnd Hkeys].
  pose proof (pop_all_outcome l (default_space fs cats) Hnd) as H.
  destruct (pop_all l (default_space fs cats)) as [e|sp].
  - destruct H as (k & Hk & ->). exists k. split; [exact Hk|reflexivity].
  - exfalso. apply Hbad. destruct H as [Hl Hin]. split; [exact Hl|].
    intros x Hx. apply Hkeys, Hin, Hx.
Qed.

(** *** [append] *)

Lemma dict_set_present {A} (f : string -> A) l k v :
  NoDup l -> In k l ->
  dict_set (map (fun n => (n, f n)) l) k v
  = map (fun n => (n, if String.eqb n k then v else f n)) l.
Proof.
  induction l as [|n l IH]; cbn; intros Hnd Hin; [destruct Hin|].
  inversion Hnd as [|? ? Hn Hnd']; subst.
  rewrite (String.eqb_sym n k).
  destruct (String.eqb_spec k n) as [->|Hne].
  - f_equal. apply map_ext_in. intros x Hx.
    destruct (String.eqb_spec x n) as [->|_]; [contradiction|reflexivity].
  - f_equal. apply IH; [exact Hnd'|].
    destruct Hin as [Heq|Hin]; [congruence|exact Hin].
Qed.

(** One feature with its own candidates as [append]: a feature of the
    space keeps its place and gets the new candidates; a new feature
    becomes the last dimension. *)
Theorem append_one_feature fs cats k l :
  NoDup fs ->
  make_space fs cats IncNone ExNone (ApDict [(k, CList l)])
  = ok (if str_in k fs
        then map (fun n => if String.eqb n k then mkCategorical l k
                           else mkCategorical cats n) fs
        else (map (mkCategorical cats) fs ++ [mkCategorical l k])%list).
Proof.
  intros Hnd. unfold make_space.
  rewrite (default_space_entries fs cats Hnd).
  cbn [rbind ok add_dimensions].
  destruct (str_in k fs) eqn:Hk.
  - apply str_in_spec in Hk.
    rewrite (dict_set_present _ fs k _ Hnd Hk).
    unfold dict_values. rewrite map_map. cbn [snd]. reflexivity.
  - assert (Hfresh : ~ In k (dict_keys
                               (map (fun n => (n, mkCategorical cats n)) fs))).
    { rewrite dict_keys_entries. intros Hin. apply str_in_spec in Hin.
      congruence. }
    rewrite (dict_set_append_fresh _ _ _ Hfresh).
    unfold dict_values. rewrite map_app, map_map. reflexivity.
Qed.

(** *** Names of the dimensions *)

Lemma named_set sp k c :
  named_by_key sp -> name c = k -> named_by_key (dict_set sp k c).
Proof.
  intros [Hnd Hall] Hc. split; [now apply dict_set_NoDup|].
  clear Hnd. induction Hall as [|[k' c'] sp Hk Hall IH]; cbn.
  - constructor; [exact Hc|constructor].
  - destruct (String.eqb_spec k k') as [->|Hne]; constructor;
      try assumption.
Qed.

Lemma named_remove sp k : named_by_key sp -> named_by_key (dict_remove sp k).
Proof.
  intros [Hnd Hall]. split; [now apply dict_remove_NoDup|].
  clear Hnd. induction Hall as [|[k' c'] sp Hk Hall IH]; cbn.
  - constructor.
  - destruct (String.eqb k k'); [exact Hall|now constructor].
Qed.

Lemma named_values sp :
  named_by_key sp -> map name (dict_values sp) = dict_keys sp.
Proof.
  intros [_ Hall]. unfold dict_values, dict_keys. rewrite map_map.
  induction Hall as [|kv sp Hk Hall IH]; cbn; [reflexivity|].
  now rewrite Hk, IH.
Qed.

Lemma named_default fs cats : named_by_key (default_space fs cats).
Proof.
  unfold default_space.
  assert (H : forall acc, named_by_key acc ->
            named_by_key (fold_left
              (fun sp nm => dict_set sp nm (mkCategorical cats nm)) fs acc)).
  { induction fs as [|n fs IH]; intros acc Hacc; cbn [fold_left];
      [exact Hacc|].
    apply IH. now apply named_set. }
  apply H. split; constructor.
Qed.

Lemma well_named_set d k v :
  well_named d ->
  match v with CCategorical c => name c = k | _ => True end ->
  well_named (dict_set d k v).
Proof.
  intros Hall Hv. induction Hall as [|[k' v'] d Hk Hall IH]; cbn.
  - constructor; [exact Hv|constructor].
  - destruct (String.eqb_spec k k') as [->|Hne]; constructor;
      try assumption.
Qed.

Lemma well_named_include_of_list fs cats l : forall acc d,
  well_named acc ->
  include_of_list fs cats l acc = ok d -> well_named d.
Proof.
  induction l as [|feat l IH]; intros acc d Hacc; cbn [include_of_list].
  - intros H. injection H as <-. exact Hacc.
  - destruct feat as [s|d'|]; cbn [feature_in assert rbind throw];
      try discriminate.
    destruct (str_in s fs); cbn [rbind ok throw]; [|discriminate].
    apply IH. now apply well_named_set.
Qed.

Lemma named_add_dimensions items : forall sp sp',
  well_named items -> named_by_key sp ->
  add_dimensions items sp = ok sp' -> named_by_key sp'.
Proof.
  induction items as [|[k v] items IH]; intros sp sp' Hit Hsp;
    cbn [add_dimensions].
  - intros H. injection H as <-. exact Hsp.
  - inversion Hit as [|? ? Hv Hit']; subst. cbn [snd fst] in Hv.
    destruct v as [c|l|]; [| |discriminate].
    + apply IH; [exact Hit'|now apply named_set].
    + apply IH; [exact Hit'|now apply named_set].
Qed.

Lemma named_pop_all l : forall sp sp',
  named_by_key sp -> pop_all l sp = ok sp' -> named_by_key sp'.
Proof.
  induction l as [|s l IH]; intros sp sp' Hsp; cbn [pop_all].
  - intros H. injection H as <-. exact Hsp.
  - unfold dict_pop. destruct (dict_mem sp s); cbn [rbind ok throw];
      [|discriminate].
    apply IH. now apply named_remove.
Qed.

(** Whatever the arguments, as long as every ready-made [Categorical]
    handed in through [include] or [append] carries the name of its key:
    no two dimensions of the space that [make_space] returns have the same
    name. *)
Theorem make_space_names_distinct fs cats include exclude append sp :
  well_named_include include -> well_named_append append ->
  make_space fs cats include exclude append = ok sp ->
  NoDup (map name sp).
Proof.
  intros Hinc Happ. unfold make_space.
  assert (H1 : forall sp1,
    match include with
    | IncNone => ok (default_space fs cats)
    | _ =>
        rbind match include with
              | IncStr s => ok [(s, CList cats)]
              | IncList l => include_of_list fs cats l []
              | IncDict d => rbind (assert (Nat.eqb (length d) 1)) (fun _ => ok d)
              | _ => throw AssertionError
              end (fun include0 => add_dimensions include0 [])
    end = ok sp1 -> named_by_key sp1).
  { intros sp1. destruct include as [|s|l|d|].
    - intros H. injection H as <-. apply named_default.
    - cbn [rbind ok]. apply named_add_dimensions.
      + repeat constructor.
      + split; constructor.
    - destruct (include_of_list fs cats l []) as [e|d] eqn:Hl;
        cbn [rbind]; [discriminate|].
      apply named_add_dimensions.
      + eapply well_named_include_of_list; [|exact Hl]. constructor.
      + split; constructor.
    - destruct (Nat.eqb (length d) 1); cbn [assert rbind ok throw];
        [|discriminate].
      apply named_add_dimensions; [exact Hinc|split; constructor].
    - discriminate. }
  destruct (match include with IncNone => _ | _ => _ end) as [e|sp1];
    cbn [rbind]; [discriminate|].
  specialize (H1 sp1 eq_refl).
  assert (H2 : forall sp2,
    match exclude with
    | ExNone => ok sp1
    | ExStr s => pop_all [s] sp1
    | ExList l => pop_all l sp1
    | ExOther => throw AssertionError
    end = ok sp2 -> named_by_key sp2).
  { intros sp2. destruct exclude as [|s|l|].
    - intros H. injection H as <-. exact H1.
    - now apply named_pop_all.
    - now apply named_pop_all.
    - discriminate. }
  destruct (match exclude with ExNone => _ | _ => _ end) as [e|sp2];
    cbn [rbind]; [discriminate|].
  specialize (H2 sp2 eq_refl).
  assert (H3 : forall sp3,
    match append with
    | ApNone => ok sp2
    | ApDict d => add_dimensions d sp2
    | ApOther => throw AssertionError
    end = ok sp3 -> named_by_key sp3).
  { intros sp3. destruct append as [|d|].
    - intros H. injection H as <-. exact H2.
    - now apply named_add_dimensions.
    - discriminate. }
  destruct (match append with ApNone => _ | _ => _ end) as [e|sp3];
    cbn [rbind ok]; [discriminate|].
  specialize (H3 sp3 eq_refl).
  intros H. injection H as <-.
  rewrite (named_values sp3 H3). now destruct H3.
Qed.

End SpaceFacts.

(** ** The configuration update *)

Module UpdateFacts.
Import Update UpdateNotions.

Lemma describes_app kvs ts kv t :
  describes kvs ts -> describes [kv] [t] ->
  describes (kvs ++ [kv])%list (ts ++ [t])%list.
Proof. intros H1 H2. apply Forall2_app; assumption. Qed.

Lemma for_inputs_cons fs kv rest :
  for_inputs fs (kv :: rest)
  = if active kv && str_in (fst kv) fs then kv :: for_inputs fs rest
    else for_inputs fs rest.
Proof. reflexivity. Qed.

Lemma for_outputs_cons fs kv rest :
  for_outputs fs (kv :: rest)
  = if active kv && negb (str_in (fst kv) fs) then kv :: for_outputs fs rest
    else for_outputs fs rest.
Proof. reflexivity. Qed.

Lemma collect_spec fs sug : forall xs ys kx ky r,
  describes kx xs -> describes ky ys ->
  collect fs sug xs ys = ok r ->
  describes (kx ++ for_inputs fs sug)%list (fst r) /\
  describes (ky ++ for_outputs fs sug)%list (snd r).
Proof.
  induction sug as [|[feature method] rest IH]; intros xs ys kx ky r Hx Hy;
    cbn [collect].
  - intros H. injection H as <-. cbn [fst snd for_inputs for_outputs filter].
    now rewrite !app_nil_r.
  - rewrite for_inputs_cons, for_outputs_cons. unfold active. cbn [fst snd].
    destruct (is_none_name method); cbn [negb andb].
    + apply IH; assumption.
    + destruct (descriptor feature method) as [e|d] eqn:Hd;
        cbn [rbind]; [discriminate|].
      assert (Hone : describes [(feature, method)] [VDict d]).
      { constructor; [|constructor]. exists d. split; [exact Hd|reflexivity]. }
      destruct (str_in feature fs); cbn [negb]; intros H.
      * destruct (IH _ _ (kx ++ [(feature, method)])%list ky r
                    (describes_app _ _ _ _ Hx Hone) Hy H) as [H1 H2].
        rewrite <- app_assoc in H1. split; assumption.
      * destruct (IH _ _ kx (ky ++ [(feature, method)])%list r
                    Hx (describes_app _ _ _ _ Hy Hone) H) as [H1 H2].
        rewrite <- app_assoc in H2. split; assumption.
Qed.

(** When [update] returns, [config['x_transformation']] is the list of
    the descriptors of the suggestions that are not none and name an input
    feature, in the order of the suggestions, and
    [config['y_transformation']] is the list of the descriptors of the
    other suggestions that are not none, or [None] when there is none. *)
Theorem update_partitions_suggestions fs config sug config' :
  update fs config sug = ok config' ->
  exists xs ys,
    dict_get config' "x_transformation" = Some (VList xs) /\
    describes (for_inputs fs sug) xs /\
    dict_get config' "y_transformation" = Some (or_None ys) /\
    describes (for_outputs fs sug) ys.
Proof.
  unfold update.
  destruct (collect fs sug [] []) as [e|r] eqn:Hc; cbn [rbind ok];
    [discriminate|].
  intros H. injection H as <-.
  destruct (collect_spec fs sug [] [] [] [] r) as [H1 H2];
    [constructor|constructor|exact Hc|].
  exists (fst r), (snd r). split; [|split; [exact H1|split; [|exact H2]]].
  - rewrite dict_get_set_other by discriminate. apply dict_get_set_same.
  - apply dict_get_set_same.
Qed.

Lemma collect_all_none fs sug : forall xs ys,
  Forall (fun kv => snd kv = VStr "none") sug ->
  collect fs sug xs ys = ok (xs, ys).
Proof.
  induction sug as [|[feature method] rest IH]; intros xs ys Hall;
    cbn [collect]; [reflexivity|].
  inversion Hall as [|? ? Hm Hall']; subst. cbn [snd] in Hm. subst method.
  cbn [is_none_name String.eqb]. apply IH, Hall'.
Qed.

(** When every suggestion is none, [update] sets
    [config['x_transformation']] to the empty list and
    [config['y_transformation']] to [None]. *)
Theorem update_all_none fs config sug :
  Forall (fun kv => snd kv = VStr "none") sug ->
  update fs config sug
  = ok (dict_set (dict_set config "x_transformation" (VList []))
          "y_transformation" VNone).
Proof.
  intros Hall. unfold update. now rewrite (collect_all_none fs sug [] [] Hall).
Qed.

(** [update] changes [config] under the two keys [x_transformation] and
    [y_transformation] only, and these two it sets whatever they held. *)
Theorem update_touches_two_keys fs config sug config' k :
  update fs config sug = ok config' ->
  k <> "x_transformation" -> k <> "y_transformation" ->
  dict_get config' k = dict_get config k.
Proof.
  unfold update.
  destruct (collect fs sug [] []) as [e|r]; cbn [rbind ok]; [discriminate|].
  intros H Hx Hy. injection H as <-.
  rewrite !dict_get_set_other by assumption. reflexivity.
Qed.

End UpdateFacts.

(** ** What the forward pass leaves alone *)

Section Frame.

Context {B : Backend}.

Variable R : world -> world -> list event -> Prop.

Hypothesis R_refl : forall w, R w w [].
Hypothesis R_trans : forall w w1 w2 e1 e2,
  R w w1 e1 -> R w1 w2 e2 -> R w w2 (e1 ++ e2)%list.

Lemma respects_ret {A} (a : A) : respects R (ret a).
Proof. intros w. apply R_refl. Qed.

Lemma respects_raise {A} (e : exn) : respects R (@raise B A e).
Proof. intros w. apply R_refl. Qed.

Lemma respects_lift {A} (r : result A) : respects R (lift r).
Proof. intros w. apply R_refl. Qed.

Lemma respects_get_self : respects R get_self.
Proof. intros w. apply R_refl. Qed.

Lemma respects_attribute (flag : option bool) : respects R (attribute flag).
Proof. destruct flag; [apply respects_ret|apply respects_raise]. Qed.

Lemma respects_bind {A C} (m : M A) (f : A -> M C) :
  respects R m -> (forall a, respects R (f a)) -> respects R (bind m f).
Proof.
  intros Hm Hf w. specialize (Hm w). unfold bind.
  destruct (m w) as [[e|a] w1 ev]; cbn [value after emitted] in *.
  - exact Hm.
  - eapply R_trans; [exact Hm|apply Hf].
Qed.

Ltac fr_step :=
  match goal with
  | |- respects _ (bind _ _) => apply respects_bind; [|intros ?]
  | |- respects _ (ret _) => apply respects_ret
  | |- respects _ (raise _) => apply respects_raise
  | |- respects _ (lift _) => apply respects_lift
  | |- respects _ get_self => apply respects_get_self
  | |- respects _ (attribute _) => apply respects_attribute
  | |- respects _ (match ?x with _ => _ end) => destruct x
  end.

Ltac fr := repeat first [fr_step | solve [auto]].

Lemma respects_check_features : respects R _check_features.
Proof. unfold _check_features. fr. Qed.

Hypothesis R_call : forall w kwargs, R w w [Transform_called kwargs].

Hypothesis R_register : forall w k e,
  R w (mkWorld
         (mkTransformations (names (self w)) (config (self w))
            (dict_set (scalers (self w)) k e)
            (is_numpy_ (self w)) (is_list_ (self w)) (is_dict_ (self w)))
         (np_random w))
    [Registered k].

Lemma respects_call_transformation data columns kwargs :
  respects R (call_transformation data columns kwargs).
Proof.
  assert (H : respects R (emit (Transform_called kwargs)))
    by (intros w; apply R_call).
  unfold call_transformation. fr.
Qed.

Lemma respects_transform_list columns k l idx data acc :
  respects R (transform_list columns k l idx data acc).
Proof.
  pose proof respects_call_transformation.
  revert idx data acc. induction l as [|trans rest IH]; intros idx data acc;
    cbn [transform_list]; fr.
Qed.

Lemma respects_register d : respects R (register d).
Proof.
  induction d as [|[k e] d IH]; intros w; cbn [register].
  - apply R_refl.
  - rewrite bind_get_self, bind_set_self, bind_emit. cbn [after emitted].
    apply (R_trans _ _ _ [Registered k] _ (R_register w k e)), IH.
Qed.

Lemma respects_transform_2d data columns transformation k :
  respects R (_transform_2d data columns transformation k).
Proof.
  pose proof respects_call_transformation.
  pose proof respects_transform_list.
  pose proof respects_register.
  unfold _transform_2d. fr.
Qed.

Lemma respects_fit_steps data feature_names transformation k ts _data :
  respects R (fit_steps data feature_names transformation k ts _data).
Proof.
  pose proof respects_transform_2d.
  revert _data. induction ts as [|t rest IH]; intros _data;
    cbn [fit_steps]; fr.
Qed.

Lemma respects__fit_transform data feature_names transformation k :
  respects R (__fit_transform data feature_names transformation k).
Proof.
  pose proof respects_transform_2d.
  pose proof respects_fit_steps.
  unfold __fit_transform. fr.
Qed.

Lemma respects_fit_list nms tr k xs idx acc :
  respects R (fit_list nms tr k xs idx acc).
Proof.
  pose proof respects__fit_transform.
  revert idx acc. induction xs as [|x rest IH]; intros idx acc;
    cbn [fit_list]; fr.
Qed.

Lemma respects_fit_dict nms tr k kvs acc :
  respects R (fit_dict nms tr k kvs acc).
Proof.
  pose proof respects__fit_transform.
  revert acc. induction kvs as [|[s x] rest IH]; intros acc;
    cbn [fit_dict]; fr.
Qed.

Lemma respects_fit_transform_top data k :
  respects R (_fit_transform data k).
Proof.
  pose proof respects__fit_transform.
  pose proof respects_fit_list.
  pose proof respects_fit_dict.
  unfold _fit_transform. fr.
Qed.

Hypothesis R_flags : forall w a b c, R w (reflagged w a b c) [].

Lemma respects_set_is_numpy_ b : respects R (set_is_numpy_ b).
Proof.
  intros w. unfold set_is_numpy_. rewrite bind_get_self. apply R_flags.
Qed.

Lemma respects_set_is_list_ b : respects R (set_is_list_ b).
Proof.
  intros w. unfold set_is_list_. rewrite bind_get_self. apply R_flags.
Qed.

Lemma respects_set_is_dict_ b : respects R (set_is_dict_ b).
Proof.
  intros w. unfold set_is_dict_. rewrite bind_get_self. apply R_flags.
Qed.

Lemma respects_fit_transform data : respects R (fit_transform data).
Proof.
  pose proof respects_check_features.
  pose proof respects_fit_transform_top.
  pose proof respects_set_is_numpy_.
  pose proof respects_set_is_list_.
  pose proof respects_set_is_dict_.
  unfold fit_transform. fr.
Qed.

End Frame.


Section FrameFacts.

Context {B : Backend}.

Lemma same_inputs_refl w : same_inputs w w [].
Proof. repeat split. Qed.

Lemma same_inputs_trans w w1 w2 e1 e2 :
  same_inputs w w1 e1 -> same_inputs w1 w2 e2 ->
  same_inputs w w2 (e1 ++ e2)%list.
Proof.
  intros (H1 & H2 & H3) (H4 & H5 & H6). unfold same_inputs.
  rewrite H4, H5, H6. repeat split; assumption.
Qed.

(** No [fit_transform] call, whatever the data and the outcome, changes
    the feature names or the config of the instance, or draws from numpy's
    generator. *)
Theorem fit_transform_keeps_inputs (data : pyobj cell) (w : world) :
  names (self (after (fit_transform data w))) = names (self w) /\
  config (self (after (fit_transform data w))) = config (self w) /\
  np_random (after (fit_transform data w)) = np_random w.
Proof.
  apply (respects_fit_transform same_inputs same_inputs_refl
           same_inputs_trans).
  - intros w' kwargs. apply same_inputs_refl.
  - intros w' k e. repeat split.
  - intros w' a b c. repeat split.
Qed.

Lemma registry_follows_refl w : registry_follows w w [].
Proof. split; [reflexivity|intros k []]. Qed.

Lemma registry_follows_trans w w1 w2 e1 e2 :
  registry_follows w w1 e1 -> registry_follows w1 w2 e2 ->
  registry_follows w w2 (e1 ++ e2)%list.
Proof.
  intros [H1 H2] [H3 H4]. unfold registry_follows.
  rewrite registered_app. split.
  - intros k Hk. rewrite H3, H1; [reflexivity| |];
      intros Hin; apply Hk, in_or_app; [now left|now right].
  - intros k Hk.
    destruct (in_dec string_dec k (registered e2)) as [Hin|Hn].
    + apply H4, Hin.
    + apply in_app_or in Hk. destruct Hk as [Hk|Hk]; [|contradiction].
      unfold dict_mem. rewrite (H3 k Hn). apply (H2 k Hk).
Qed.

Lemma registry_follows_fit_transform (data : pyobj cell) :
  respects registry_follows (fit_transform data).
Proof.
  apply (respects_fit_transform registry_follows registry_follows_refl
           registry_follows_trans).
  - intros w' kwargs. apply registry_follows_refl.
  - intros w' k e. split; cbn [registered flat_map app self scalers].
    + intros k' Hk'. apply dict_get_set_other.
      intros ->. apply Hk'. now left.
    + intros k' [<-|[]]. unfold dict_mem. now rewrite dict_get_set_same.
  - intros w' a b c. split; [reflexivity|intros k []].
Qed.

(** What a [fit_transform] call does to the registry, whatever the data
    and the outcome: every key it writes is in the registry afterwards,
    every other key holds what it held before (or is absent as before),
    and so no key that was in the registry is lost. *)
Theorem fit_transform_registry (data : pyobj cell) (w : world) :
  let o := fit_transform data w in
  (forall k, In k (registered (emitted o)) ->
             dict_mem (scalers (self (after o))) k = true) /\
  (forall k, ~ In k (registered (emitted o)) ->
             dict_get (scalers (self (after o))) k
             = dict_get (scalers (self w)) k) /\
  (forall k, dict_mem (scalers (self w)) k = true ->
             dict_mem (scalers (self (after o))) k = true).
Proof.
  cbn zeta. destruct (registry_follows_fit_transform data w) as [H1 H2].
  split; [exact H2|]. split; [exact H1|].
  intros k Hk.
  destruct (in_dec string_dec k (registered (emitted (fit_transform data w))))
    as [Hin|Hn].
  - apply H2, Hin.
  - unfold dict_mem. rewrite (H1 k Hn). exact Hk.
Qed.

Lemma same_settings_refl w : same_settings w w [].
Proof. reflexivity. Qed.

Lemma same_settings_trans w w1 w2 e1 e2 :
  same_settings w w1 e1 -> same_settings w1 w2 e2 ->
  same_settings w w2 (e1 ++ e2)%list.
Proof. unfold same_settings. intros H1 H2. now rewrite H2. Qed.

Lemma after_bind_runs {A C} (m : M A) (f : A -> M C) w a w1 :
  runs m w a w1 -> after (bind m f w) = after (f a w1).
Proof.
  intros [Hv Ha]. rewrite bind_eq, Hv. cbn [after]. now rewrite Ha.
Qed.

Lemma value_bind_runs {A C} (m : M A) (f : A -> M C) w a w1 :
  runs m w a w1 -> value (bind m f w) = value (f a w1).
Proof.
  intros [Hv Ha]. rewrite bind_eq, Hv. cbn [value]. now rewrite Ha.
Qed.

Lemma settings_flags (w w' : world) :
  settings w' = settings w ->
  is_numpy_ (self w') = is_numpy_ (self w) /\
  is_list_ (self w') = is_list_ (self w) /\
  is_dict_ (self w') = is_dict_ (self w).
Proof. unfold settings. intros H. injection H as _ _ H1 H2 H3. auto. Qed.

(** The part of [fit_transform] that follows the setting of the flags
    leaves names, config and flags as they are. *)
Lemma settings_after_flags (data : pyobj cell) cls w :
  settings
    (after (bind _check_features (fun _ =>
            bind (_fit_transform data "5") (fun data0 =>
            bind (lift (assert (String.eqb (class_name data0) cls)))
              (fun _ => ret data0))) w))
  = settings w.
Proof.
  assert (H : respects same_settings
                (bind _check_features (fun _ =>
                 bind (_fit_transform data "5") (fun data0 =>
                 bind (lift (assert (String.eqb (class_name data0) cls)))
                   (fun _ => ret data0))))).
  { apply (respects_bind same_settings same_settings_trans).
    - apply (respects_check_features same_settings same_settings_refl
               same_settings_trans).
    - intros _.
      apply (respects_bind same_settings same_settings_trans).
      + apply (respects_fit_transform_top same_settings same_settings_refl
                 same_settings_trans).
        * intros w' kwargs. reflexivity.
        * intros w' k e. reflexivity.
      + intros data0.
        apply (respects_bind same_settings same_settings_trans).
        * apply (respects_lift same_settings same_settings_refl).
        * intros _. apply (respects_ret same_settings same_settings_refl). }
  apply H.
Qed.

(** After a [fit_transform] call on an instance with a config, whatever
    the outcome of the call, the three flags of the instance say what kind
    of container the call was given: an array, a list, a dictionary, or
    none of these. *)
Theorem fit_transform_sets_flags (data : pyobj cell) (w : world) :
  config (self w) <> VNone ->
  let w1 := after (fit_transform data w) in
  is_numpy_ (self w1) = Some (String.eqb (class_name data) "ndarray") /\
  is_list_ (self w1) = Some (String.eqb (class_name data) "list") /\
  is_dict_ (self w1) = Some (String.eqb (class_name data) "dict").
Proof.
  intros Hc. cbn zeta.
  set (w3 := reflagged w (Some false) (Some false) (Some false)).
  assert (Hpre : forall rest : M (pyobj cell),
    after (fit_transform data w)
    = after (bind (match data with
                   | PyArray2 _ | PyArray3 _ => set_is_numpy_ true
                   | PyList _ => set_is_list_ true
                   | PyDict _ => set_is_dict_ true
                   | _ => raise ValueError
                   end) (fun _ =>
             bind _check_features (fun _ =>
             bind (_fit_transform data "5") (fun data0 =>
             bind (lift (assert (String.eqb (class_name data0)
                                   (class_name data))))
               (fun _ => ret data0)))) w3)).
  { intros _. unfold fit_transform. rewrite bind_get_self.
    destruct (config (self w)) eqn:Hcfg; try (exfalso; apply Hc; reflexivity);
      rewrite (after_bind_runs _ _ _ _ _ (runs_set_is_numpy_ false w));
      rewrite (after_bind_runs _ _ _ _ _ (runs_set_is_list_ false _));
      rewrite (after_bind_runs _ _ _ _ _ (runs_set_is_dict_ false _));
      reflexivity. }
  rewrite (Hpre (ret data)). clear Hpre.
  assert (Hset : forall (m : M unit) w4,
    runs m w3 tt w4 ->
    settings (after (bind m (fun _ =>
                bind _check_features (fun _ =>
                bind (_fit_transform data "5") (fun data0 =>
                bind (lift (assert (String.eqb (class_name data0)
                                      (class_name data))))
                  (fun _ => ret data0)))) w3))
    = settings w4).
  { intros m w4 Hm. rewrite (after_bind_runs _ _ _ _ _ Hm).
    apply settings_after_flags. }
  destruct data;
    try (rewrite bind_raise; cbn [after]; repeat split; reflexivity).
  - destruct (settings_flags _ _ (Hset _ _ (runs_set_is_list_ true w3)))
      as (H1 & H2 & H3).
    rewrite H1, H2, H3. repeat split.
  - destruct (settings_flags _ _ (Hset _ _ (runs_set_is_dict_ true w3)))
      as (H1 & H2 & H3).
    rewrite H1, H2, H3. repeat split.
  - destruct (settings_flags _ _ (Hset _ _ (runs_set_is_numpy_ true w3)))
      as (H1 & H2 & H3).
    rewrite H1, H2, H3. repeat split.
  - destruct (settings_flags _ _ (Hset _ _ (runs_set_is_numpy_ true w3)))
      as (H1 & H2 & H3).
    rewrite H1, H2, H3. repeat split.
Qed.

End FrameFacts.

Section Dispatch.

Context {B : Backend}.

(** An object that is no array, list or dictionary (a DataFrame, for
    one) is rejected by an instance with a config: [fit_transform] raises
    the bare [ValueError] of line 128 before anything is checked, applied
    or registered, and leaves the three flags at [False]; on such an
    instance [inverse_transform] gives back whatever it is given. *)
Theorem fit_transform_rejects_other_kinds (data : pyobj cell) (w : world) :
  config (self w) <> VNone ->
  class_name data <> "ndarray" ->
  class_name data <> "list" ->
  class_name data <> "dict" ->
  let w1 := reflagged w (Some false) (Some false) (Some false) in
  fit_transform data w = mkOutcome (inl ValueError) w1 [] /\
  forall x, inverse_transform x w1 = mkOutcome (inr x) w1 [].
Proof.
  intros Hc H1 H2 H3. cbn zeta. split.
  - unfold fit_transform. rewrite bind_get_self.
    destruct (config (self w)); try (exfalso; apply Hc; reflexivity);
      destruct data; try reflexivity;
      exfalso; first [now apply H1|now apply H2|now apply H3].
  - intros x. reflexivity.
Qed.

(** On an instance without config [fit_transform] hands its argument
    back (C10) and does not create the flags, so an [inverse_transform]
    call on a new instance still fails on reading them. *)
Theorem inverse_after_passthrough (feature_names : pyval) (g : generator)
    (data x : pyobj cell) :
  let w := mkWorld (__init__ feature_names VNone) g in
  fit_transform data w = mkOutcome (inr data) w [] /\
  inverse_transform x (after (fit_transform data w))
  = mkOutcome (inl AttributeError) w [].
Proof. split; reflexivity. Qed.


(** The feature names are checked against the kind of the data before
    anything is applied: an array wants a list of names, a list wants a
    list made of lists, a dictionary wants a dictionary whose values are
    lists.  Otherwise [fit_transform] fails the assertion, having called
    and registered nothing. *)
Theorem fit_transform_checks_names (data : pyobj cell) (w : world) :
  config (self w) <> VNone ->
  (class_name data = "ndarray" /\ val_class (names (self w)) <> "list") \/
  (class_name data = "list" /\
   exists ns, names (self w) = VList ns /\ all_lists ns = false) \/
  (class_name data = "dict" /\
   forall nd, names (self w) = VDict nd -> all_lists (dict_values nd) = false) ->
  value (fit_transform data w) = inl AssertionError /\
  emitted (fit_transform data w) = [] /\
  scalers (self (after (fit_transform data w))) = scalers (self w).
Proof.
  intros Hc Hbad. unfold fit_transform. rewrite bind_get_self.
  assert (Hgo : forall (m : M (pyobj cell)) a b c,
    _check_features (reflagged w (Some a) (Some b) (Some c))
    = mkOutcome (inl AssertionError)
        (reflagged w (Some a) (Some b) (Some c)) [] ->
    forall (set : M unit),
    runs set (reflagged w (Some false) (Some false) (Some false)) tt
      (reflagged w (Some a) (Some b) (Some c)) ->
    emitted (set (reflagged w (Some false) (Some false) (Some false))) = [] ->
    let o := bind (set_is_numpy_ false) (fun _ =>
             bind (set_is_list_ false) (fun _ =>
             bind (set_is_dict_ false) (fun _ =>
             bind set (fun _ => bind _check_features (fun _ => m))))) w in
    value o = inl AssertionError /\ emitted o = [] /\
    scalers (self (after o)) = scalers (self w)).
  { intros m a b c Hchk set [Hv Ha] He. cbn zeta.
    assert (Heq :
      bind (set_is_numpy_ false) (fun _ =>
      bind (set_is_list_ false) (fun _ =>
      bind (set_is_dict_ false) (fun _ =>
      bind set (fun _ => bind _check_features (fun _ => m))))) w
      = mkOutcome (inl AssertionError)
          (reflagged w (Some a) (Some b) (Some c)) []).
    { unfold set_is_numpy_ at 1.
      rewrite bind_bind, bind_get_self, bind_set_self.
      unfold set_is_list_ at 1.
      rewrite bind_bind, bind_get_self, bind_set_self.
      unfold set_is_dict_ at 1.
      rewrite bind_bind, bind_get_self, bind_set_self.
      cbn [self names config scalers is_numpy_ is_list_ is_dict_ np_random].
      fold (reflagged w (Some false) (Some false) (Some false)).
      rewrite bind_eq, Hv, Ha, He. cbn [value after emitted app].
      rewrite bind_eq, Hchk. reflexivity. }
    rewrite Heq. repeat split. }
  assert (Hnp : forall m : M (pyobj cell),
    class_name data = "ndarray" -> val_class (names (self w)) <> "list" ->
    let o := bind (set_is_numpy_ false) (fun _ =>
             bind (set_is_list_ false) (fun _ =>
             bind (set_is_dict_ false) (fun _ =>
             bind (set_is_numpy_ true)
               (fun _ => bind _check_features (fun _ => m))))) w in
    value o = inl AssertionError /\ emitted o = [] /\
    scalers (self (after o)) = scalers (self w)).
  { intros m Hd Hn.
    apply (Hgo m true false false);
      [|exact (runs_set_is_numpy_ true
                 (reflagged w (Some false) (Some false) (Some false)))
       |reflexivity].
    unfold _check_features. rewrite bind_get_self.
    cbn [reflagged self is_numpy_ attribute]. rewrite bind_ret.
    cbn [names].
    destruct (names (self w)); try reflexivity.
    exfalso. now apply Hn. }
  assert (Hli : forall (m : M (pyobj cell)) ns,
    names (self w) = VList ns -> all_lists ns = false ->
    let o := bind (set_is_numpy_ false) (fun _ =>
             bind (set_is_list_ false) (fun _ =>
             bind (set_is_dict_ false) (fun _ =>
             bind (set_is_list_ true)
               (fun _ => bind _check_features (fun _ => m))))) w in
    value o = inl AssertionError /\ emitted o = [] /\
    scalers (self (after o)) = scalers (self w)).
  { intros m ns Hn Hall.
    apply (Hgo m false true false);
      [|exact (runs_set_is_list_ true
                 (reflagged w (Some false) (Some false) (Some false)))
       |reflexivity].
    unfold _check_features. rewrite bind_get_self.
    cbn [reflagged self is_numpy_ is_list_ attribute]. rewrite !bind_ret.
    cbn [names]. rewrite Hn. cbn [iterate ok]. rewrite bind_lift_ok, Hall.
    reflexivity. }
  assert (Hdi : forall m : M (pyobj cell),
    (forall nd, names (self w) = VDict nd ->
                all_lists (dict_values nd) = false) ->
    let o := bind (set_is_numpy_ false) (fun _ =>
             bind (set_is_list_ false) (fun _ =>
             bind (set_is_dict_ false) (fun _ =>
             bind (set_is_dict_ true)
               (fun _ => bind _check_features (fun _ => m))))) w in
    value o = inl AssertionError /\ emitted o = [] /\
    scalers (self (after o)) = scalers (self w)).
  { intros m Hn.
    apply (Hgo m false false true);
      [|exact (runs_set_is_dict_ true
                 (reflagged w (Some false) (Some false) (Some false)))
       |reflexivity].
    unfold _check_features. rewrite bind_get_self.
    cbn [reflagged self is_numpy_ is_list_ is_dict_ attribute].
    rewrite !bind_ret. cbn [names].
    destruct (names (self w)) as [| | | | |nd]; try reflexivity.
    rewrite (Hn nd eq_refl). reflexivity. }
  destruct Hbad as [[Hd Hn]|[[Hd (ns & Hn & Hall)]|[Hd Hn]]].
  - destruct (config (self w)); try (exfalso; apply Hc; reflexivity);
      destruct data; try discriminate Hd; now apply Hnp.
  - destruct (config (self w)); try (exfalso; apply Hc; reflexivity);
      destruct data; try discriminate Hd; now apply (Hli _ ns).
  - destruct (config (self w)); try (exfalso; apply Hc; reflexivity);
      destruct data; try discriminate Hd; now apply Hdi.
Qed.

(** A spec that is false without being [None] (the empty string, the
    empty list, the empty dictionary) transforms nothing: a 2-D array comes
    back as it is, nothing is called or registered, and the feature names
    are not even compared with the columns. *)
Theorem fit_transform_empty_spec (a : ndarray2 cell) (w : world) :
  config (self w) <> VNone ->
  truthy (config (self w)) = false ->
  val_class (names (self w)) = "list" ->
  fit_transform (PyArray2 a) w
  = mkOutcome (inr (PyArray2 a))
      (reflagged w (Some true) (Some false) (Some false)) [].
Proof.
  intros Hc Ht Hn. unfold fit_transform. rewrite bind_get_self.
  assert (Hgo :
    bind (set_is_numpy_ false) (fun _ =>
    bind (set_is_list_ false) (fun _ =>
    bind (set_is_dict_ false) (fun _ =>
    bind (set_is_numpy_ true) (fun _ =>
    bind _check_features (fun _ =>
    bind (_fit_transform (PyArray2 a) "5") (fun data0 =>
    bind (lift (assert (String.eqb (class_name data0)
                          (class_name (PyArray2 a : pyobj cell)))))
      (fun _ => ret data0))))))) w
    = mkOutcome (inr (PyArray2 a))
        (reflagged w (Some true) (Some false) (Some false)) []).
  { unfold set_is_numpy_ at 1. rewrite bind_bind, bind_get_self, bind_set_self.
    unfold set_is_list_ at 1. rewrite bind_bind, bind_get_self, bind_set_self.
    unfold set_is_dict_ at 1. rewrite bind_bind, bind_get_self, bind_set_self.
    unfold set_is_numpy_ at 1. rewrite bind_bind, bind_get_self, bind_set_self.
    cbn [self names config scalers is_numpy_ is_list_ is_dict_ np_random].
    fold (reflagged w (Some true) (Some false) (Some false)).
    unfold _check_features. rewrite bind_bind, bind_get_self.
    cbn [reflagged self is_numpy_ attribute]. rewrite bind_bind, bind_ret.
    cbn [names]. rewrite Hn. cbn [String.eqb Ascii.eqb Bool.eqb assert ok].
    rewrite bind_lift_ok.
    unfold _fit_transform. rewrite bind_bind, bind_get_self.
    cbn [reflagged self is_numpy_ attribute]. rewrite bind_bind, bind_ret.
    cbn [__fit_transform transformation config names].
    unfold _transform_2d. rewrite Ht.
    rewrite !bind_bind, bind_ret. cbn [fst snd register].
    rewrite bind_bind, !bind_ret. reflexivity. }
  destruct (config (self w)); try (exfalso; apply Hc; reflexivity);
    exact Hgo.
Qed.

(** The single method name of the config and no scaler under the key
    [5]: [inverse_transform] of a 2-D array raises the [ValueError] that
    names the key and lists the keys of the registry, in the order they
    were written. *)
Theorem inverse_without_scaler (a : ndarray2 cell) (m : string) (w : world)
    (df : DataFrame cell) :
  is_numpy_ (self w) = Some true ->
  config (self w) = VStr m ->
  pd_DataFrame (PyArray2 a) (names (self w)) = inr df ->
  dict_mem (scalers (self w)) "5" = false ->
  inverse_transform (PyArray2 a) w
  = mkOutcome
      (inl (ValueError_key_not_found "5" (dict_keys (scalers (self w)))))
      w [].
Proof.
  intros Hf Hc Hdf Hk. unfold inverse_transform, _inverse_transform.
  rewrite bind_get_self, Hf. cbn [attribute]. rewrite bind_ret.
  cbn [__inverse_transform transformation]. rewrite Hc.
  apply (missing_key_single_method _ _ _ _ _ df Hdf Hk).
Qed.

(** A single descriptor as config needs the entry [features] on the way
    back: without it [inverse_transform] fails on
    [transformation['features']] with a [KeyError], whatever the registry
    holds (in a list of descriptors the columns stand in for a missing
    [features]). *)
Theorem inverse_of_descriptor_without_features (a : ndarray2 cell)
    (kwargs : dict pyval) (w : world) (df : DataFrame cell) :
  is_numpy_ (self w) = Some true ->
  config (self w) = VDict kwargs ->
  dict_get kwargs "features" = None ->
  pd_DataFrame (PyArray2 a) (names (self w)) = inr df ->
  inverse_transform (PyArray2 a) w
  = mkOutcome (inl (KeyError "features")) w [].
Proof.
  intros Hf Hc Hk Hdf. unfold inverse_transform, _inverse_transform.
  rewrite bind_get_self, Hf. cbn [attribute]. rewrite bind_ret.
  cbn [__inverse_transform transformation]. rewrite Hc.
  unfold _inverse_transform_2d. rewrite Hdf, bind_lift_ok.
  unfold dict_item. rewrite Hk. reflexivity.
Qed.

End Dispatch.

(** ** The shapes that [conform_shape] handles *)

Section ShapeFacts.

Context {B : Backend}.

Lemma np_random_random_value n k w (rs : list (list cell)) :
  value (np_random_random n k w) = inr rs -> (0 <= k)%Z.
Proof.
  unfold np_random_random.
  destruct (Z.ltb_spec k 0) as [Hlt|Hge]; [discriminate|intros _; exact Hge].
Qed.


Lemma random_vector_length n g : length (fst (random_vector n g)) = n.
Proof.
  destruct (random_vector_spec (fun _ => True) (fun _ => I) n g) as [H _].
  exact H.
Qed.

Lemma grown_refl (rs : list (list cell)) : grown rs rs.
Proof.
  induction rs as [|r rs IH]; constructor; [|exact IH].
  exists []. now rewrite app_nil_r.
Qed.

Lemma grown_trans (r1 r2 r3 : list (list cell)) :
  grown r1 r2 -> grown r2 r3 -> grown r1 r3.
Proof.
  intros H12. revert r3.
  induction H12 as [|a b r1 r2 [t ->] H12 IH]; intros r3 H23;
    inversion H23 as [|? c ? r3' [t' ->] H23']; subst; constructor.
  - exists (t ++ t')%list. now rewrite app_assoc.
  - now apply IH.
Qed.

Lemma grown_snoc (rs : list (list cell)) (col : list cell) :
  length col = length rs ->
  grown rs (map2 (fun r x => r ++ [x])%list rs col).
Proof.
  revert col. induction rs as [|r rs IH]; intros [|x col] Hl; cbn in *;
    try discriminate; constructor.
  - now exists [x].
  - apply IH. now injection Hl.
Qed.

Lemma label_in_app a l1 l2 :
  label_in a (l1 ++ l2) = label_in a l1 || label_in a l2.
Proof. unfold label_in. apply existsb_app. Qed.

Lemma label_eqb_refl a : label_eqb a a = true.
Proof.
  destruct a; cbn; [reflexivity|apply Z.eqb_refl|apply String.eqb_refl].
Qed.

(** The loop of lines 352-354: the frame keeps its columns and its
    cells, new columns come last, and afterwards every feature is a
    column. *)
Lemma add_missing_spec fs : forall ls (df : DataFrame cell) w,
  labels_of_list fs = inr ls ->
  exists df',
    value (add_missing fs df w) = inr df' /\
    self (after (add_missing fs df w)) = self w /\
    emitted (add_missing fs df w) = [] /\
    (exists extra, df_columns df' = (df_columns df ++ extra)%list) /\
    (forall a, label_in a (df_columns df) = true \/ In a ls ->
               label_in a (df_columns df') = true) /\
    grown (df_rows df) (df_rows df').
Proof.
  induction fs as [|f fs IH]; intros ls df w Hls; cbn [add_missing].
  - cbn in Hls. injection Hls as <-. exists df. cbn.
    split; [reflexivity|]. split; [reflexivity|]. split; [reflexivity|].
    split; [exists []; now rewrite app_nil_r|].
    split; [intros a [H|[]]; exact H|apply grown_refl].
  - cbn [labels_of_list] in Hls.
    destruct (label_of f) as [e|a] eqn:Hf; [discriminate|].
    destruct (labels_of_list fs) as [e|ls'] eqn:Hfs; [discriminate|].
    cbn in Hls. injection Hls as <-.
    rewrite bind_lift_ok.
    destruct (label_in a (df_columns df)) eqn:Hin.
    + destruct (IH ls' df w eq_refl)
        as (df' & Hv & Hs & He & Hcols & Hall & Hrows).
      exists df'. repeat split; try assumption.
      intros b [Hb|[<-|Hb]]; apply Hall; [now left| |now right].
      now left.
    + rewrite bind_draw.
      set (col := fst (random_vector (length (df_rows df)) (np_random w))).
      set (w1 := mkWorld (self w)
                   (snd (random_vector (length (df_rows df)) (np_random w)))).
      set (df1 := mkFrame (df_columns df ++ [a])%list
                    (map2 (fun r x => r ++ [x])%list (df_rows df) col)).
      destruct (IH ls' df1 w1 eq_refl)
        as (df' & Hv & Hs & He & [extra Hcols] & Hall & Hrows).
      exists df'. split; [exact Hv|]. split; [exact Hs|].
      split; [exact He|]. split; [|split].
      * exists (a :: extra). rewrite Hcols. cbn [df1 df_columns].
        now rewrite <- app_assoc.
      * intros b Hb. apply Hall. cbn [df1 df_columns].
        rewrite label_in_app.
        destruct Hb as [Hb|[<-|Hb]].
        -- left. now rewrite Hb.
        -- left. cbn [label_in existsb]. rewrite label_eqb_refl.
           now rewrite orb_true_r.
        -- now right.
      * eapply grown_trans; [|exact Hrows]. cbn [df1 df_rows].
        apply grown_snoc. apply random_vector_length.
Qed.

(** A frame, a target shape of rank 2 and a list of features (not
    empty, every feature a possible column label): [conform_shape]
    returns a frame that has every feature among its columns; the columns
    of the given frame come first and keep their cells, the columns of the
    missing features are added after them.  The number it reports is
    computed from the shape all the same. *)
Theorem conform_shape_adds_features (df : DataFrame cell) (shape : list nat)
    (fs : list pyval) (ls : list label) (w : world) :
  length shape = 2 -> fs <> [] -> labels_of_list fs = inr ls ->
  exists df',
    value (conform_shape (PyFrame df) shape (VList fs) w)
    = inr (PyFrame df',
           (last_dim shape - Z.of_nat (length (df_columns df)))%Z) /\
    self (after (conform_shape (PyFrame df) shape (VList fs) w)) = self w /\
    (exists extra, df_columns df' = (df_columns df ++ extra)%list) /\
    Forall (fun a => label_in a (df_columns df') = true) ls /\
    grown (df_rows df) (df_rows df').
Proof.
  intros Hl Hfs Hls. unfold conform_shape. rewrite Hl.
  cbn [Nat.ltb Nat.leb].
  assert (Ht : truthy (VList fs) = true) by (destruct fs; [congruence|reflexivity]).
  rewrite Ht. cbn [iterate ok]. rewrite bind_lift_ok.
  destruct (add_missing_spec fs ls df w Hls)
    as (df' & Hv & Hs & He & Hcols & Hall & Hrows).
  exists df'. rewrite bind_eq, Hv. cbn [value after emitted ret].
  split; [reflexivity|]. split; [exact Hs|]. split; [exact Hcols|].
  split; [|exact Hrows].
  apply Forall_forall. intros a Ha. apply Hall. now right.
Qed.

(** A frame that is at least as wide as the target shape of rank 2, and
    no features: [conform_shape] returns the frame as it is and draws
    nothing; the number it reports is the difference of the widths, which
    is negative when the frame is wider. *)
Theorem conform_shape_of_wide_frame (df : DataFrame cell) (shape : list nat)
    (w : world) :
  length shape = 2 ->
  (last_dim shape <= Z.of_nat (length (df_columns df)))%Z ->
  conform_shape (PyFrame df) shape VNone w
  = mkOutcome
      (inr (PyFrame df,
            (last_dim shape - Z.of_nat (length (df_columns df)))%Z))
      w [].
Proof.
  intros Hl Hw. unfold conform_shape. rewrite Hl.
  cbn [Nat.ltb Nat.leb truthy].
  destruct (Z.ltb_spec 0
              (last_dim shape - Z.of_nat (length (df_columns df))))
    as [Hlt|Hge]; [lia|reflexivity].
Qed.

End ShapeFacts.

(** ** Layout of the result and keys of the registry *)

Section Layout.

Context {B : Backend}.

Lemma post_lift {A} (r : result A) (Q : A -> Prop) :
  (forall a, r = inr a -> Q a) -> post (lift r) Q.
Proof. intros H w. cbn. destruct r as [e|a]; [exact I|now apply H]. Qed.

Lemma post_weaken {A} (m : M A) (Q Q' : A -> Prop) :
  (forall a, Q a -> Q' a) -> post m Q -> post m Q'.
Proof.
  intros H Hm w. specialize (Hm w).
  destruct (value (m w)); [exact I|now apply H].
Qed.

Lemma broadcast_to_length (v : ndarray2 cell) n c rs :
  broadcast_to v n c = inr rs -> length rs = n.
Proof.
  unfold broadcast_to.
  assert (H : forall rs0 : list (list cell), length rs0 = n ->
    (if Nat.eqb (ncols v) c then ok rs0
     else if Nat.eqb (ncols v) 1
          then ok (map (fun r => repeat (hd nan r) c) rs0)
          else throw ValueError) = inr rs -> length rs = n).
  { intros rs0 Hl. destruct (Nat.eqb (ncols v) c).
    - intros E. injection E as <-. exact Hl.
    - destruct (Nat.eqb (ncols v) 1); [|discriminate].
      intros E. injection E as <-. now rewrite length_map. }
  destruct (Nat.eqb_spec (length (rows2 v)) n) as [Hn|Hn]; cbn [rbind ok].
  - now apply H.
  - destruct (Nat.eqb (length (rows2 v)) 1); cbn [rbind ok throw];
      [|discriminate].
    apply H. apply repeat_length.
Qed.

Lemma assign_step_shape (_data : ndarray3 cell) t v r :
  assign_step _data t v = inr r ->
  steps r = steps _data /\ width r = width _data /\
  length (cube r) = length (cube _data).
Proof.
  unfold assign_step.
  destruct (match v with
            | PyArray2 a => ok a
            | PyFrame df => ok (values df)
            | _ => throw ValueError
            end) as [e|a]; cbn [rbind]; [discriminate|].
  destruct (broadcast_to a (length (cube _data)) (width _data))
    as [e|rs] eqn:Hb; cbn [rbind ok]; [discriminate|].
  intros E. injection E as <-. cbn [steps width cube].
  split; [reflexivity|]. split; [reflexivity|].
  apply broadcast_to_length in Hb.
  transitivity (length rs); [|exact Hb].
  apply map2_length. now symmetry.
Qed.

Lemma post_fit_steps data feature_names transformation k ts :
  forall _data,
    post (fit_steps data feature_names transformation k ts _data)
      (fun r => steps r = steps _data /\ width r = width _data /\
                length (cube r) = length (cube _data)).
Proof.
  induction ts as [|t ts IH]; intros _data; cbn [fit_steps].
  - apply post_ret. repeat split.
  - eapply post_bind; [apply post_true|]. intros v _.
    eapply post_bind.
    + apply post_lift. intros r Hr. exact (assign_step_shape _ _ _ _ Hr).
    + intros r (H1 & H2 & H3). cbn beta.
      eapply post_weaken; [|apply IH].
      intros r' (H1' & H2' & H3'). cbn beta in *.
      rewrite H1', H2', H3'. repeat split; assumption.
Qed.

Lemma post_fit_list nms tr k xs :
  forall idx acc,
    post (fit_list nms tr k xs idx acc)
      (fun r => length r = length acc + length xs).
Proof.
  induction xs as [|x xs IH]; intros idx acc; cbn [fit_list].
  - apply post_ret. cbn. lia.
  - eapply post_bind; [apply post_true|]. intros n _.
    eapply post_bind; [apply post_true|]. intros t _.
    eapply post_bind; [apply post_true|]. intros r _.
    eapply post_weaken; [|apply IH].
    intros r'. cbn beta. rewrite length_app. cbn. lia.
Qed.

Lemma post_fit_dict nms tr k kvs :
  forall acc,
    NoDup (dict_keys acc ++ dict_keys kvs) ->
    post (fit_dict nms tr k kvs acc)
      (fun r => dict_keys r = (dict_keys acc ++ dict_keys kvs)%list).
Proof.
  induction kvs as [|[s x] kvs IH]; intros acc Hnd; cbn [fit_dict].
  - apply post_ret. cbn. now rewrite app_nil_r.
  - eapply post_bind; [apply post_true|]. intros n _.
    eapply post_bind; [apply post_true|]. intros t _.
    eapply post_bind; [apply post_true|]. intros r _.
    assert (Hfresh : ~ In s (dict_keys acc)).
    { cbn in Hnd. apply NoDup_remove_2 in Hnd. intros Hin. apply Hnd.
      apply in_or_app. now left. }
    eapply post_weaken; [|apply IH].
    + intros r'. cbn beta. rewrite (dict_set_fresh _ _ _ Hfresh).
      cbn. now rewrite <- app_assoc.
    + rewrite (dict_set_fresh _ _ _ Hfresh). cbn in Hnd.
      now rewrite <- app_assoc.
Qed.

Lemma post_fit_transform_top (data : pyobj cell) k :
  post (_fit_transform data k) (same_layout data).
Proof.
  unfold _fit_transform.
  eapply post_bind; [apply post_true|]. intros slf _.
  eapply post_bind; [apply post_true|]. intros numpy _.
  destruct numpy.
  - unfold __fit_transform.
    destruct data; try apply post_raise; try (apply post_true).
    eapply post_bind; [apply post_fit_steps|].
    intros r (H1 & H2 & H3). apply post_ret. cbn [same_layout].
    exists r. cbn in H1, H2, H3. cbn [np_full_nan steps width cube] in *.
    rewrite !repeat_length in H3. repeat split; assumption.
  - eapply post_bind; [apply post_true|]. intros list_ _.
    destruct list_.
    + destruct data; try apply post_raise.
      eapply post_bind; [apply post_fit_list|].
      intros r Hr. apply post_ret. exists r. split; [reflexivity|exact Hr].
    + destruct data; try apply post_raise.
      intros w.
      pose proof (fun Hnd => post_bind
                    (fit_dict (names slf) (transformation slf (PyDict kvs)) k kvs [])
                    (fun _data => ret (PyDict _data))
                    (fun r => dict_keys r = dict_keys kvs)
                    (fun out => exists outs, out = PyDict outs /\
                                  dict_keys outs = dict_keys kvs)
                    (post_fit_dict _ _ _ kvs [] Hnd)
                    (fun r Hr => post_ret (PyDict r) _
                                   (ex_intro _ r (conj eq_refl Hr))) w) as H.
      cbn [dict_keys map app] in H.
      destruct (value (bind (fit_dict (names slf)
                               (transformation slf (PyDict kvs)) k kvs [])
                         (fun _data => ret (PyDict _data)) w)) as [e|out];
        [exact I|].
      cbn [same_layout]. intros Hnd. apply H, Hnd.
Qed.

(** When [fit_transform] returns, a list has come back as a list with
    as many sources, a dictionary as a dictionary with the same source
    names in the same order, and a rank-3 array as a rank-3 array of the
    same shape. *)
Theorem fit_transform_keeps_layout (data out : pyobj cell) (w : world) :
  value (fit_transform data w) = inr out -> same_layout data out.
Proof.
  assert (Hid : same_layout data data).
  { destruct data; cbn [same_layout]; try exact I.
    - now exists xs.
    - intros _. now exists kvs.
    - exists a. repeat split. }
  assert (Hpost : post (fit_transform data) (same_layout data)).
  { unfold fit_transform.
    eapply post_bind; [apply post_true|]. intros slf _.
    assert (Hrest :
      post (bind (set_is_numpy_ false) (fun _ =>
            bind (set_is_list_ false) (fun _ =>
            bind (set_is_dict_ false) (fun _ =>
            bind (match data with
                  | PyArray2 _ | PyArray3 _ => set_is_numpy_ true
                  | PyList _ => set_is_list_ true
                  | PyDict _ => set_is_dict_ true
                  | _ => raise ValueError
                  end) (fun _ =>
            bind _check_features (fun _ =>
            bind (_fit_transform data "5") (fun data0 =>
            bind (lift (assert (String.eqb (class_name data0)
                                  (class_name data))))
              (fun _ => ret data0))))))))
        (same_layout data)).
    { eapply post_bind; [apply post_true|]. intros _ _.
      eapply post_bind; [apply post_true|]. intros _ _.
      eapply post_bind; [apply post_true|]. intros _ _.
      eapply post_bind; [apply post_true|]. intros _ _.
      eapply post_bind; [apply post_true|]. intros _ _.
      eapply post_bind; [apply post_fit_transform_top|]. intros data0 H0.
      eapply post_bind; [apply post_true|]. intros _ _.
      apply post_ret. exact H0. }
    destruct (config slf); try exact Hrest. apply post_ret. exact Hid. }
  intros Hv. specialize (Hpost w). now rewrite Hv in Hpost.
Qed.

End Layout.

Section KeyScheme.

Context {B : Backend}.

Lemma keys_lift_bind {A C} (r : result A) (f : A -> M C) w :
  registered (emitted (bind (lift r) f w))
  = match r with
    | inl _ => []
    | inr a => registered (emitted (f a w))
    end.
Proof. rewrite keys_bind. cbn. now destruct r. Qed.

(** One 2-D table under a method name: when the call returns, it has
    written the key it was given and no other. *)
Lemma keys_transform_2d_single data columns m k w out :
  m <> "" ->
  value (_transform_2d data columns (VStr m) k w) = inr out ->
  registered (emitted (_transform_2d data columns (VStr m) k w)) = [k].
Proof.
  intros Hm. unfold _transform_2d. rewrite (truthy_method m Hm).
  intros Hv. rewrite keys_bind.
  apply bind_ok_inv in Hv. destruct Hv as (r & Hr & _).
  assert (Hsil : silent
            (bind (bind (call_transformation data columns [("method", VStr m)])
                     (fun r0 => ret (PyFrame (fst r0),
                                     dict_set [] k (snd r0))))
               (fun r0 => bind (lift (dot_values (fst r0)))
                            (fun data0 => ret (data0, snd r0))))).
  { apply silent_bind.
    - apply silent_bind; [apply silent_call_transformation|].
      intros ?. apply silent_ret.
    - intros ?. apply silent_bind; [apply silent_lift|].
      intros ?. apply silent_ret. }
  rewrite Hsil, Hr. cbn [app].
  assert (Hkeys : dict_keys (snd r) = [k]).
  { apply bind_ok_inv in Hr. destruct Hr as (r0 & Hr0 & Hr).
    apply bind_ok_inv in Hr0. destruct Hr0 as (r1 & _ & Hr0).
    cbn in Hr0. injection Hr0 as <-.
    apply bind_ok_inv in Hr. destruct Hr as (d & _ & Hr).
    cbn in Hr. injection Hr as <-. reflexivity. }
  rewrite keys_bind, register_keys, register_value, Hkeys. reflexivity.
Qed.

Lemma keys_fit_steps_single data feature_names m k ts :
  m <> "" ->
  forall _data w out,
    value (fit_steps data feature_names (VStr m) k ts _data w) = inr out ->
    registered (emitted (fit_steps data feature_names (VStr m) k ts _data w))
    = map (fun t => fkey k (dec t)) ts.
Proof.
  intros Hm. induction ts as [|t ts IH]; intros _data w out Hv;
    cbn [fit_steps] in *; [reflexivity|].
  rewrite keys_bind.
  apply bind_ok_inv in Hv. destruct Hv as (v & Hv & Hrest).
  rewrite (keys_transform_2d_single _ _ _ _ _ _ Hm Hv), Hv.
  cbn [app map]. f_equal.
  apply bind_ok_inv in Hrest. destruct Hrest as (d & Hd & Hrest).
  cbn in Hd. rewrite keys_lift_bind.
  destruct (assign_step _data t v) as [e|d']; [discriminate|].
  injection Hd as <-. eapply IH, Hrest.
Qed.

Lemma keys_fit_source_single src feature_names m k w out :
  m <> "" ->
  value (__fit_transform src feature_names (VStr m) k w) = inr out ->
  registered (emitted (__fit_transform src feature_names (VStr m) k w))
  = source_keys k src.
Proof.
  intros Hm. unfold __fit_transform.
  destruct src as [| | | | | |a|a|df]; try discriminate.
  - apply keys_transform_2d_single, Hm.
  - intros Hv. apply bind_ok_inv in Hv. destruct Hv as (d & Hd & _).
    rewrite keys_bind, Hd. cbn [ret emitted registered flat_map].
    rewrite app_nil_r. eapply keys_fit_steps_single; eassumption.
  - apply keys_transform_2d_single, Hm.
Qed.

Lemma keys_fit_list_single nms tr m k xs :
  m <> "" ->
  (forall i t, getitem_int tr i = inr t -> t = VStr m) ->
  forall idx acc w out,
    value (fit_list nms tr k xs idx acc w) = inr out ->
    registered (emitted (fit_list nms tr k xs idx acc w))
    = flat_map (fun it => source_keys (fkey k (dec (fst it))) (snd it))
        (enumerate idx xs).
Proof.
  intros Hm Htr. induction xs as [|x xs IH]; intros idx acc w out Hv;
    cbn [fit_list enumerate flat_map] in *; [reflexivity|].
  rewrite keys_lift_bind.
  destruct (getitem_int nms idx) as [e|n]; [discriminate|].
  rewrite bind_lift_ok in Hv. rewrite keys_lift_bind.
  destruct (getitem_int tr idx) as [e|t] eqn:Ht; [discriminate|].
  rewrite bind_lift_ok in Hv.
  rewrite (Htr idx t Ht) in *.
  rewrite keys_bind.
  apply bind_ok_inv in Hv. destruct Hv as (r & Hr & Hrest).
  rewrite (keys_fit_source_single _ _ _ _ _ _ Hm Hr), Hr.
  cbn [fst snd]. f_equal. eapply IH, Hrest.
Qed.

Lemma keys_fit_dict_single nms tr m k (kvs : dict (pyobj cell)) :
  m <> "" ->
  (forall s t, getitem_str tr s = inr t -> t = VStr m) ->
  forall acc w out,
    value (fit_dict nms tr k kvs acc w) = inr out ->
    registered (emitted (fit_dict nms tr k kvs acc w))
    = flat_map (fun kv => source_keys (fkey k (fst kv)) (snd kv)) kvs.
Proof.
  intros Hm Htr. induction kvs as [|[s x] kvs IH]; intros acc w out Hv;
    cbn [fit_dict flat_map] in *; [reflexivity|].
  rewrite keys_lift_bind.
  destruct (getitem_str nms s) as [e|n]; [discriminate|].
  rewrite bind_lift_ok in Hv. rewrite keys_lift_bind.
  destruct (getitem_str tr s) as [e|t] eqn:Ht; [discriminate|].
  rewrite bind_lift_ok in Hv.
  rewrite (Htr s t Ht) in *.
  rewrite keys_bind.
  apply bind_ok_inv in Hv. destruct Hv as (r & Hr & Hrest).
  rewrite (keys_fit_source_single _ _ _ _ _ _ Hm Hr), Hr.
  cbn [fst snd]. f_equal. eapply IH, Hrest.
Qed.

Lemma getitem_repeat (v : pyval) n i t :
  getitem_int (VList (repeat v n)) i = inr t -> t = v.
Proof.
  cbn [getitem_int].
  destruct (nth_error (repeat v n) i) as [x|] eqn:Hn; [|discriminate].
  intros E. injection E as <-.
  apply nth_error_In in Hn. now apply repeat_spec in Hn.
Qed.

Lemma fold_set_get_inv {A} (c : A) keys :
  forall acc s t,
    (forall s' t', dict_get acc s' = Some t' -> t' = c) ->
    dict_get (fold_left (fun d k => dict_set d k c) keys acc) s = Some t ->
    t = c.
Proof.
  induction keys as [|k keys IH]; intros acc s t Hacc; cbn [fold_left].
  - apply Hacc.
  - apply IH. intros s' t'.
    destruct (String.eqb_spec s' k) as [->|Hne].
    + rewrite dict_get_set_same. intros E. now injection E.
    + rewrite dict_get_set_other by exact Hne. apply Hacc.
Qed.

Lemma keys_fit_transform_top_single (data : pyobj cell) m w out :
  m <> "" -> config (self w) = VStr m ->
  (is_numpy_ (self w) = Some true -> class_name data = "ndarray") ->
  value (_fit_transform data "5" w) = inr out ->
  registered (emitted (_fit_transform data "5" w)) = container_keys data.
Proof.
  intros Hm Hc Hnp. unfold _fit_transform. rewrite bind_get_self.
  destruct (is_numpy_ (self w)) as [[|]|]; cbn [attribute];
    [| |discriminate].
  - rewrite bind_ret.
    assert (Htr : transformation (self w) data = VStr m).
    { unfold transformation. rewrite Hc.
      specialize (Hnp eq_refl). destruct data; try reflexivity;
        discriminate Hnp. }
    rewrite Htr. intros Hv.
    rewrite (keys_fit_source_single _ _ _ _ _ _ Hm Hv).
    specialize (Hnp eq_refl). destruct data; try reflexivity;
      discriminate Hnp.
  - rewrite bind_ret.
    destruct (is_list_ (self w)) as [[|]|]; cbn [attribute];
      [| |discriminate].
    + rewrite bind_ret. destruct data; try discriminate.
      intros Hv. apply bind_ok_inv in Hv. destruct Hv as (r & Hr & _).
      rewrite keys_bind, Hr. cbn [ret emitted registered flat_map].
      rewrite app_nil_r. cbn [container_keys].
      eapply (keys_fit_list_single _ _ m); [exact Hm| |exact Hr].
      unfold transformation. rewrite Hc. intros i t. apply getitem_repeat.
    + rewrite bind_ret. destruct data; try discriminate.
      intros Hv. apply bind_ok_inv in Hv. destruct Hv as (r & Hr & _).
      rewrite keys_bind, Hr. cbn [ret emitted registered flat_map].
      rewrite app_nil_r. cbn [container_keys].
      eapply (keys_fit_dict_single _ _ m); [exact Hm| |exact Hr].
      unfold transformation. rewrite Hc. intros s t. cbn [getitem_str].
      unfold dict_item.
      destruct (dict_get _ s) as [t'|] eqn:Hg; [|discriminate].
      intros E. injection E as <-.
      eapply fold_set_get_inv; [|exact Hg]. intros s' t1. discriminate.
Qed.

Lemma bind_step {A C} (m : M A) (f : A -> M C) w a w1 :
  m w = mkOutcome (inr a) w1 [] -> bind m f w = f a w1.
Proof. intros H. unfold bind. rewrite H. cbn. apply outcome_eta. Qed.

Lemma set_is_numpy__step b w :
  set_is_numpy_ b w
  = mkOutcome (inr tt)
      (reflagged w (Some b) (is_list_ (self w)) (is_dict_ (self w))) [].
Proof. reflexivity. Qed.

Lemma set_is_list__step b w :
  set_is_list_ b w
  = mkOutcome (inr tt)
      (reflagged w (is_numpy_ (self w)) (Some b) (is_dict_ (self w))) [].
Proof. reflexivity. Qed.

Lemma set_is_dict__step b w :
  set_is_dict_ b w
  = mkOutcome (inr tt)
      (reflagged w (is_numpy_ (self w)) (is_list_ (self w)) (Some b)) [].
Proof. reflexivity. Qed.

Lemma settings_config (w w' : world) :
  settings w' = settings w -> config (self w') = config (self w).
Proof. unfold settings. intros H. now injection H. Qed.

Lemma keys_after_flags (data : pyobj cell) m w out :
  m <> "" -> config (self w) = VStr m ->
  (is_numpy_ (self w) = Some true -> class_name data = "ndarray") ->
  value (bind _check_features (fun _ =>
         bind (_fit_transform data "5") (fun data0 =>
         bind (lift (assert (String.eqb (class_name data0)
                               (class_name data))))
           (fun _ => ret data0))) w) = inr out ->
  registered (emitted
    (bind _check_features (fun _ =>
     bind (_fit_transform data "5") (fun data0 =>
     bind (lift (assert (String.eqb (class_name data0) (class_name data))))
       (fun _ => ret data0))) w))
  = container_keys data.
Proof.
  intros Hm Hc Hnp Hv.
  rewrite keys_bind, silent_check_features. cbn [app].
  apply bind_ok_inv in Hv. destruct Hv as (u & Hu & Hv). rewrite Hu.
  pose proof (respects_check_features same_settings same_settings_refl
                same_settings_trans w) as Hs.
  set (w1 := after (_check_features w)) in *.
  pose proof (settings_config _ _ Hs) as Hc'.
  destruct (settings_flags _ _ Hs) as (Hf & _ & _).
  rewrite keys_bind.
  apply bind_ok_inv in Hv. destruct Hv as (data0 & Hd & Hv).
  rewrite Hd.
  assert (Hsil : silent
            (bind (lift (assert (String.eqb (class_name data0)
                                   (class_name data))))
               (fun _ => ret data0))).
  { apply silent_bind; [apply silent_lift|]. intros ?. apply silent_ret. }
  rewrite Hsil, app_nil_r.
  apply (keys_fit_transform_top_single data m w1 data0 Hm).
  - now rewrite Hc'.
  - rewrite Hf. exact Hnp.
  - exact Hd.
Qed.

(** The keys of the registry under a single method name.  When
    [fit_transform] returns, it has written, in this order: the key [5]
    for a 2-D array; the keys [5_0], [5_1], ... for the time steps of a
    rank-3 array; for the source at position [i] of a list the keys of
    that source with [5_i] in place of [5]; for the source named [s] of a
    dictionary the keys of that source with [5_s] in place of [5]. *)
Theorem fit_transform_key_scheme (data out : pyobj cell) (m : string)
    (w : world) :
  m <> "" -> config (self w) = VStr m ->
  value (fit_transform data w) = inr out ->
  registered (emitted (fit_transform data w)) = container_keys data.
Proof.
  intros Hm Hc. unfold fit_transform. rewrite bind_get_self, Hc.
  rewrite (bind_step _ _ _ _ _ (set_is_numpy__step false w)).
  rewrite (bind_step _ _ _ _ _ (set_is_list__step false _)).
  rewrite (bind_step _ _ _ _ _ (set_is_dict__step false _)).
  cbn [reflagged self is_numpy_ is_list_ is_dict_ names config scalers
       np_random].
  destruct data; try discriminate.
  - rewrite (bind_step _ _ _ _ _ (set_is_list__step true _)).
    apply (keys_after_flags _ m); [exact Hm|exact Hc|discriminate].
  - rewrite (bind_step _ _ _ _ _ (set_is_dict__step true _)).
    apply (keys_after_flags _ m); [exact Hm|exact Hc|discriminate].
  - rewrite (bind_step _ _ _ _ _ (set_is_numpy__step true _)).
    apply (keys_after_flags _ m); [exact Hm|exact Hc|reflexivity].
  - rewrite (bind_step _ _ _ _ _ (set_is_numpy__step true _)).
    apply (keys_after_flags _ m); [exact Hm|exact Hc|reflexivity].
Qed.

End KeyScheme.

(** ** Round trip under a list of methods *)

Section Chain.

Context {B : Backend}.

Lemma label_eqb_eq a b : label_eqb a b = true -> a = b.
Proof.
  destruct a, b; cbn; try discriminate; intros H.
  - reflexivity.
  - apply Z.eqb_eq in H. now subst.
  - apply String.eqb_eq in H. now subst.
Qed.

Lemma index_of_app_fresh a pre ls :
  label_in a pre = false ->
  index_of a (pre ++ a :: ls) = Some (length pre).
Proof.
  induction pre as [|b pre IH]; cbn [app index_of length label_in existsb].
  - intros _. now rewrite label_eqb_refl.
  - intros H. apply orb_false_iff in H. destruct H as [Hab Hpre].
    rewrite Hab. fold (label_in a pre) in Hpre. now rewrite (IH Hpre).
Qed.

Lemma nodup_labels_app pre a ls :
  nodup_labels (pre ++ a :: ls) = true ->
  label_in a pre = false /\ nodup_labels ((pre ++ [a]) ++ ls) = true.
Proof.
  intros H. split.
  - induction pre as [|b pre IH]; [reflexivity|].
    cbn [app nodup_labels] in H. apply andb_true_iff in H.
    destruct H as [Hb Hrest]. cbn [label_in existsb].
    fold (label_in a pre). rewrite (IH Hrest), orb_false_r.
    apply negb_true_iff in Hb. rewrite label_in_app in Hb.
    apply orb_false_iff in Hb. destruct Hb as [_ Hb].
    cbn [label_in existsb] in Hb. apply orb_false_iff in Hb.
    destruct Hb as [Hba _].
    destruct (label_eqb a b) eqn:Hab; [|reflexivity].
    apply label_eqb_eq in Hab. subst. now rewrite label_eqb_refl in Hba.
  - now rewrite <- app_assoc.
Qed.

Lemma reindex_suffix ls : forall pre (row_pre row : list cell),
  nodup_labels (pre ++ ls) = true ->
  length row_pre = length pre -> length row = length ls ->
  map (fun a => match index_of a (pre ++ ls) with
                | Some i => nth i (row_pre ++ row) nan
                | None => nan
                end) ls = row.
Proof.
  induction ls as [|a ls IH]; intros pre row_pre row Hnd Hp Hr.
  - destruct row; [reflexivity|discriminate].
  - destruct row as [|x row]; [discriminate|]. cbn [map].
    destruct (nodup_labels_app pre a ls Hnd) as [Hfresh Hnd'].
    rewrite (index_of_app_fresh a pre ls Hfresh).
    rewrite app_nth2 by lia. rewrite Hp, Nat.sub_diag. cbn [nth]. f_equal.
    specialize (IH (pre ++ [a])%list (row_pre ++ [x])%list row Hnd').
    rewrite <- !app_assoc in IH. cbn [app] in IH. apply IH.
    + rewrite !length_app. cbn. lia.
    + now injection Hr.
Qed.

Lemma reindex_same ls (rs : list (list cell)) :
  nodup_labels ls = true -> rectangular (length ls) rs ->
  map (reindex_row ls ls) rs = rs.
Proof.
  intros Hnd Hr. induction Hr as [|r rs Hlen Hr IH]; cbn [map];
    [reflexivity|].
  rewrite IH. f_equal. unfold reindex_row.
  apply (reindex_suffix ls [] [] r Hnd eq_refl Hlen).
Qed.

Lemma pd_DataFrame_frame xs ls (rs : list (list cell)) :
  labels_of_list xs = inr ls -> nodup_labels ls = true ->
  rectangular (length ls) rs ->
  pd_DataFrame (PyFrame (mkFrame ls rs)) (VList xs) = inr (mkFrame ls rs).
Proof.
  intros Hl Hnd Hr. unfold pd_DataFrame. cbn [labels_of]. rewrite Hl.
  cbn [rbind df_columns df_rows]. rewrite Hnd.
  now rewrite (reindex_same ls rs Hnd Hr).
Qed.

Lemma runs_call_transformation_frame data xs (df : DataFrame cell) m r w :
  pd_DataFrame data (VList xs) = inr df ->
  Transformation_transform (method_kwargs m) df = inr r ->
  runs (call_transformation data (VList xs) [("method", VStr m)]) w r w.
Proof.
  intros Hdf Ht. unfold call_transformation.
  eapply runs_bind; [apply runs_lift, Hdf|].
  change (dict_mem [("method", VStr m)] "data") with false. cbn iota.
  eapply runs_bind; [apply runs_emit|]. apply runs_lift. exact Ht.
Qed.

(** One step of the inverse loop for a method name. *)
Lemma inverse_list_step columns k idx m rest (d : DataFrame cell) w :
  value (inverse_list columns k ((idx, VStr m) :: rest) d w)
  = match dict_get (scalers (self w)) (list_key k m idx) with
    | None => inl (KeyError (list_key k m idx))
    | Some e =>
        match Transformation_inverse (method_kwargs m) (scaler e) d with
        | inl err => inl err
        | inr d' => value (inverse_list columns k rest d' w)
        end
    end.
Proof.
  cbn [inverse_list]. rewrite bind_get_self. unfold dict_item.
  destruct (dict_get (scalers (self w)) (list_key k m idx)) as [e|];
    [|reflexivity].
  rewrite bind_lift_ok, bind_eq. fold (method_kwargs m).
  destruct (call_inverse_events d m (scaler e) w) as [Haft _].
  assert (Hval : value (call_inverse d (method_kwargs m) (scaler e) w)
                 = Transformation_inverse (method_kwargs m) (scaler e) d).
  { unfold call_inverse.
    change (dict_mem (method_kwargs m) "data") with false. cbn iota.
    rewrite bind_emit. reflexivity. }
  rewrite Hval, Haft.
  destruct (Transformation_inverse (method_kwargs m) (scaler e) d);
    reflexivity.
Qed.

Lemma inverse_list_names_app columns k (its1 its2 : list (nat * string)) :
  forall (d : DataFrame cell) w,
    value (inverse_list columns k
             (map (fun it => (fst it, VStr (snd it))) (its1 ++ its2)) d w)
    = match value (inverse_list columns k
                     (map (fun it => (fst it, VStr (snd it))) its1) d w) with
      | inl e => inl e
      | inr d' =>
          value (inverse_list columns k
                   (map (fun it => (fst it, VStr (snd it))) its2) d' w)
      end.
Proof.
  induction its1 as [|[idx m] its1 IH]; intros d w.
  - reflexivity.
  - cbn [app map fst snd]. rewrite !inverse_list_step.
    destruct (dict_get (scalers (self w)) (list_key k m idx)) as [e|];
      [|reflexivity].
    destruct (Transformation_inverse (method_kwargs m) (scaler e) d)
      as [err|d']; [reflexivity|].
    apply IH.
Qed.

Section OneSource.

Variable xs : list pyval.
Variable ls : list label.
Variable k : string.

Hypothesis Hls : labels_of_list xs = inr ls.
Hypothesis Hnd : nodup_labels ls = true.

(** The forward loop over method names that lose nothing, and what the
    inverse loop makes of its result in any world whose registry holds the
    scalers of the loop under their keys. *)
Lemma method_chain ms : forall idx rs data acc w,
  Forall (exact_method ls) ms ->
  rectangular (length ls) rs ->
  pd_DataFrame data (VList xs) = inr (mkFrame ls rs) ->
  NoDup (dict_keys acc) ->
  exists rs' acc',
    runs (transform_list (VList xs) k (map VStr ms) idx data acc) w
      (match ms with [] => data | _ => PyFrame (mkFrame ls rs') end, acc') w /\
    rectangular (length ls) rs' /\
    NoDup (dict_keys acc') /\
    (forall m' i, i < idx ->
       dict_get acc' (list_key k m' i) = dict_get acc (list_key k m' i)) /\
    (forall it, In it (enumerate idx ms) ->
       exists e, dict_get acc' (key_of_entry k it) = Some e) /\
    (forall w',
       (forall it, In it (enumerate idx ms) ->
          dict_get (scalers (self w')) (key_of_entry k it)
          = dict_get acc' (key_of_entry k it)) ->
       value (inverse_list (VList xs) k
                (map (fun it => (fst it, VStr (snd it)))
                   (List.rev (enumerate idx ms)))
                (mkFrame ls rs') w')
       = inr (mkFrame ls rs)).
Proof.
  induction ms as [|m ms IH]; intros idx rs data acc w Hex Hrect Hdf Hacc.
  - exists rs, acc. cbn [map transform_list enumerate List.rev].
    split; [apply runs_ret|]. split; [exact Hrect|]. split; [exact Hacc|].
    split; [reflexivity|]. split; [intros it []|].
    intros w' _. reflexivity.
  - inversion Hex as [|? ? Hm Hex']; subst.
    destruct (Hm rs Hrect) as (rs1 & e1 & Ht & Hrect1 & Hinv1).
    set (acc1 := dict_set acc (list_key k m idx) e1).
    destruct (IH (S idx) rs1 (PyFrame (mkFrame ls rs1)) acc1 w Hex' Hrect1
                (pd_DataFrame_frame xs ls rs1 Hls Hnd Hrect1)
                (SpaceFacts.dict_set_NoDup acc _ e1 Hacc))
      as (rs' & acc' & Hrun & Hrect' & Hnd' & Hold & Hnew & Hback).
    exists (match ms with [] => rs1 | _ => rs' end), acc'.
    assert (Hkey : dict_get acc' (list_key k m idx) = Some e1).
    { rewrite (Hold m idx (Nat.lt_succ_diag_r idx)). unfold acc1.
      apply dict_get_set_same. }
    split; [|split; [|split; [|split; [|split]]]].
    + cbn [map transform_list].
      eapply runs_bind.
      * eapply runs_call_transformation_frame; [exact Hdf|exact Ht].
      * cbn [fst snd]. fold acc1.
        destruct ms; [|exact Hrun].
        cbn [map transform_list] in *. exact Hrun.
    + destruct ms; assumption.
    + exact Hnd'.
    + intros m' i Hi. rewrite (Hold m' i) by lia. unfold acc1.
      apply dict_get_set_other. intros Heq.
      apply list_key_inj in Heq. lia.
    + intros it [<-|Hin].
      * exists e1. exact Hkey.
      * apply Hnew, Hin.
    + intros w' Hag. cbn [enumerate List.rev].
      rewrite inverse_list_names_app.
      assert (Hrest : value (inverse_list (VList xs) k
                 (map (fun it => (fst it, VStr (snd it)))
                    (List.rev (enumerate (S idx) ms)))
                 (mkFrame ls (match ms with [] => rs1 | _ => rs' end)) w')
               = inr (mkFrame ls rs1)).
      { destruct ms as [|m2 ms2]; [reflexivity|].
        apply Hback. intros it Hin. apply Hag. now right. }
      rewrite Hrest. cbn [map fst snd]. rewrite inverse_list_step.
      pose proof (Hag (idx, m) (or_introl eq_refl)) as Hk.
      unfold key_of_entry in Hk. cbn [fst snd] in Hk.
      rewrite Hk, Hkey, Hinv1. reflexivity.
Qed.

Lemma register_other (d : dict (ScalerEntry fitted)) : forall w x,
  ~ In x (dict_keys d) ->
  dict_get (scalers (self (after (register d w)))) x
  = dict_get (scalers (self w)) x.
Proof.
  induction d as [|[k0 e0] d IH]; intros w x Hx; cbn [register].
  - reflexivity.
  - rewrite bind_get_self, bind_set_self, bind_emit. cbn [after].
    rewrite IH.
    + cbn [self scalers]. apply dict_get_set_other.
      intros ->. apply Hx. now left.
    + intros Hin. apply Hx. now right.
Qed.

(** After [self.scalers.update(d)] the registry holds the entries of
    [d]. *)
Lemma register_get (d : dict (ScalerEntry fitted)) : forall w x e,
  NoDup (dict_keys d) -> dict_get d x = Some e ->
  dict_get (scalers (self (after (register d w)))) x = Some e.
Proof.
  induction d as [|[k0 e0] d IH]; intros w x e Hnodup Hget;
    [discriminate|].
  cbn [register]. rewrite bind_get_self, bind_set_self, bind_emit.
  cbn [after]. cbn [dict_keys map fst] in Hnodup.
  inversion Hnodup as [|? ? Hfresh Hnodup']; subst.
  cbn [dict_get] in Hget.
  destruct (String.eqb_spec x k0) as [->|Hne].
  - injection Hget as <-. rewrite register_other by exact Hfresh.
    cbn [self scalers]. apply dict_get_set_same.
  - now apply IH.
Qed.

(** One 2-D array under a list of method names that lose nothing. *)
Lemma transform_2d_chain (a : ndarray2 cell) ms w :
  Forall (exact_method ls) ms ->
  ncols a = length ls -> rectangular (ncols a) (rows2 a) ->
  exists out w1,
    runs (_transform_2d (PyArray2 a) (VList xs) (method_list ms) k) w out w1 /\
    (exists a', out = PyArray2 a') /\
    settings w1 = settings w /\
    value (_inverse_transform_2d out (VList xs) k (method_list ms) w1)
    = inr (PyFrame (mkFrame ls (rows2 a))).
Proof.
  intros Hex Hn Hrect. rewrite Hn in Hrect.
  destruct (method_chain ms 0 (rows2 a) (PyArray2 a) [] w Hex Hrect
              (pd_DataFrame_array a xs ls Hls Hn) (NoDup_nil _))
    as (rs' & acc' & Hrun & Hrect' & Hnd' & _ & Hnew & Hback).
  assert (Hinv : forall out w1,
    pd_DataFrame out (VList xs) = inr (mkFrame ls rs') ->
    (forall it, In it (enumerate 0 ms) ->
       dict_get (scalers (self w1)) (key_of_entry k it)
       = dict_get acc' (key_of_entry k it)) ->
    value (_inverse_transform_2d out (VList xs) k (method_list ms) w1)
    = inr (PyFrame (mkFrame ls (rows2 a)))).
  { intros out w1 Hdf Hag. unfold _inverse_transform_2d, method_list.
    rewrite Hdf, bind_lift_ok, enumerate_map, <- map_rev.
    rewrite (value_bind _ _ _ _ (Hback w1 Hag)). reflexivity. }
  destruct ms as [|m ms].
  - exists (PyArray2 a), w. split; [|split; [now exists a|split;
                                       [reflexivity|]]].
    + unfold _transform_2d, method_list. cbn [map truthy].
      eapply runs_bind; [apply runs_ret|]. cbn [fst snd register].
      eapply runs_bind; apply runs_ret.
    + assert (Hrs : rs' = rows2 a).
      { cbn [map transform_list] in Hrun. destruct Hrun as [Hv _].
        specialize (Hback w (fun it (H : In it []) => match H with end)).
        cbn in Hback. now injection Hback. }
      apply Hinv; [|intros it []].
      rewrite Hrs. apply (pd_DataFrame_array a xs ls Hls Hn).
  - exists (PyArray2 (values (mkFrame ls rs'))), (after (register acc' w)).
    split; [|split; [eexists; reflexivity|split]].
    + unfold _transform_2d, method_list.
      change (truthy (VList (map VStr (m :: ms)))) with true. cbn iota.
      eapply runs_bind.
      * eapply runs_bind; [exact Hrun|]. cbn [fst snd].
        eapply runs_bind; [apply runs_lift; reflexivity|apply runs_ret].
      * cbn [fst snd].
        eapply runs_bind; [|apply runs_ret].
        split; [apply register_value|reflexivity].
    + apply keeps_register.
    + apply Hinv.
      * apply (pd_DataFrame_array (values (mkFrame ls rs')) xs ls Hls).
        reflexivity.
      * intros it Hin. destruct (Hnew it Hin) as [e He].
        rewrite He. now apply register_get.
Qed.

End OneSource.

(** Round trip of a 2-D array under a list of method names.  The
    feature names are distinct and as many as the columns, and every
    method of the list loses nothing on tables with these columns.  Then
    [fit_transform] returns an array, and [inverse_transform] of that
    array, on the same instance, returns the cells of the array that was
    given (in a frame, see C4), whatever the registry held before. *)
Theorem list_round_trip (a : ndarray2 cell) (xs : list pyval)
    (ls : list label) (ms : list string) (w : world) :
  config (self w) = method_list ms ->
  names (self w) = VList xs ->
  labels_of_list xs = inr ls ->
  nodup_labels ls = true ->
  ncols a = length ls ->
  rectangular (ncols a) (rows2 a) ->
  Forall (exact_method ls) ms ->
  exists out,
    value (fit_transform (PyArray2 a) w) = inr out /\
    class_name out = "ndarray" /\
    value (inverse_transform out (after (fit_transform (PyArray2 a) w)))
    = inr (PyFrame (mkFrame ls (rows2 a))).
Proof.
  intros Hc Hn Hls Hnd Hcols Hrect Hex.
  set (w4 := flagged w true false false).
  destruct (transform_2d_chain xs ls "5" Hls Hnd a ms w4 Hex Hcols Hrect)
    as (out & w1 & Hrun & [a' ->] & Hset & Hinv).
  set (out := PyArray2 a') in *.
  assert (Hcl : class_name out = "ndarray") by reflexivity.
  assert (Hfit : runs (fit_transform (PyArray2 a)) w out w1).
  { unfold fit_transform.
    eapply runs_bind; [apply runs_get_self|]. rewrite Hc.
    unfold method_list at 1. cbn iota.
    eapply runs_bind; [apply runs_set_is_numpy_|].
    eapply runs_bind; [apply runs_set_is_list_|].
    eapply runs_bind; [apply runs_set_is_dict_|].
    eapply runs_bind; [apply runs_set_is_numpy_|].
    eapply runs_bind.
    { apply (runs_check_array w4); [reflexivity|].
      cbn [w4 flagged self names]. now rewrite Hn. }
    eapply runs_bind.
    { unfold _fit_transform.
      eapply runs_bind; [apply runs_get_self|].
      eapply runs_bind; [apply runs_attribute; reflexivity|]. cbn iota.
      cbn [__fit_transform transformation w4 flagged self names config].
      rewrite Hc, Hn. exact Hrun. }
    apply runs_finish. exact Hcl. }
  exists out. destruct Hfit as [Hv Ha]. rewrite Ha.
  split; [exact Hv|]. split; [exact Hcl|].
  unfold settings in Hset. injection Hset as Hn1 Hc1 Hf1 _ _.
  unfold inverse_transform, _inverse_transform.
  rewrite bind_get_self, Hf1. cbn [w4 flagged self is_numpy_ attribute].
  rewrite bind_ret. cbn iota.
  assert (Htr : transformation (self w1) out = method_list ms).
  { unfold transformation. rewrite Hc1. cbn [w4 flagged self config].
    now rewrite Hc. }
  rewrite Htr, Hn1. cbn [w4 flagged self names]. rewrite Hn.
  exact Hinv.
Qed.

End Chain.

(** Every method of the toy backend loses nothing: it negates, and
    negating twice gives the cells back. *)
Lemma toy_negate_twice (x : Toy.num) : Toy.negate (Toy.negate x) = x.
Proof.
  destruct x as [|[n d]]; [reflexivity|].
  unfold Toy.negate, Qopp. cbn [Qnum Qden]. now rewrite Z.opp_involutive.
Qed.

Lemma toy_methods_exact (ls : list label) (m : string) :
  @exact_method Toy.backend ls m.
Proof.
  intros rs Hr.
  exists (map (map Toy.negate) rs),
         (mkEntry m [length rs; length ls] m).
  split; [reflexivity|]. split.
  - unfold rectangular in *. apply Forall_map.
    eapply Forall_impl; [|exact Hr]. intros r Hlen. cbn beta.
    now rewrite length_map.
  - assert (Hrows : map (map Toy.negate) (map (map Toy.negate) rs) = rs).
    { rewrite map_map. rewrite <- (map_id rs) at 2. apply map_ext.
      intros r. rewrite map_map. rewrite <- (map_id r) at 2.
      apply map_ext. apply toy_negate_twice. }
    cbn. unfold Toy.inverse, Toy.negate_frame. cbn [df_columns df_rows ok].
    now rewrite Hrows.
Qed.

(** ** Names and specs of the sources *)

Section Sources.

Context {B : Backend}.

Lemma fit_list_needs nms tr k xs : forall idx acc w r,
  value (fit_list nms tr k xs idx acc w) = inr r ->
  forall i, idx <= i < idx + length xs ->
    (exists n, getitem_int nms i = inr n) /\
    (exists t, getitem_int tr i = inr t).
Proof.
  induction xs as [|x xs IH]; intros idx acc w r Hv i Hi;
    cbn [fit_list length] in *; [lia|].
  destruct (getitem_int nms idx) as [e|n] eqn:Hn; [discriminate|].
  rewrite bind_lift_ok in Hv.
  destruct (getitem_int tr idx) as [e|t] eqn:Ht; [discriminate|].
  rewrite bind_lift_ok in Hv.
  apply bind_ok_inv in Hv. destruct Hv as (out & _ & Hv).
  destruct (Nat.eq_dec i idx) as [->|Hne].
  - split; [now exists n|now exists t].
  - eapply IH; [exact Hv|lia].
Qed.

Lemma fit_dict_needs nms tr k (kvs : dict (pyobj cell)) : forall acc w r,
  value (fit_dict nms tr k kvs acc w) = inr r ->
  forall s, In s (dict_keys kvs) ->
    (exists n, getitem_str nms s = inr n) /\
    (exists t, getitem_str tr s = inr t).
Proof.
  induction kvs as [|[s0 x] kvs IH]; intros acc w r Hv s Hs;
    cbn [fit_dict dict_keys map fst] in *; [destruct Hs|].
  destruct (getitem_str nms s0) as [e|n] eqn:Hn; [discriminate|].
  rewrite bind_lift_ok in Hv.
  destruct (getitem_str tr s0) as [e|t] eqn:Ht; [discriminate|].
  rewrite bind_lift_ok in Hv.
  apply bind_ok_inv in Hv. destruct Hv as (out & _ & Hv).
  destruct Hs as [<-|Hs].
  - split; [now exists n|now exists t].
  - eapply IH; [exact Hv|exact Hs].
Qed.

Lemma getitem_int_bound l i (v : pyval) :
  getitem_int (VList l) i = inr v -> i < length l.
Proof.
  cbn [getitem_int].
  destruct (nth_error l i) eqn:Hn; [|discriminate].
  intros _. apply nth_error_Some. congruence.
Qed.

Lemma getitem_str_key d s (v : pyval) :
  getitem_str (VDict d) s = inr v -> In s (dict_keys d).
Proof.
  cbn [getitem_str]. unfold dict_item.
  destruct (dict_get d s) eqn:Hg; [|discriminate].
  intros _. apply SpaceFacts.dict_mem_keys. unfold dict_mem. now rewrite Hg.
Qed.

Lemma sources_after_flags (data out : pyobj cell) w :
  value (bind _check_features (fun _ =>
         bind (_fit_transform data "5") (fun data0 =>
         bind (lift (assert (String.eqb (class_name data0)
                               (class_name data))))
           (fun _ => ret data0))) w) = inr out ->
  match data with
  | PyList xs =>
      is_numpy_ (self w) = Some false -> is_list_ (self w) = Some true ->
      forall i, i < length xs ->
        (exists n, getitem_int (names (self w)) i = inr n) /\
        (exists t, getitem_int (transformation (self w) data) i = inr t)
  | PyDict kvs =>
      is_numpy_ (self w) = Some false -> is_list_ (self w) = Some false ->
      forall s, In s (dict_keys kvs) ->
        (exists n, getitem_str (names (self w)) s = inr n) /\
        (exists t, getitem_str (transformation (self w) data) s = inr t)
  | _ => True
  end.
Proof.
  intros Hv.
  apply bind_ok_inv in Hv. destruct Hv as (u & _ & Hv).
  pose proof (respects_check_features same_settings same_settings_refl
                same_settings_trans w) as Hs.
  set (w1 := after (_check_features w)) in *.
  unfold same_settings in Hs.
  destruct (settings_flags _ _ Hs) as (Hf1 & Hf2 & _).
  pose proof (settings_config _ _ Hs) as Hc.
  assert (Hn : names (self w1) = names (self w)).
  { unfold settings in Hs. now injection Hs. }
  assert (Htr : transformation (self w1) data = transformation (self w) data).
  { unfold transformation. now rewrite Hc. }
  apply bind_ok_inv in Hv. destruct Hv as (data0 & Hd & _).
  unfold _fit_transform in Hd. rewrite bind_get_self, Hf1, Hn, Htr in Hd.
  destruct data as [| | | |xs|kvs| | |]; try exact I.
  - intros Hnp Hli i Hi. rewrite Hnp in Hd. cbn [attribute] in Hd.
    rewrite bind_ret, Hf2, Hli in Hd. cbn [attribute] in Hd.
    rewrite bind_ret in Hd.
    apply bind_ok_inv in Hd. destruct Hd as (r & Hr & _).
    eapply fit_list_needs; [exact Hr|lia].
  - intros Hnp Hli s Hs'. rewrite Hnp in Hd. cbn [attribute] in Hd.
    rewrite bind_ret, Hf2, Hli in Hd. cbn [attribute] in Hd.
    rewrite bind_ret in Hd.
    apply bind_ok_inv in Hd. destruct Hd as (r & Hr & _).
    eapply fit_dict_needs; [exact Hr|exact Hs'].
Qed.

(** [fit_transform] returns only if every source has its feature names
    and its spec: for a list of sources, a list of feature names and a
    list as config are at least as long as the data; for a dictionary of
    sources, a dictionary of feature names and a dictionary as config have
    every source name among their keys. *)
Theorem fit_transform_needs_every_source (data out : pyobj cell) (w : world) :
  config (self w) <> VNone ->
  value (fit_transform data w) = inr out ->
  (forall xs ns, data = PyList xs -> names (self w) = VList ns ->
                 length xs <= length ns) /\
  (forall xs cs, data = PyList xs -> config (self w) = VList cs ->
                 length xs <= length cs) /\
  (forall kvs nd, data = PyDict kvs -> names (self w) = VDict nd ->
                  incl (dict_keys kvs) (dict_keys nd)) /\
  (forall kvs cd, data = PyDict kvs -> config (self w) = VDict cd ->
                  incl (dict_keys kvs) (dict_keys cd)).
Proof.
  intros Hc Hv.
  assert (Hlist : forall xs, data = PyList xs ->
    forall i, i < length xs ->
      (exists n, getitem_int (names (self w)) i = inr n) /\
      (exists t, getitem_int (transformation (self w) data) i = inr t)).
  { intros xs ->. unfold fit_transform in Hv. rewrite bind_get_self in Hv.
    destruct (config (self w)) eqn:Hcfg; try (exfalso; apply Hc; reflexivity);
      rewrite (bind_step _ _ _ _ _ (set_is_numpy__step false w)) in Hv;
      rewrite (bind_step _ _ _ _ _ (set_is_list__step false _)) in Hv;
      rewrite (bind_step _ _ _ _ _ (set_is_dict__step false _)) in Hv;
      rewrite (bind_step _ _ _ _ _ (set_is_list__step true _)) in Hv;
      pose proof (sources_after_flags _ _ _ Hv) as H; cbn beta iota in H;
      specialize (H eq_refl eq_refl);
      unfold transformation in H |- *;
      cbn [reflagged self names config] in H; rewrite Hcfg in *; exact H. }
  assert (Hdict : forall kvs, data = PyDict kvs ->
    forall s, In s (dict_keys kvs) ->
      (exists n, getitem_str (names (self w)) s = inr n) /\
      (exists t, getitem_str (transformation (self w) data) s = inr t)).
  { intros kvs ->. unfold fit_transform in Hv. rewrite bind_get_self in Hv.
    destruct (config (self w)) eqn:Hcfg; try (exfalso; apply Hc; reflexivity);
      rewrite (bind_step _ _ _ _ _ (set_is_numpy__step false w)) in Hv;
      rewrite (bind_step _ _ _ _ _ (set_is_list__step false _)) in Hv;
      rewrite (bind_step _ _ _ _ _ (set_is_dict__step false _)) in Hv;
      rewrite (bind_step _ _ _ _ _ (set_is_dict__step true _)) in Hv;
      pose proof (sources_after_flags _ _ _ Hv) as H; cbn beta iota in H;
      specialize (H eq_refl eq_refl);
      unfold transformation in H |- *;
      cbn [reflagged self names config] in H; rewrite Hcfg in *; exact H. }
  assert (Hlen : forall (xs : list (pyobj cell)) l,
    (forall i, i < length xs -> exists v : pyval, getitem_int (VList l) i = inr v) ->
    length xs <= length l).
  { intros xs l H. destruct xs as [|x xs]; [cbn; lia|].
    destruct (H (length xs)) as [v Hv']; [cbn; lia|].
    apply getitem_int_bound in Hv'. cbn. lia. }
  split; [|split; [|split]].
  - intros xs ns Hd Hn. apply Hlen. intros i Hi.
    destruct (Hlist xs Hd i Hi) as [H _]. now rewrite Hn in H.
  - intros xs cs Hd Hcs. apply Hlen. intros i Hi.
    destruct (Hlist xs Hd i Hi) as [_ H]. subst data.
    unfold transformation in H. now rewrite Hcs in H.
  - intros kvs nd Hd Hn s Hs.
    destruct (Hdict kvs Hd s Hs) as [[n H] _]. rewrite Hn in H.
    eapply getitem_str_key, H.
  - intros kvs cd Hd Hcd s Hs.
    destruct (Hdict kvs Hd s Hs) as [_ [t H]]. subst data.
    unfold transformation in H. rewrite Hcd in H.
    eapply getitem_str_key, H.
Qed.

End Sources.

(** ** The update of the config and the forward pass together *)

Section Composition.

Context {B : Backend}.

Import Update UpdateNotions.

Lemma descriptor_shape feature method d :
  descriptor feature method = ok d ->
  exists m, method = VStr m /\
            dict_get d "method" = Some (VStr m) /\
            dict_mem d "data" = false.
Proof.
  unfold descriptor. destruct method as [| | |m| |]; try discriminate.
  intros H. exists m. split; [reflexivity|].
  destruct (String.prefix "log" m);
    [|destruct (str_in m ["box-cox"; "yeo-johnson"; "power"]);
      [|destruct (String.eqb m "sqrt")]];
    injection H as <-; split; reflexivity.
Qed.

Lemma silent_getitem_bind {C} (r : result pyval) (f : pyval -> M C) w :
  registered (emitted (bind (lift r) f w))
  = match r with inl _ => [] | inr a => registered (emitted (f a w)) end.
Proof. rewrite keys_bind. cbn. now destruct r. Qed.

(** The forward loop over the descriptors of suggestions. *)
Lemma transform_list_descriptors columns k kvs : forall ts idx data acc w r,
  describes kvs ts ->
  (forall x, In x (dict_keys acc) ->
             exists m i, i < idx /\ x = list_key k m i) ->
  value (transform_list columns k ts idx data acc w) = inr r ->
  dict_keys (snd r) = (dict_keys acc ++ suggestion_keys k idx kvs)%list.
Proof.
  induction kvs as [|[f method] kvs IH]; intros ts idx data acc w r Hd Hacc;
    inversion Hd as [|? t ? ts' (d & Hdesc & ->) Hd']; subst.
  - cbn. intros H. injection H as <-. cbn. now rewrite app_nil_r.
  - cbn [transform_list fst snd] in *.
    destruct (descriptor_shape f method d Hdesc) as (m & -> & Hm & Hdata).
    cbn [getitem_str]. unfold dict_item. rewrite Hm, bind_lift_ok.
    cbn [is_not_none py_str].
    intros Hv. apply bind_ok_inv in Hv. destruct Hv as (r1 & _ & Hv).
    assert (Hfresh : ~ In (list_key k m idx) (dict_keys acc)).
    { intros Hin. destruct (Hacc _ Hin) as (m' & i & Hlt & Heq).
      apply list_key_inj in Heq. lia. }
    assert (Hacc' : forall x,
              In x (dict_keys (dict_set acc (list_key k m idx) (snd r1))) ->
              exists m' i, i < S idx /\ x = list_key k m' i).
    { intros x Hin. rewrite (dict_set_fresh _ _ _ Hfresh) in Hin.
      apply in_app_iff in Hin. destruct Hin as [Hin|[<-|[]]].
      - destruct (Hacc _ Hin) as (m' & i & Hlt & Heq).
        exists m', i. split; [lia|exact Heq].
      - exists m, idx. split; [lia|reflexivity]. }
    rewrite (IH _ _ _ _ _ _ Hd' Hacc' Hv).
    rewrite (dict_set_fresh _ _ _ Hfresh), <- app_assoc. reflexivity.
Qed.

Lemma keys_transform_2d_descriptors data columns k kvs ts w out :
  describes kvs ts ->
  value (_transform_2d data columns (VList ts) k w) = inr out ->
  registered (emitted (_transform_2d data columns (VList ts) k w))
  = suggestion_keys k 0 kvs.
Proof.
  intros Hd. unfold _transform_2d.
  destruct ts as [|t ts].
  - inversion Hd; subst. cbn [truthy]. rewrite bind_ret. cbn [snd fst register].
    rewrite bind_ret. reflexivity.
  - change (truthy (VList (t :: ts))) with true. cbn iota.
    intros Hv. rewrite keys_bind.
    apply bind_ok_inv in Hv. destruct Hv as (r & Hr & _).
    assert (Hsil : silent
              (bind (transform_list columns k (t :: ts) 0 data [])
                 (fun r0 => bind (lift (dot_values (fst r0)))
                              (fun data0 => ret (data0, snd r0))))).
    { apply silent_bind; [apply silent_transform_list|].
      intros ?. apply silent_bind; [apply silent_lift|].
      intros ?. apply silent_ret. }
    rewrite Hsil, Hr. cbn [app].
    rewrite keys_bind, register_keys, register_value.
    cbn [ret emitted registered flat_map]. rewrite app_nil_r.
    apply bind_ok_inv in Hr. destruct Hr as (r0 & Hr0 & Hr).
    apply bind_ok_inv in Hr. destruct Hr as (d0 & _ & Hr).
    cbn in Hr. injection Hr as <-. cbn [snd].
    assert (Hnil : forall x,
              In x (dict_keys (@nil (string * ScalerEntry fitted))) ->
              exists m i, i < 0 /\ x = list_key k m i) by (intros x []).
    rewrite (transform_list_descriptors _ _ _ _ _ _ _ _ _ Hd Hnil Hr0).
    reflexivity.
Qed.

Lemma settings_names (w w' : world) :
  settings w' = settings w -> names (self w') = names (self w).
Proof. unfold settings. intros H. now injection H. Qed.

(** The keys that [fit_transform] writes for a 2-D array are those of
    [_transform_2d] under the names and the config of the instance and the
    base key [5]. *)
Lemma keys_of_array (a : ndarray2 cell) (w : world) out :
  config (self w) <> VNone ->
  value (fit_transform (PyArray2 a) w) = inr out ->
  let w4 := reflagged w (Some true) (Some false) (Some false) in
  exists w5 out',
    names (self w5) = names (self w) /\ config (self w5) = config (self w) /\
    value (_transform_2d (PyArray2 a) (names (self w)) (config (self w))
             "5" w5) = inr out' /\
    registered (emitted (fit_transform (PyArray2 a) w))
    = registered (emitted (_transform_2d (PyArray2 a) (names (self w))
                             (config (self w)) "5" w5)).
Proof.
  intros Hc Hv. cbn zeta.
  set (w4 := reflagged w (Some true) (Some false) (Some false)).
  assert (Hred :
    fit_transform (PyArray2 a) w
    = bind _check_features (fun _ =>
      bind (_fit_transform (PyArray2 a) "5") (fun data0 =>
      bind (lift (assert (String.eqb (class_name data0)
                            (class_name (PyArray2 a : pyobj cell)))))
        (fun _ => ret data0))) w4).
  { unfold fit_transform. rewrite bind_get_self.
    destruct (config (self w)); try (exfalso; apply Hc; reflexivity);
      rewrite (bind_step _ _ _ _ _ (set_is_numpy__step false w));
      rewrite (bind_step _ _ _ _ _ (set_is_list__step false _));
      rewrite (bind_step _ _ _ _ _ (set_is_dict__step false _));
      rewrite (bind_step _ _ _ _ _ (set_is_numpy__step true _));
      reflexivity. }
  rewrite Hred in Hv |- *.
  rewrite keys_bind, silent_check_features. cbn [app].
  apply bind_ok_inv in Hv. destruct Hv as (u & Hu & Hv). rewrite Hu.
  pose proof (respects_check_features same_settings same_settings_refl
                same_settings_trans w4) as Hs.
  set (w5 := after (_check_features w4)) in *.
  unfold same_settings in Hs.
  pose proof (settings_config _ _ Hs) as Hc5.
  destruct (settings_flags _ _ Hs) as (Hf5 & _ & _).
  pose proof (settings_names _ _ Hs) as Hn5.
  rewrite keys_bind.
  apply bind_ok_inv in Hv. destruct Hv as (data0 & Hd & Hv).
  rewrite Hd.
  assert (Hsil : silent
            (bind (lift (assert (String.eqb (class_name data0)
                                   (class_name (PyArray2 a : pyobj cell)))))
               (fun _ => ret data0))).
  { apply silent_bind; [apply silent_lift|]. intros ?. apply silent_ret. }
  rewrite Hsil, app_nil_r.
  assert (Heq : _fit_transform (PyArray2 a) "5" w5
                = _transform_2d (PyArray2 a) (names (self w))
                    (config (self w)) "5" w5).
  { unfold _fit_transform. rewrite bind_get_self, Hf5.
    cbn [w4 reflagged self is_numpy_ attribute]. rewrite bind_ret.
    cbn [__fit_transform transformation]. now rewrite Hn5, Hc5. }
  rewrite Heq in Hd |- *.
  exists w5, data0. split; [exact Hn5|]. split; [exact Hc5|].
  split; [exact Hd|reflexivity].
Qed.

(** The two files together.  [OptimizeTransformations.update] writes
    the list [x_transformation]; an instance of [Transformations] with
    that list as config, when it returns from [fit_transform] of a 2-D
    array, has registered one scaler for every suggestion that names an
    input feature and is not none, in the order of the suggestions, under
    the key [5_method_position]. *)
Theorem update_then_fit_transform (fs : list string)
    (cfg cfg' suggestions : dict pyval) (spec : pyval)
    (a : ndarray2 cell) (w : world) (out : pyobj cell) :
  Update.update fs cfg suggestions = ok cfg' ->
  dict_get cfg' "x_transformation" = Some spec ->
  config (self w) = spec ->
  value (fit_transform (PyArray2 a) w) = inr out ->
  registered (emitted (fit_transform (PyArray2 a) w))
  = suggestion_keys "5" 0 (for_inputs fs suggestions).
Proof.
  intros Hup Hx Hc Hv.
  destruct (UpdateFacts.update_partitions_suggestions _ _ _ _ Hup)
    as (ts & ys & Hts & Hdesc & _).
  rewrite Hx in Hts. injection Hts as ->.
  assert (Hnn : config (self w) <> VNone) by (rewrite Hc; discriminate).
  destruct (keys_of_array a w out Hnn Hv) as (w5 & out' & _ & _ & Hv' & Hk).
  rewrite Hk. rewrite Hc in Hv' |- *.
  eapply keys_transform_2d_descriptors; eassumption.
Qed.

End Composition.
(** * Runs on concrete data *)

(** A string, which is no container at all, passes through an instance
    without config. *)
Lemma fit_transform_without_config_witness :
  config (self (Toy.start (VList [VStr "a"]) VNone)) = VNone /\
  @fit_transform Toy.backend (PyStr "not a container")
    (Toy.start (VList [VStr "a"]) VNone)
  = mkOutcome (inr (PyStr "not a container"))
      (Toy.start (VList [VStr "a"]) VNone) [].
Proof.
  split.
  - reflexivity.
  - apply (@fit_transform_without_config Toy.backend). reflexivity.
Defined.

(** With a config the same string is rejected. *)
Lemma fit_transform_rejects_other_objects :
  value (@fit_transform Toy.backend (PyStr "not a container")
           (Toy.start (VList [VStr "a"]) (VStr "minmax")))
  = inl ValueError.
Proof. reflexivity. Qed.

(** The docstring example: two features, the methods minmax and zscore
    in a list; the inverse of the returned array is a frame. *)
Lemma inverse_of_docstring_example_is_frame :
  let w := Toy.start (VList [VStr "a"; VStr "b"])
             (VList [VStr "minmax"; VStr "zscore"]) in
  let x := PyArray2 (Toy.array 2 [[0; 1]; [2; 3]]%Z) in
  let forward := @fit_transform Toy.backend x w in
  exists out df,
    value forward = inr out /\ class_name out = "ndarray" /\
    value (@inverse_transform Toy.backend out (after forward))
    = inr (PyFrame df) /\
    df_rows df = rows2 (Toy.array 2 [[0; 1]; [2; 3]]%Z).
Proof.
  cbv zeta. eexists. eexists.
  split; [vm_compute; reflexivity|].
  split; [reflexivity|].
  split; [vm_compute; reflexivity|].
  vm_compute. reflexivity.
Qed.





(** The same at the top level. *)
Lemma list_of_methods_order_example :
  let w := Toy.start (VList [VStr "a"]) (VList [VStr "A"; VStr "B"]) in
  let forward := @fit_transform Toy.backend (PyArray2 (Toy.array 1 [[7%Z]])) w in
  emitted forward
  = [Transform_called (method_kwargs "A");
     Transform_called (method_kwargs "B");
     Registered "5_A_0"; Registered "5_B_1"] /\
  emitted (@inverse_transform Toy.backend (PyArray2 (Toy.array 1 [[7%Z]]))
             (after forward))
  = [Inverse_called (method_kwargs "B") ("B" : @fitted Toy.backend);
     Inverse_called (method_kwargs "A") ("A" : @fitted Toy.backend)].
Proof. cbv zeta. split; vm_compute; reflexivity. Qed.



(** ** Runs of the further properties *)

Lemma make_space_default_witness :
  NoDup ["a"; "b"] /\
  Optimize.make_space ["a"; "b"] ["none"; "log"]
    Optimize.IncNone Optimize.ExNone Optimize.ApNone
  = ok [ Optimize.mkCategorical ["none"; "log"] "a";
         Optimize.mkCategorical ["none"; "log"] "b" ].
Proof.
  assert (H : NoDup ["a"; "b"]) by (apply distinct_NoDup; reflexivity).
  split; [exact H|].
  apply (SpaceFacts.make_space_default ["a"; "b"] ["none"; "log"] H).
Defined.

Lemma include_list_of_names_witness :
  NoDup ["c"; "a"] /\ incl ["c"; "a"] ["a"; "b"; "c"] /\
  Optimize.make_space ["a"; "b"; "c"] ["none"; "log"]
    (Optimize.IncList [Optimize.FStr "c"; Optimize.FStr "a"])
    Optimize.ExNone Optimize.ApNone
  = ok [ Optimize.mkCategorical ["none"; "log"] "c";
         Optimize.mkCategorical ["none"; "log"] "a" ].
Proof.
  assert (H : NoDup ["c"; "a"]) by (apply distinct_NoDup; reflexivity).
  assert (Hin : incl ["c"; "a"] ["a"; "b"; "c"]).
  { intros x Hx. apply str_in_spec.
    destruct Hx as [<-|[<-|[]]]; reflexivity. }
  split; [exact H|]. split; [exact Hin|].
  apply (SpaceFacts.include_list_of_names ["a"; "b"; "c"] ["none"; "log"]
           ["c"; "a"] H Hin).
Defined.

Lemma exclude_list_of_names_witness :
  NoDup ["a"; "b"; "c"] /\ NoDup ["b"] /\ incl ["b"] ["a"; "b"; "c"] /\
  Optimize.make_space ["a"; "b"; "c"] ["none"; "log"]
    Optimize.IncNone (Optimize.ExList ["b"]) Optimize.ApNone
  = ok [ Optimize.mkCategorical ["none"; "log"] "a";
         Optimize.mkCategorical ["none"; "log"] "c" ].
Proof.
  assert (H : NoDup ["a"; "b"; "c"]) by (apply distinct_NoDup; reflexivity).
  assert (Hl : NoDup ["b"]) by (apply distinct_NoDup; reflexivity).
  assert (Hin : incl ["b"] ["a"; "b"; "c"]).
  { intros x Hx. apply str_in_spec. destruct Hx as [<-|[]]; reflexivity. }
  split; [exact H|]. split; [exact Hl|]. split; [exact Hin|].
  apply (SpaceFacts.exclude_list_of_names ["a"; "b"; "c"] ["none"; "log"]
           ["b"] H Hl Hin).
Defined.

(** A feature excluded twice. *)
Lemma exclude_list_unknown_name_witness :
  ~ (NoDup ["a"; "a"] /\ incl ["a"; "a"] ["a"; "b"]) /\
  exists k, In k ["a"; "a"] /\
    Optimize.make_space ["a"; "b"] ["none"; "log"]
      Optimize.IncNone (Optimize.ExList ["a"; "a"]) Optimize.ApNone
    = throw (KeyError k).
Proof.
  assert (H : ~ (NoDup ["a"; "a"] /\ incl ["a"; "a"] ["a"; "b"])).
  { intros [Hnd _]. inversion Hnd as [|? ? Hn _]. apply Hn. now left. }
  split; [exact H|].
  apply (SpaceFacts.exclude_list_unknown_name ["a"; "b"] ["none"; "log"]
           ["a"; "a"] Optimize.ApNone H).
Defined.

Lemma append_one_feature_witness :
  NoDup ["a"; "b"] /\
  Optimize.make_space ["a"; "b"] ["none"; "log"]
    Optimize.IncNone Optimize.ExNone
    (Optimize.ApDict [("a", Optimize.CList ["zscore"])])
  = ok [ Optimize.mkCategorical ["zscore"] "a";
         Optimize.mkCategorical ["none"; "log"] "b" ].
Proof.
  assert (H : NoDup ["a"; "b"]) by (apply distinct_NoDup; reflexivity).
  split; [exact H|].
  apply (SpaceFacts.append_one_feature ["a"; "b"] ["none"; "log"] "a"
           ["zscore"] H).
Defined.

Lemma make_space_names_distinct_witness :
  SpaceNotions.well_named_include (Optimize.IncStr "a") /\
  SpaceNotions.well_named_append
    (Optimize.ApDict [("a", Optimize.CList ["zscore"]);
                      ("d", Optimize.CList ["log"])]) /\
  Optimize.make_space ["a"; "b"] ["none"; "log"] (Optimize.IncStr "a")
    Optimize.ExNone
    (Optimize.ApDict [("a", Optimize.CList ["zscore"]);
                      ("d", Optimize.CList ["log"])])
  = ok [ Optimize.mkCategorical ["zscore"] "a";
         Optimize.mkCategorical ["log"] "d" ] /\
  NoDup (map Optimize.name
           [ Optimize.mkCategorical ["zscore"] "a";
             Optimize.mkCategorical ["log"] "d" ]).
Proof.
  assert (Hi : SpaceNotions.well_named_include (Optimize.IncStr "a"))
    by exact I.
  assert (Ha : SpaceNotions.well_named_append
                 (Optimize.ApDict [("a", Optimize.CList ["zscore"]);
                                   ("d", Optimize.CList ["log"])]))
    by (repeat constructor).
  split; [exact Hi|]. split; [exact Ha|]. split; [reflexivity|].
  apply (SpaceFacts.make_space_names_distinct ["a"; "b"] ["none"; "log"]
           (Optimize.IncStr "a") Optimize.ExNone
           (Optimize.ApDict [("a", Optimize.CList ["zscore"]);
                             ("d", Optimize.CList ["log"])])
           _ Hi Ha eq_refl).
Defined.

(** Suggestions for two input features and the output feature. *)
Lemma update_partitions_suggestions_witness :
  let sug := [("a", VStr "log"); ("b", VStr "none"); ("y", VStr "minmax")] in
  let config := [("x_transformation", VStr "zscore"); ("seed", VInt 313)] in
  let config' :=
    [("x_transformation",
      VList [VDict [("method", VStr "log"); ("features", VList [VStr "a"]);
                    ("treat_negatives", VBool true);
                    ("replace_zeros", VBool true)]]);
     ("seed", VInt 313);
     ("y_transformation",
      VList [VDict [("method", VStr "minmax");
                    ("features", VList [VStr "y"])]])] in
  Update.update ["a"; "b"] config sug = ok config' /\
  exists xs ys,
    dict_get config' "x_transformation" = Some (VList xs) /\
    UpdateNotions.describes (UpdateNotions.for_inputs ["a"; "b"] sug) xs /\
    dict_get config' "y_transformation" = Some (Update.or_None ys) /\
    UpdateNotions.describes (UpdateNotions.for_outputs ["a"; "b"] sug) ys.
Proof.
  cbv zeta. split; [reflexivity|].
  apply (UpdateFacts.update_partitions_suggestions ["a"; "b"]
           [("x_transformation", VStr "zscore"); ("seed", VInt 313)]
           [("a", VStr "log"); ("b", VStr "none"); ("y", VStr "minmax")]).
  reflexivity.
Defined.

Lemma update_all_none_witness :
  Forall (fun kv : string * pyval => snd kv = VStr "none")
    [("a", VStr "none"); ("b", VStr "none")] /\
  Update.update ["a"; "b"] [("seed", VInt 313)]
    [("a", VStr "none"); ("b", VStr "none")]
  = ok [("seed", VInt 313); ("x_transformation", VList []);
        ("y_transformation", VNone)].
Proof.
  assert (H : Forall (fun kv : string * pyval => snd kv = VStr "none")
                [("a", VStr "none"); ("b", VStr "none")])
    by (repeat constructor).
  split; [exact H|].
  apply (UpdateFacts.update_all_none ["a"; "b"] [("seed", VInt 313)] _ H).
Defined.

Lemma update_touches_two_keys_witness :
  Update.update ["a"] [("seed", VInt 313)] [("a", VStr "log")]
  = ok [("seed", VInt 313);
        ("x_transformation",
         VList [VDict [("method", VStr "log"); ("features", VList [VStr "a"]);
                       ("treat_negatives", VBool true);
                       ("replace_zeros", VBool true)]]);
        ("y_transformation", VNone)] /\
  "seed" <> "x_transformation" /\ "seed" <> "y_transformation" /\
  dict_get
    [("seed", VInt 313);
     ("x_transformation",
      VList [VDict [("method", VStr "log"); ("features", VList [VStr "a"]);
                    ("treat_negatives", VBool true);
                    ("replace_zeros", VBool true)]]);
     ("y_transformation", VNone)] "seed"
  = dict_get [("seed", VInt 313)] "seed".
Proof.
  assert (H1 : "seed" <> "x_transformation") by discriminate.
  assert (H2 : "seed" <> "y_transformation") by discriminate.
  split; [reflexivity|]. split; [exact H1|]. split; [exact H2|].
  apply (UpdateFacts.update_touches_two_keys ["a"] [("seed", VInt 313)]
           [("a", VStr "log")] _ "seed" eq_refl H1 H2).
Defined.

(** A frame handed to an instance with a config. *)
Lemma fit_transform_sets_flags_witness :
  let w := Toy.start (VList [VStr "a"]) (VStr "minmax") in
  let data := PyList [PyArray2 (Toy.array 1 [[1%Z]])] in
  config (self w) <> VNone /\
  is_numpy_ (self (after (@fit_transform Toy.backend data w))) = Some false /\
  is_list_ (self (after (@fit_transform Toy.backend data w))) = Some true /\
  is_dict_ (self (after (@fit_transform Toy.backend data w))) = Some false.
Proof.
  cbv zeta.
  assert (H : config (self (Toy.start (VList [VStr "a"]) (VStr "minmax")))
              <> VNone) by discriminate.
  split; [exact H|].
  apply (@fit_transform_sets_flags Toy.backend
           (PyList [PyArray2 (Toy.array 1 [[1%Z]])])
           (Toy.start (VList [VStr "a"]) (VStr "minmax")) H).
Defined.

Lemma fit_transform_rejects_other_kinds_witness :
  let w := Toy.start (VList [VStr "a"]) (VStr "minmax") in
  let data := PyFrame (mkFrame [LStr "a"] [[Toy.Num 1%Q]]) in
  config (self w) <> VNone /\
  class_name data <> "ndarray" /\
  class_name data <> "list" /\
  class_name data <> "dict" /\
  value (@fit_transform Toy.backend data w) = inl ValueError.
Proof.
  cbv zeta.
  assert (H : config (self (Toy.start (VList [VStr "a"]) (VStr "minmax")))
              <> VNone) by discriminate.
  assert (H1 : class_name (PyFrame (mkFrame [LStr "a"] [[Toy.Num 1%Q]]))
               <> "ndarray") by discriminate.
  assert (H2 : class_name (PyFrame (mkFrame [LStr "a"] [[Toy.Num 1%Q]]))
               <> "list") by discriminate.
  assert (H3 : class_name (PyFrame (mkFrame [LStr "a"] [[Toy.Num 1%Q]]))
               <> "dict") by discriminate.
  split; [exact H|]. split; [exact H1|]. split; [exact H2|].
  split; [exact H3|].
  destruct (@fit_transform_rejects_other_kinds Toy.backend
              (PyFrame (mkFrame [LStr "a"] [[Toy.Num 1%Q]]))
              (Toy.start (VList [VStr "a"]) (VStr "minmax")) H H1 H2 H3)
    as [Hv _].
  rewrite Hv. reflexivity.
Defined.


(** Feature names given as a dictionary for an array. *)
Lemma fit_transform_checks_names_witness :
  let w := Toy.start (VDict [("x", VList [VStr "a"])]) (VStr "minmax") in
  let data := PyArray2 (Toy.array 1 [[1%Z]]) in
  config (self w) <> VNone /\
  class_name data = "ndarray" /\ val_class (names (self w)) <> "list" /\
  value (@fit_transform Toy.backend data w) = inl AssertionError /\
  emitted (@fit_transform Toy.backend data w) = [] /\
  scalers (self (after (@fit_transform Toy.backend data w))) = [].
Proof.
  cbv zeta.
  assert (H : config (self (Toy.start (VDict [("x", VList [VStr "a"])])
                              (VStr "minmax"))) <> VNone) by discriminate.
  assert (Hn : val_class (names (self (Toy.start
                 (VDict [("x", VList [VStr "a"])]) (VStr "minmax"))))
               <> "list") by discriminate.
  split; [exact H|]. split; [reflexivity|]. split; [exact Hn|].
  apply (@fit_transform_checks_names Toy.backend
           (PyArray2 (Toy.array 1 [[1%Z]]))
           (Toy.start (VDict [("x", VList [VStr "a"])]) (VStr "minmax")) H).
  left. split; [reflexivity|exact Hn].
Defined.

(** The empty string as config, and feature names that do not even fit
    the two columns of the array. *)
Lemma fit_transform_empty_spec_witness :
  let w := Toy.start (VList [VStr "a"]) (VStr "") in
  let a := Toy.array 2 [[1; 2]]%Z in
  config (self w) <> VNone /\ truthy (config (self w)) = false /\
  val_class (names (self w)) = "list" /\
  @fit_transform Toy.backend (PyArray2 a) w
  = mkOutcome (inr (PyArray2 a))
      (reflagged w (Some true) (Some false) (Some false)) [].
Proof.
  cbv zeta.
  assert (H : config (self (Toy.start (VList [VStr "a"]) (VStr "")))
              <> VNone) by discriminate.
  split; [exact H|]. split; [reflexivity|]. split; [reflexivity|].
  apply (@fit_transform_empty_spec Toy.backend (Toy.array 2 [[1; 2]]%Z)
           (Toy.start (VList [VStr "a"]) (VStr "")) H eq_refl eq_refl).
Defined.

(** The empty string as config again: nothing was registered on the way
    in, and the way back asks for the key [5]. *)
Lemma inverse_without_scaler_witness :
  let w := Toy.start (VList [VStr "a"]) (VStr "") in
  let a := Toy.array 1 [[1%Z]] in
  let w1 := after (@fit_transform Toy.backend (PyArray2 a) w) in
  is_numpy_ (self w1) = Some true /\
  config (self w1) = VStr "" /\
  @pd_DataFrame Toy.backend (PyArray2 a) (names (self w1))
  = inr (mkFrame [LStr "a"] (rows2 a)) /\
  dict_mem (scalers (self w1)) "5" = false /\
  @inverse_transform Toy.backend (PyArray2 a) w1
  = mkOutcome (inl (ValueError_key_not_found "5" [])) w1 [].
Proof.
  cbv zeta.
  split; [reflexivity|]. split; [reflexivity|]. split; [reflexivity|].
  split; [reflexivity|].
  apply (@inverse_without_scaler Toy.backend (Toy.array 1 [[1%Z]]) ""
           (after (@fit_transform Toy.backend
                     (PyArray2 (Toy.array 1 [[1%Z]]))
                     (Toy.start (VList [VStr "a"]) (VStr ""))))
           (mkFrame [LStr "a"] (rows2 (Toy.array 1 [[1%Z]])))
           eq_refl eq_refl eq_refl eq_refl).
Defined.

Lemma inverse_of_descriptor_without_features_witness :
  let kwargs := [("method", VStr "minmax")] in
  let w := Toy.start (VList [VStr "a"]) (VDict kwargs) in
  let a := Toy.array 1 [[1%Z]] in
  let forward := @fit_transform Toy.backend (PyArray2 a) w in
  (exists out, value forward = inr out) /\
  dict_keys (scalers (self (after forward))) = ["5"] /\
  is_numpy_ (self (after forward)) = Some true /\
  config (self (after forward)) = VDict kwargs /\
  dict_get kwargs "features" = None /\
  @pd_DataFrame Toy.backend (PyArray2 a) (names (self (after forward)))
  = inr (mkFrame [LStr "a"] (rows2 a)) /\
  @inverse_transform Toy.backend (PyArray2 a) (after forward)
  = mkOutcome (inl (KeyError "features")) (after forward) [].
Proof.
  cbv zeta.
  split; [eexists; vm_compute; reflexivity|].
  split; [vm_compute; reflexivity|].
  split; [vm_compute; reflexivity|].
  split; [vm_compute; reflexivity|].
  split; [reflexivity|].
  split; [vm_compute; reflexivity|].
  apply (@inverse_of_descriptor_without_features Toy.backend
           (Toy.array 1 [[1%Z]]) [("method", VStr "minmax")]
           (after (@fit_transform Toy.backend
                     (PyArray2 (Toy.array 1 [[1%Z]]))
                     (Toy.start (VList [VStr "a"])
                        (VDict [("method", VStr "minmax")]))))
           (mkFrame [LStr "a"] (rows2 (Toy.array 1 [[1%Z]])))).
  - vm_compute. reflexivity.
  - vm_compute. reflexivity.
  - reflexivity.
  - vm_compute. reflexivity.
Defined.


(** A frame with the column b, and the features a and b. *)
Lemma conform_shape_adds_features_witness :
  let w := Toy.start (VList [VStr "a"; VStr "b"]) (VStr "minmax") in
  let df := mkFrame [LStr "b"] [[Toy.Num 1%Q]; [Toy.Num 2%Q]] in
  let fs := [VStr "a"; VStr "b"] in
  length [2; 2] = 2 /\ fs <> [] /\
  labels_of_list fs = inr [LStr "a"; LStr "b"] /\
  exists df',
    value (@conform_shape Toy.backend (PyFrame df) [2; 2] (VList fs) w)
    = inr (PyFrame df', 1%Z) /\
    (exists extra, df_columns df' = (df_columns df ++ extra)%list) /\
    Forall (fun a => label_in a (df_columns df') = true)
      [LStr "a"; LStr "b"] /\
    @grown Toy.backend (df_rows df) (df_rows df').
Proof.
  cbv zeta.
  assert (Hfs : [VStr "a"; VStr "b"] <> []) by discriminate.
  split; [reflexivity|]. split; [exact Hfs|]. split; [reflexivity|].
  destruct (@conform_shape_adds_features Toy.backend
              (mkFrame [LStr "b"] [[Toy.Num 1%Q]; [Toy.Num 2%Q]])
              [2; 2] [VStr "a"; VStr "b"] [LStr "a"; LStr "b"]
              (Toy.start (VList [VStr "a"; VStr "b"]) (VStr "minmax"))
              eq_refl Hfs eq_refl)
    as (df' & Hv & _ & Hcols & Hall & Hrows).
  exists df'. split; [exact Hv|]. split; [exact Hcols|].
  split; [exact Hall|exact Hrows].
Defined.

(** A frame of three columns and a target of two. *)
Lemma conform_shape_of_wide_frame_witness :
  let w := Toy.start (VList [VStr "a"]) (VStr "minmax") in
  let df := mkFrame [LStr "a"; LStr "b"; LStr "c"]
              [[Toy.Num 1%Q; Toy.Num 2%Q; Toy.Num 3%Q]] in
  length [1; 2] = 2 /\
  Z.le (last_dim [1; 2]) (Z.of_nat (length (df_columns df))) /\
  @conform_shape Toy.backend (PyFrame df) [1; 2] VNone w
  = mkOutcome (inr (PyFrame df, (-1)%Z)) w [].
Proof.
  cbv zeta.
  assert (Hw : Z.le (last_dim [1; 2])
                 (Z.of_nat (length [LStr "a"; LStr "b"; LStr "c"])))
    by (vm_compute; discriminate).
  split; [reflexivity|]. split; [exact Hw|].
  apply (@conform_shape_of_wide_frame Toy.backend
           (mkFrame [LStr "a"; LStr "b"; LStr "c"]
              [[Toy.Num 1%Q; Toy.Num 2%Q; Toy.Num 3%Q]])
           [1; 2] (Toy.start (VList [VStr "a"]) (VStr "minmax"))
           eq_refl Hw).
Defined.

(** A dictionary with a rank-3 source and a 2-D source. *)
Lemma fit_transform_keeps_layout_witness :
  let nms := VDict [("x1", VList [VStr "a"]); ("x2", VList [VStr "a"])] in
  let w := Toy.start nms (VStr "minmax") in
  let data := PyDict [("x1", PyArray3 (mkArray3 2 1
                                         [[[Toy.Num 1%Q]; [Toy.Num 2%Q]]]));
                      ("x2", PyArray2 (Toy.array 1 [[3%Z]]))] in
  let out := PyDict [("x1", PyArray3 (mkArray3 2 1
                                        [[[Toy.Num (-1)%Q];
                                          [Toy.Num (-2)%Q]]]));
                     ("x2", PyArray2 (mkArray2 1 [[Toy.Num (-3)%Q]]))] in
  value (@fit_transform Toy.backend data w) = inr out /\
  @same_layout Toy.backend data out.
Proof.
  cbv zeta. split; [vm_compute; reflexivity|].
  apply (@fit_transform_keeps_layout Toy.backend _ _
           (Toy.start
              (VDict [("x1", VList [VStr "a"]); ("x2", VList [VStr "a"])])
              (VStr "minmax"))).
  vm_compute. reflexivity.
Defined.

(** A list with a rank-3 source of two time steps and a 2-D source. *)
Lemma fit_transform_key_scheme_witness :
  let w := Toy.start (VList [VList [VStr "a"]; VList [VStr "a"]])
             (VStr "minmax") in
  let data := PyList [PyArray3 (mkArray3 2 1
                                  [[[Toy.Num 1%Q]; [Toy.Num 2%Q]]]);
                      PyArray2 (Toy.array 1 [[3%Z]])] in
  "minmax" <> "" /\ config (self w) = VStr "minmax" /\
  (exists out, value (@fit_transform Toy.backend data w) = inr out) /\
  registered (emitted (@fit_transform Toy.backend data w))
  = ["5_0_0"; "5_0_1"; "5_1"].
Proof.
  cbv zeta.
  assert (Hm : "minmax" <> "") by discriminate.
  split; [exact Hm|]. split; [reflexivity|].
  split; [eexists; vm_compute; reflexivity|].
  rewrite (@fit_transform_key_scheme Toy.backend
             (PyList [PyArray3 (mkArray3 2 1
                                  [[[Toy.Num 1%Q]; [Toy.Num 2%Q]]]);
                      PyArray2 (Toy.array 1 [[3%Z]])])
             (PyList [PyArray3 (mkArray3 2 1
                                  [[[Toy.Num (-1)%Q]; [Toy.Num (-2)%Q]]]);
                      PyArray2 (mkArray2 1 [[Toy.Num (-3)%Q]])])
             "minmax"
             (Toy.start (VList [VList [VStr "a"]; VList [VStr "a"]])
                (VStr "minmax")) Hm eq_refl).
  - vm_compute. reflexivity.
  - vm_compute. reflexivity.
Defined.

(** The docstring example: two features, the methods minmax and zscore
    in a list. *)
Lemma list_round_trip_witness :
  let xs := [VStr "a"; VStr "b"] in
  let ms := ["minmax"; "zscore"] in
  let w := Toy.start (VList xs) (method_list ms) in
  let a := Toy.array 2 [[0; 1]; [2; 3]]%Z in
  config (self w) = method_list ms /\
  names (self w) = VList xs /\
  labels_of_list xs = inr [LStr "a"; LStr "b"] /\
  nodup_labels [LStr "a"; LStr "b"] = true /\
  ncols a = length [LStr "a"; LStr "b"] /\
  rectangular (ncols a) (rows2 a) /\
  Forall (@exact_method Toy.backend [LStr "a"; LStr "b"]) ms /\
  exists out,
    value (@fit_transform Toy.backend (PyArray2 a) w) = inr out /\
    class_name out = "ndarray" /\
    value (@inverse_transform Toy.backend out
             (after (@fit_transform Toy.backend (PyArray2 a) w)))
    = inr (PyFrame (mkFrame [LStr "a"; LStr "b"] (rows2 a))).
Proof.
  cbv zeta.
  assert (Hr : rectangular (ncols (Toy.array 2 [[0; 1]; [2; 3]]%Z))
                 (rows2 (Toy.array 2 [[0; 1]; [2; 3]]%Z)))
    by (repeat constructor).
  assert (Hex : Forall (@exact_method Toy.backend [LStr "a"; LStr "b"])
                  ["minmax"; "zscore"])
    by (repeat constructor; apply toy_methods_exact).
  split; [reflexivity|]. split; [reflexivity|]. split; [reflexivity|].
  split; [reflexivity|]. split; [reflexivity|]. split; [exact Hr|].
  split; [exact Hex|].
  apply (@list_round_trip Toy.backend (Toy.array 2 [[0; 1]; [2; 3]]%Z)
           [VStr "a"; VStr "b"] [LStr "a"; LStr "b"] ["minmax"; "zscore"]
           (Toy.start (VList [VStr "a"; VStr "b"])
              (method_list ["minmax"; "zscore"]))
           eq_refl eq_refl eq_refl eq_refl eq_refl Hr Hex).
Defined.

(** One source, one list of feature names, one spec. *)
Lemma fit_transform_needs_every_source_witness :
  let w := Toy.start (VList [VList [VStr "a"]]) (VList [VStr "minmax"]) in
  let data := PyList [PyArray2 (Toy.array 1 [[1%Z]])] in
  config (self w) <> VNone /\
  value (@fit_transform Toy.backend data w)
  = inr (PyList [PyArray2 (mkArray2 1 [[Toy.Num (-1)%Q]])]) /\
  length [PyArray2 (Toy.array 1 [[1%Z]])] <= length [VList [VStr "a"]] /\
  length [PyArray2 (Toy.array 1 [[1%Z]])] <= length [VStr "minmax"].
Proof.
  cbv zeta.
  assert (Hc : config (self (Toy.start (VList [VList [VStr "a"]])
                               (VList [VStr "minmax"]))) <> VNone)
    by discriminate.
  assert (Hv : value (@fit_transform Toy.backend
                        (PyList [PyArray2 (Toy.array 1 [[1%Z]])])
                        (Toy.start (VList [VList [VStr "a"]])
                           (VList [VStr "minmax"])))
               = inr (PyList [PyArray2 (mkArray2 1 [[Toy.Num (-1)%Q]])]))
    by (vm_compute; reflexivity).
  split; [exact Hc|]. split; [exact Hv|].
  destruct (@fit_transform_needs_every_source Toy.backend _ _ _ Hc Hv)
    as (H1 & H2 & _).
  split.
  - apply (H1 _ _ eq_refl eq_refl).
  - apply (H2 _ _ eq_refl eq_refl).
Defined.

(** Suggestions for three input features, one of them none, and for the
    output. *)
Lemma update_then_fit_transform_witness :
  let fs := ["a"; "b"; "c"] in
  let sug := [("a", VStr "log"); ("b", VStr "none"); ("c", VStr "minmax");
              ("y", VStr "zscore")] in
  let spec :=
    VList [VDict [("method", VStr "log"); ("features", VList [VStr "a"]);
                  ("treat_negatives", VBool true);
                  ("replace_zeros", VBool true)];
           VDict [("method", VStr "minmax");
                  ("features", VList [VStr "c"])]] in
  let cfg' :=
    [("x_transformation", spec);
     ("y_transformation",
      VList [VDict [("method", VStr "zscore");
                    ("features", VList [VStr "y"])]])] in
  let w := Toy.start (VList [VStr "a"; VStr "b"; VStr "c"]) spec in
  let a := Toy.array 3 [[1; 2; 3]]%Z in
  Update.update fs [] sug = ok cfg' /\
  dict_get cfg' "x_transformation" = Some spec /\
  config (self w) = spec /\
  value (@fit_transform Toy.backend (PyArray2 a) w)
  = inr (PyArray2 a) /\
  registered (emitted (@fit_transform Toy.backend (PyArray2 a) w))
  = ["5_log_0"; "5_minmax_1"].
Proof.
  cbv zeta.
  split; [reflexivity|]. split; [reflexivity|]. split; [reflexivity|].
  split; [vm_compute; reflexivity|].
  erewrite (@update_then_fit_transform Toy.backend ["a"; "b"; "c"] [] _
              [("a", VStr "log"); ("b", VStr "none"); ("c", VStr "minmax");
               ("y", VStr "zscore")]).
  - reflexivity.
  - reflexivity.
  - reflexivity.
  - reflexivity.
  - vm_compute. reflexivity.
Defined.
